(** * Eight Sleep client: gateway and session manager

    A shallow embedding of the two integration copies
    [homeassistant/components/8slp] and [homeassistant/components/eightslp]
    ([eightslp_api.py], [eightslp_client.py]) and the properties of their
    token lifecycle, side binding and request construction.

    Python objects that are mutated and shared (the class-level [sides]
    dictionary, the [BedStatus] objects it refers to) live in an explicit
    heap; network calls and the wall clock are an environment that the
    code queries and that records every request issued. *)

From Stdlib Require Import ZArith Lia.
From stdpp Require Import base gmap list strings fin_maps.

(** ** Python values *)

(** Values produced by [json.loads]. JSON numbers are restricted to
    integers, which is what the service sends for levels, durations and
    token lifetimes; [JDict] is the parsed dictionary (keys unique). *)
#[local] Set Warnings "-register-all".
Inductive json : Type :=
  | JNull
  | JBool (b : bool)
  | JInt (z : Z)
  | JStr (s : string)
  | JList (l : list json)
  | JDict (kv : list (string * json)).

(** Exceptions. The first group is what the Python code can raise; the
    second group is the error taxonomy of the specification, for which the
    source defines no class and has no [raise] statement. [Unmodelled]
    marks a run that leaves the modelled fragment (an identifier that is
    not a string, where Python would carry the value on). *)
Inductive exn : Type :=
  | KeyError (key : string)
  | TypeError
  | ValueError
  | AttributeError (name : string)
  | OverflowError
  | JSONDecodeError
  | RequestException
  | PyException (msg : string)
  | ConfigurationError
  | AuthenticationError
  | TransportError
  | ProtocolError
  | Unmodelled.

Inductive Result (A : Type) : Type :=
  | Ok (a : A)
  | Raise (e : exn).
Arguments Ok {A} a.
Arguments Raise {A} e.

(** [d[k]] and [d[k] = v] on a dictionary kept in insertion order. *)
Fixpoint dict_get {V : Type} (k : string) (d : list (string * V)) : option V :=
  match d with
  | [] => None
  | (k', v) :: d' => if String.eqb k k' then Some v else dict_get k d'
  end.

Fixpoint dict_set {V : Type} (k : string) (v : V) (d : list (string * V))
  : list (string * V) :=
  match d with
  | [] => [(k, v)]
  | (k', v') :: d' =>
      if String.eqb k k' then (k', v) :: d' else (k', v') :: dict_set k v d'
  end.

(** [j[k]] for a string key: only a dictionary can be subscripted by a
    string; lists, strings, numbers and [None] raise [TypeError]. *)
Definition subscript (j : json) (k : string) : Result json :=
  match j with
  | JDict kv =>
      match dict_get k kv with
      | Some v => Ok v
      | None => Raise (KeyError k)
      end
  | _ => Raise TypeError
  end.

(** Truth value of a JSON value in an [if]. *)
Definition truthy (j : json) : bool :=
  match j with
  | JNull => false
  | JBool b => b
  | JInt z => negb (z =? 0)%Z
  | JStr s => negb (String.eqb s "")
  | JList l => match l with [] => false | _ => true end
  | JDict kv => match kv with [] => false | _ => true end
  end.

(** An f-string field for an identifier that is a [str] or [None]. *)
Definition fmt (o : option string) : string :=
  match o with
  | Some s => s
  | None => "None"
  end.

Definition json_of (o : option string) : json :=
  match o with
  | Some s => JStr s
  | None => JNull
  end.

(** ** Rounding

    [round(v, -1)] on an [int] is [int.__round__]: [v - r] where
    [(q, r) = divmod_near(v, 10)], the quotient taken to the nearest
    integer with ties going to the even quotient. *)
Definition divmod_near (a b : Z) : Z * Z :=
  let q := (a / b)%Z in
  let r := (a mod b)%Z in
  if ((b <? 2 * r)%Z || ((2 * r =? b)%Z && Z.odd q))%bool
  then ((q + 1)%Z, (r - b)%Z)
  else (q, r).

Definition py_round_tens (v : Z) : Z := (v - snd (divmod_near v 10))%Z.

(** The [float] nearest to an integer [q], ties going to the even
    significand of 53 bits, and [OverflowError] when that is beyond the
    largest [float]. An integer of magnitude up to [2^53] is a [float]
    as it is; above, [e] low bits are rounded away. The result is an
    integer in every case and is kept as one. *)
Definition float_of_int (q : Z) : Result Z :=
  let n := Z.abs q in
  let e := Z.max 0 (Z.log2 n - 52) in
  let f := (fst (divmod_near n (2 ^ e)) * 2 ^ e)%Z in
  if (1024 <=? Z.log2 f)%Z then Raise OverflowError
  else Ok (Z.sgn q * f)%Z.

(** The magnitude of the [float] nearest to an integer of magnitude [n]. *)
Definition float_magnitude (n : Z) : Z :=
  (fst (divmod_near n (2 ^ Z.max 0 (Z.log2 n - 52)))
   * 2 ^ Z.max 0 (Z.log2 n - 52))%Z.

(** [n / 10] for an [int] that is a multiple of ten: the true division
    gives the [float] nearest to the quotient. *)
Definition true_div_10 (n : Z) : Result json :=
  match float_of_int (n / 10) with
  | Ok f => Ok (JInt f)
  | Raise e => Raise e
  end.

(** [round(x, -1) / 10]. [bool] is a subclass of [int]; every other type
    has no [__round__]. The level is a [float] whose value is an
    integer and is kept by that value. *)
Definition level (j : json) : Result json :=
  match j with
  | JInt z => true_div_10 (py_round_tens z)
  | JBool b => true_div_10 (py_round_tens (if b then 1 else 0))
  | _ => Raise TypeError
  end.

(** ** Enumerations and result records *)

Inductive BedPowerStatus : Type := On | Off.

Inductive BedSide : Type := Left | Right | Both.

Definition BedSide_value (s : BedSide) : string :=
  match s with
  | Left => "left"
  | Right => "right"
  | Both => "both"
  end.

Definition BedSide_str (s : BedSide) : string :=
  match s with
  | Left => "BedSide.Left"
  | Right => "BedSide.Right"
  | Both => "BedSide.Both"
  end.

(** [BedSide(x)]: lookup of an enumeration member by value. *)
Definition BedSide_of_value (j : json) : Result BedSide :=
  match j with
  | JStr s =>
      if String.eqb s "left" then Ok Left
      else if String.eqb s "right" then Ok Right
      else if String.eqb s "both" then Ok Both
      else Raise ValueError
  | _ => Raise ValueError
  end.

Global Instance BedSide_eq_dec : EqDecision BedSide.
Proof. solve_decision. Defined.

Global Instance BedPowerStatus_eq_dec : EqDecision BedPowerStatus.
Proof. solve_decision. Defined.

Global Instance BedSide_countable : Countable BedSide.
Proof.
  refine (inj_countable'
    (fun s => match s with Left => 0 | Right => 1 | Both => 2 end)
    (fun n => match n with 0 => Left | 1 => Right | _ => Both end) _).
  intros []; reflexivity.
Defined.

Record LoginResponse : Type := mkLoginResponse {
  access_token : json;
  token_type : json;
  expires_in : json;
  refresh_token : json;
  user_id : json
}.

(** One record for both copies; the order in which the [NamedTuple]
    declares its fields differs between them and is carried by the
    positional constructors [GetDeviceResponse] below. *)
Record GetDeviceResponse : Type := mkGetDeviceResponse {
  left_status : BedPowerStatus;
  left_target : json;
  left_current : json;
  left_duration : json;
  right_status : BedPowerStatus;
  right_target : json;
  right_current : json;
  right_duration : json
}.

Record GetUserResponse : Type := mkGetUserResponse {
  device_ids : json;
  current_device : string;
  current_side : BedSide
}.

(** The two integration copies. *)
Inductive Copy : Type :=
  | Slp8       (* homeassistant/components/8slp *)
  | Eightslp.  (* homeassistant/components/eightslp *)

(** Positional construction [GetDeviceResponse(a, b, c, d, e, f, g, h)].
    In [8slp] the class lists [right_duration] before [right_current]; in
    [eightslp] it lists [right_current] first. *)
Definition GetDeviceResponse_new (v : Copy)
    (a : BedPowerStatus) (b c d : json) (e : BedPowerStatus) (f g h : json)
  : GetDeviceResponse :=
  match v with
  | Slp8 =>
      {| left_status := a; left_target := b; left_current := c;
         left_duration := d; right_status := e; right_target := f;
         right_duration := g; right_current := h |}
  | Eightslp =>
      {| left_status := a; left_target := b; left_current := c;
         left_duration := d; right_status := e; right_target := f;
         right_current := g; right_duration := h |}
  end.

(** ** Heap objects *)

Record BedStatus : Type := mkBedStatus {
  _side : BedSide;
  status : BedPowerStatus;
  temperature : json;
  _user_id : option string;
  target : json
}.

(** [BedStatus.__init__(side, status, temperature, user_id, target)]. *)
Definition BedStatus_new (side : BedSide) (st : BedPowerStatus)
    (temp : json) (uid : option string) (tgt : json) : BedStatus :=
  {| status := st; temperature := temp; target := tgt;
     _side := side; _user_id := uid |}.

(** ** The environment *)

Record Request : Type := mkRequest {
  method : string;
  url : string;
  headers : list (string * string);
  data : json;          (* the argument of [json.dumps] *)
  timeout : Z
}.

(** What [requests.request] gives back: it raises, or it returns a
    response whose body [json.loads] accepts ([Some]) or rejects. *)
Inductive Response : Type :=
  | ConnectionFailed
  | HttpResponse (status_code : Z) (content : option json).

(** Time is counted in microseconds, the resolution of [datetime]; the
    range limits of [datetime] are not modelled. *)
Record World : Type := mkWorld {
  clock : nat -> Z;                       (* successive [datetime.now()] *)
  ticks : nat;                            (* readings taken so far *)
  server : list Request -> Request -> Response;
  log : list Request;                     (* requests issued, oldest first *)
  heap : gmap nat BedStatus;              (* [BedStatus] objects by identity *)
  next_loc : nat;
  Client_sides : gmap BedSide nat         (* the class attribute [Client.sides] *)
}.

Record Client : Type := mkClient {
  _access_token : json;
  _refresh_token : option string;
  _account_user_id : option string;
  _expires_at : Z;
  _bed_name : option json
}.

(** A method runs on an instance in a world. *)
Record Obj : Type := mkObj {
  self : Client;
  world : World
}.

(** ** State and exception monad *)

Definition M (S A : Type) : Type := S -> Result A * S.

Definition ret {S A : Type} (a : A) : M S A := fun s => (Ok a, s).

Definition raise {S A : Type} (e : exn) : M S A := fun s => (Raise e, s).

Definition bind {S A B : Type} (m : M S A) (k : A -> M S B) : M S B :=
  fun s =>
    match m s with
    | (Ok a, s') => k a s'
    | (Raise e, s') => (Raise e, s')
    end.

Definition lift_result {S A : Type} (r : Result A) : M S A := fun s => (r, s).

Notation "x <- m ;; k" := (bind m (fun x => k))
  (at level 100, m at next level, right associativity).
Notation "m ;;; k" := (bind m (fun _ => k))
  (at level 100, right associativity).

(** A static method called from a method of an instance. *)
Definition liftW {A : Type} (m : M World A) : M Obj A :=
  fun o =>
    match m (world o) with
    | (r, w') => (r, {| self := self o; world := w' |})
    end.

Definition get_self : M Obj Client := fun o => (Ok (self o), o).

Definition set_self (c : Client) : M Obj unit :=
  fun o => (Ok tt, {| self := c; world := world o |}).

(** ** World primitives *)

Definition seconds (n : Z) : Z := (n * 1000000)%Z.

Definition tick (w : World) : World :=
  {| clock := clock w; ticks := S (ticks w); server := server w;
     log := log w; heap := heap w; next_loc := next_loc w;
     Client_sides := Client_sides w |}.

Definition issue (r : Request) (w : World) : World :=
  {| clock := clock w; ticks := ticks w; server := server w;
     log := log w ++ [r]; heap := heap w; next_loc := next_loc w;
     Client_sides := Client_sides w |}.

Definition with_heap (h : gmap nat BedStatus) (n : nat) (w : World) : World :=
  {| clock := clock w; ticks := ticks w; server := server w;
     log := log w; heap := h; next_loc := n;
     Client_sides := Client_sides w |}.

Definition with_sides (d : gmap BedSide nat) (w : World) : World :=
  {| clock := clock w; ticks := ticks w; server := server w;
     log := log w; heap := heap w; next_loc := next_loc w;
     Client_sides := d |}.

Definition datetime_now : M World Z :=
  fun w => (Ok (clock w (ticks w)), tick w).

(** [requests.request(method, url, headers=..., data=..., timeout=60)]. *)
Definition requests_request (r : Request) : M World (option json) :=
  fun w =>
    match server w (log w) r with
    | ConnectionFailed => (Raise RequestException, issue r w)
    | HttpResponse _ body => (Ok body, issue r w)
    end.

Definition json_loads (body : option json) : Result json :=
  match body with
  | Some j => Ok j
  | None => Raise JSONDecodeError
  end.

(** Allocation of a new [BedStatus] object. *)
Definition alloc (b : BedStatus) : M World nat :=
  fun w =>
    (Ok (next_loc w),
     with_heap (<[next_loc w := b]> (heap w)) (S (next_loc w)) w).

(** Attribute read and attribute assignment on a [BedStatus] object. *)
Definition deref (l : nat) : M World BedStatus :=
  fun w =>
    match heap w !! l with
    | Some b => (Ok b, w)
    | None => (Raise Unmodelled, w)
    end.

Definition store (l : nat) (b : BedStatus) : M World unit :=
  fun w => (Ok tt, with_heap (<[l := b]> (heap w)) (next_loc w) w).

(** [self.sides[side]] and [self.sides[side] = ref]: no method assigns
    [self.sides], so the attribute resolves to the class attribute. *)
Definition sides_getitem (side : BedSide) : M World nat :=
  fun w =>
    match Client_sides w !! side with
    | Some l => (Ok l, w)
    | None => (Raise (KeyError (BedSide_str side)), w)
    end.

Definition sides_setitem (side : BedSide) (l : nat) : M World unit :=
  fun w => (Ok tt, with_sides (<[side := l]> (Client_sides w)) w).

(** ** Remote service gateway ([eightslp_api.py]) *)

Definition CLIENT_ID : string := "0894c7f33bb94800a03f1f4df13a4f38".
Definition CLIENT_SECRET : string :=
  "f0954a3ed5763ba3d06834c73731a32f15f168f47d4f164751275def86db0c76".
Definition AUTH_URI : string := "https://auth-api.8slp.net/v1/tokens".
Definition API_BASE_URI : string := "https://client-api.8slp.net/v1".
Definition APP_BASE_URI : string := "https://app-api.8slp.net/v1".

(** [send_request] ([_send_request] in [eightslp]). The test
    [object is None] compares the builtin type with [None] and is always
    false, so both copies take the branch that sends [json.dumps(payload)]
    with [timeout=60]. An [auth_header] that is neither [None] nor a
    string fails in ["Bearer " + auth_header]. *)
Definition send_request (url method : string) (payload auth_header : json)
  : M World json :=
  hs <- lift_result
          (match auth_header with
           | JNull => Ok [("Content-Type", "application/json")]
           | JStr t => Ok [("Content-Type", "application/json");
                           ("Authorization", "Bearer " +:+ t)]
           | _ => Raise TypeError
           end) ;;
  body <- requests_request
            {| method := method; url := url; headers := hs;
               data := payload; timeout := 60 |} ;;
  lift_result (json_loads body).

Definition login (username password : string) : M World LoginResponse :=
  res <- send_request AUTH_URI "POST"
           (JDict [("username", JStr username);
                   ("password", JStr password);
                   ("grant_type", JStr "password");
                   ("client_id", JStr CLIENT_ID);
                   ("client_secret", JStr CLIENT_SECRET)])
           JNull ;;
  a <- lift_result (subscript res "access_token") ;;
  b <- lift_result (subscript res "token_type") ;;
  c <- lift_result (subscript res "expires_in") ;;
  d <- lift_result (subscript res "refresh_token") ;;
  e <- lift_result (subscript res "userId") ;;
  ret (mkLoginResponse a b c d e).

(** [set_temperature]. [8slp] builds the dictionary and then adds the
    [currentState] key; [eightslp] writes one of two literals. *)
Definition set_temperature (v : Copy) (user_id : option string)
    (temperature : Z) (auth_token : json) (power_on : bool) : M World unit :=
  let payload :=
    match v with
    | Slp8 =>
        let payload := [("currentLevel", JInt (temperature * 10))] in
        if power_on
        then dict_set "currentState" (JDict [("type", JStr "smart")]) payload
        else payload
    | Eightslp =>
        if power_on
        then [("currentLevel", JInt (temperature * 10));
              ("currentState", JDict [("type", JStr "smart")])]
        else [("currentLevel", JInt (temperature * 10))]
    end in
  send_request (APP_BASE_URI +:+ "/users/" +:+ fmt user_id +:+ "/temperature")
    "PUT" (JDict payload) auth_token ;;;
  ret tt.

Definition turn_off (user_id : option string) (auth_token : json)
  : M World unit :=
  send_request (API_BASE_URI +:+ "/users/" +:+ fmt user_id +:+ "/temperature")
    "PUT" (JDict [("currentState", JDict [("type", JStr "off")])])
    auth_token ;;;
  ret tt.

Definition turn_on (user_id : option string) (auth_token : json)
  : M World unit :=
  send_request (APP_BASE_URI +:+ "/users/" +:+ fmt user_id +:+ "/temperature")
    "PUT" (JDict [("currentState", JDict [("type", JStr "smart")])])
    auth_token ;;;
  ret tt.

Definition get_user (user_id : option string) (auth_token : json)
  : M World GetUserResponse :=
  res <- send_request (API_BASE_URI +:+ "/users/" +:+ fmt user_id) "GET"
           JNull auth_token ;;
  u <- lift_result (subscript res "user") ;;
  cd <- lift_result (subscript u "currentDevice") ;;
  sv <- lift_result (subscript cd "side") ;;
  side <- lift_result (BedSide_of_value sv) ;;
  u1 <- lift_result (subscript res "user") ;;
  devices <- lift_result (subscript u1 "devices") ;;
  u2 <- lift_result (subscript res "user") ;;
  cd2 <- lift_result (subscript u2 "currentDevice") ;;
  id <- lift_result (subscript cd2 "id") ;;
  match id with
  | JStr dev => ret (mkGetUserResponse devices dev side)
  | _ => raise Unmodelled
  end.

Definition power_of (j : json) : BedPowerStatus :=
  if truthy j then On else Off.

Definition get_device (v : Copy) (device_id : string) (auth_token : json)
  : M World GetDeviceResponse :=
  res <- send_request (API_BASE_URI +:+ "/devices/" +:+ device_id) "GET"
           JNull auth_token ;;
  dev <- lift_result (subscript res "result") ;;
  lnh <- lift_result (subscript dev "leftNowHeating") ;;
  let left_status := power_of lnh in
  rnh <- lift_result (subscript dev "rightNowHeating") ;;
  let right_status := power_of rnh in
  lt <- lift_result (subscript dev "leftTargetHeatingLevel") ;;
  lt' <- lift_result (level lt) ;;
  lc <- lift_result (subscript dev "leftHeatingLevel") ;;
  lc' <- lift_result (level lc) ;;
  ld <- lift_result (subscript dev "leftHeatingDuration") ;;
  rt <- lift_result (subscript dev "rightTargetHeatingLevel") ;;
  rt' <- lift_result (level rt) ;;
  rc <- lift_result (subscript dev "rightHeatingLevel") ;;
  rc' <- lift_result (level rc) ;;
  rd <- lift_result (subscript dev "rightHeatingDuration") ;;
  ret (GetDeviceResponse_new v left_status lt' lc' ld right_status rt' rc' rd).

Definition refresh (refresh_token : option string) : M World LoginResponse :=
  res <- send_request AUTH_URI "POST"
           (JDict [("refresh_token", json_of refresh_token);
                   ("grant_type", JStr "refresh_token");
                   ("client_id", JStr CLIENT_ID);
                   ("client_secret", JStr CLIENT_SECRET)])
           JNull ;;
  a <- lift_result (subscript res "access_token") ;;
  b <- lift_result (subscript res "token_type") ;;
  c <- lift_result (subscript res "expires_in") ;;
  d <- lift_result (subscript res "refresh_token") ;;
  ret (mkLoginResponse a b c d JNull).

(** The loop [for dev in devs: output[dev["deviceId"]] = dev["friendlyName"]]
    over a list; the right-hand side is evaluated before the key. A
    list or dictionary as key is unhashable. *)
Fixpoint device_names_loop (devs : list json) (output : gmap string json)
  : Result (gmap string json) :=
  match devs with
  | [] => Ok output
  | dev :: devs' =>
      match subscript dev "friendlyName" with
      | Raise e => Raise e
      | Ok name =>
          match subscript dev "deviceId" with
          | Raise e => Raise e
          | Ok (JStr id) => device_names_loop devs' (<[id := name]> output)
          | Ok (JList _) | Ok (JDict _) => Raise TypeError
          | Ok _ => Raise Unmodelled
          end
      end
  end.

(** Iterating a dictionary or a string yields strings, which cannot be
    subscripted by a string; [None] and numbers are not iterable. *)
Definition get_device_names (user_id : option string) (auth_token : json)
  : M World (gmap string json) :=
  res <- send_request
           (APP_BASE_URI +:+ "/household/users/" +:+ fmt user_id +:+ "/devices")
           "GET" JNull auth_token ;;
  devs <- lift_result (subscript res "devices") ;;
  match devs with
  | JList l => lift_result (device_names_loop l ∅)
  | JDict [] => ret ∅
  | JStr s => if String.eqb s "" then ret ∅ else raise TypeError
  | _ => raise TypeError
  end.

(** ** Session manager ([eightslp_client.py]) *)

Definition with_access_token (a : json) (c : Client) : Client :=
  {| _access_token := a; _refresh_token := _refresh_token c;
     _account_user_id := _account_user_id c;
     _expires_at := _expires_at c; _bed_name := _bed_name c |}.

Definition with_expires_at (t : Z) (c : Client) : Client :=
  {| _access_token := _access_token c; _refresh_token := _refresh_token c;
     _account_user_id := _account_user_id c;
     _expires_at := t; _bed_name := _bed_name c |}.

Definition with_bed_name (n : json) (c : Client) : Client :=
  {| _access_token := _access_token c; _refresh_token := _refresh_token c;
     _account_user_id := _account_user_id c;
     _expires_at := _expires_at c; _bed_name := Some n |}.

Definition set_access_token (a : json) : M Obj unit :=
  c <- get_self ;; set_self (with_access_token a c).

Definition set_expires_at (t : Z) : M Obj unit :=
  c <- get_self ;; set_self (with_expires_at t c).

Definition set_bed_name (n : json) : M Obj unit :=
  c <- get_self ;; set_self (with_bed_name n c).

(** [Client.__init__]. Only [8slp] checks its arguments, and it raises
    the builtin [Exception]; [8slp] starts with [None] as access token,
    [eightslp] with the empty string. *)
Definition Client__init__ (v : Copy) (refresh_token user_id : option string)
  : M World Client :=
  match v, refresh_token, user_id with
  | Slp8, Some _, None =>
      raise (PyException "user_id is required with refresh_token")
  | _, _, _ => ret tt
  end ;;;
  now <- datetime_now ;;
  ret {| _refresh_token := refresh_token;
         _access_token := match v with Slp8 => JNull | Eightslp => JStr "" end;
         _expires_at := now - seconds 100;
         _account_user_id := user_id;
         _bed_name := None |}.

(** [res.expires_in - 100] as the seconds of a [timedelta]. *)
Definition lifetime_minus_margin (j : json) : Result Z :=
  match j with
  | JInt n => Ok (n - 100)%Z
  | JBool b => Ok ((if b then 1 else 0) - 100)%Z
  | _ => Raise TypeError
  end.

Definition _token : M Obj json :=
  now <- liftW datetime_now ;;
  c <- get_self ;;
  (if (_expires_at c <? now)%Z
   then
     res <- liftW (refresh (_refresh_token c)) ;;
     set_access_token (access_token res) ;;;
     now' <- liftW datetime_now ;;
     secs <- lift_result (lifetime_minus_margin (expires_in res)) ;;
     set_expires_at (now' + seconds secs)
   else ret tt) ;;;
  c' <- get_self ;;
  ret (_access_token c').

Definition account_user_id : M Obj (option string) :=
  c <- get_self ;; ret (_account_user_id c).

Definition names_getitem (names : gmap string json) (k : string)
  : Result json :=
  match names !! k with
  | Some n => Ok n
  | None => Raise (KeyError k)
  end.

(** [Client.initialize]. In the last assignment of [8slp] the target is
    [self.sides[BedSide.right]]: the right-hand side is evaluated, then
    the member lookup [BedSide.right] fails, the enumeration having no
    member of that name. *)
Definition initialize (v : Copy) : M Obj unit :=
  acct <- account_user_id ;;
  tok <- _token ;;
  user <- liftW (get_user acct tok) ;;
  tok2 <- _token ;;
  device <- liftW (get_device v (current_device user) tok2) ;;
  let guest_side :=
    if decide (current_side user = Right) then Left else Right in
  let guest_user_id :=
    "guest-" +:+ current_device user +:+ "-" +:+ BedSide_value guest_side in
  acct3 <- account_user_id ;;
  tok3 <- _token ;;
  names <- liftW (get_device_names acct3 tok3) ;;
  name <- lift_result (names_getitem names (current_device user)) ;;
  set_bed_name name ;;;
  if decide (current_side user = Left)
  then
    a1 <- account_user_id ;;
    l <- liftW (alloc (BedStatus_new Left (left_status device)
                         (left_current device) a1 (left_target device))) ;;
    liftW (sides_setitem Left l) ;;;
    r <- liftW (alloc (BedStatus_new Right (right_status device)
                         (right_current device) (Some guest_user_id)
                         (right_target device))) ;;
    liftW (sides_setitem Right r)
  else
    l <- liftW (alloc (BedStatus_new Left (left_status device)
                         (left_current device) (Some guest_user_id)
                         (left_target device))) ;;
    liftW (sides_setitem Left l) ;;;
    a2 <- account_user_id ;;
    r <- liftW (alloc (BedStatus_new Right (right_status device)
                         (right_current device) a2 (right_target device))) ;;
    match v with
    | Slp8 => raise (AttributeError "right")
    | Eightslp => liftW (sides_setitem Right r)
    end.

Definition with_status (s : BedPowerStatus) (b : BedStatus) : BedStatus :=
  {| _side := _side b; status := s; temperature := temperature b;
     _user_id := _user_id b; target := target b |}.

Definition with_temperature (t : json) (b : BedStatus) : BedStatus :=
  {| _side := _side b; status := status b; temperature := t;
     _user_id := _user_id b; target := target b |}.

Definition with_target (t : json) (b : BedStatus) : BedStatus :=
  {| _side := _side b; status := status b; temperature := temperature b;
     _user_id := _user_id b; target := t |}.

(** [self.sides[side].attr = value]. *)
Definition sides_setattr (side : BedSide) (f : BedStatus -> BedStatus)
  : M World unit :=
  l <- sides_getitem side ;;
  b <- deref l ;;
  store l (f b).

Definition refresh_state (v : Copy) : M Obj unit :=
  acct <- account_user_id ;;
  tok <- _token ;;
  user <- liftW (get_user acct tok) ;;
  tok2 <- _token ;;
  device <- liftW (get_device v (current_device user) tok2) ;;
  liftW (sides_setattr Right (with_status (right_status device))) ;;;
  liftW (sides_setattr Right (with_temperature (right_current device))) ;;;
  liftW (sides_setattr Right (with_target (right_target device))) ;;;
  liftW (sides_setattr Left (with_status (left_status device))) ;;;
  liftW (sides_setattr Left (with_temperature (left_current device))) ;;;
  liftW (sides_setattr Left (with_target (left_target device))).

(** [Client.set_temp]: [state] is a reference; [state.status] is read
    first, [state.user_id] when the call is made, before [self._token()]. *)
Definition set_temp (v : Copy) (side : BedSide) (temperature : Z)
  : M Obj unit :=
  state <- liftW (sides_getitem side) ;;
  b <- liftW (deref state) ;;
  let send_power_on := bool_decide (status b = Off) in
  b' <- liftW (deref state) ;;
  tok <- _token ;;
  liftW (set_temperature v (_user_id b') temperature tok send_power_on).

Definition set_power (side : BedSide) (target_state : BedPowerStatus)
  : M Obj unit :=
  state <- liftW (sides_getitem side) ;;
  if decide (target_state = Off)
  then
    b <- liftW (deref state) ;;
    tok <- _token ;;
    liftW (turn_off (_user_id b) tok)
  else
    b <- liftW (deref state) ;;
    tok <- _token ;;
    liftW (turn_on (_user_id b) tok).

(** ** Observations used in the statements *)

(** The state of a side as read through [client.sides[side]]. *)
Definition side_state (w : World) (side : BedSide) : option BedStatus :=
  match Client_sides w !! side with
  | Some l => heap w !! l
  | None => None
  end.

(** A refresh call: the refresh-token grant posted to the token endpoint. *)
Definition is_refresh_call (r : Request) : bool :=
  String.eqb (method r) "POST" && String.eqb (url r) AUTH_URI &&
  match subscript (data r) "grant_type" with
  | Ok (JStr g) => String.eqb g "refresh_token"
  | _ => false
  end.

Definition refresh_calls (l : list Request) : nat :=
  length (filter (fun r => is_refresh_call r = true) l).

Definition is_write (r : Request) : bool := String.eqb (method r) "PUT".

Definition writes (l : list Request) : list Request :=
  filter (fun r => is_write r = true) l.

Definition refresh_request (rt : option string) : Request :=
  {| method := "POST"; url := AUTH_URI;
     headers := [("Content-Type", "application/json")];
     data := JDict [("refresh_token", json_of rt);
                    ("grant_type", JStr "refresh_token");
                    ("client_id", JStr CLIENT_ID);
                    ("client_secret", JStr CLIENT_SECRET)];
     timeout := 60 |}.

Definition login_request (username password : string) : Request :=
  {| method := "POST"; url := AUTH_URI;
     headers := [("Content-Type", "application/json")];
     data := JDict [("username", JStr username);
                    ("password", JStr password);
                    ("grant_type", JStr "password");
                    ("client_id", JStr CLIENT_ID);
                    ("client_secret", JStr CLIENT_SECRET)];
     timeout := 60 |}.

(** What [send_request] makes of the outcome of [requests.request]. *)
Definition reply_json (r : Response) : Result json :=
  match r with
  | ConnectionFailed => Raise RequestException
  | HttpResponse _ body => json_loads body
  end.


Definition device_request (device_id t : string) : Request :=
  {| method := "GET"; url := API_BASE_URI +:+ "/devices/" +:+ device_id;
     headers := [("Content-Type", "application/json");
                 ("Authorization", "Bearer " +:+ t)];
     data := JNull; timeout := 60 |}.

(** The client [Client.__init__] builds at clock reading [now]. *)
Definition new_client (v : Copy) (rt uid : option string) (now : Z) : Client :=
  {| _access_token := match v with Slp8 => JNull | Eightslp => JStr "" end;
     _refresh_token := rt; _account_user_id := uid;
     _expires_at := now - seconds 100; _bed_name := None |}.

Definition bearer (t : string) : list (string * string) :=
  [("Content-Type", "application/json"); ("Authorization", "Bearer " +:+ t)].

(** The first two statements of [initialize] and of [refresh_state]:
    the user snapshot and the device snapshot. *)
Definition fetch_user_device (v : Copy)
  : M Obj (GetUserResponse * GetDeviceResponse) :=
  acct <- account_user_id ;;
  tok <- _token ;;
  user <- liftW (get_user acct tok) ;;
  tok2 <- _token ;;
  device <- liftW (get_device v (current_device user) tok2) ;;
  ret (user, device).

(** The two statements of [initialize] that resolve the bed name. *)
Definition fetch_bed_name (user : GetUserResponse) : M Obj json :=
  acct3 <- account_user_id ;;
  tok3 <- _token ;;
  names <- liftW (get_device_names acct3 tok3) ;;
  lift_result (names_getitem names (current_device user)).

Definition guest_id (device_id : string) (side : BedSide) : string :=
  "guest-" +:+ device_id +:+ "-" +:+ BedSide_value side.

Definition opposite (side : BedSide) : BedSide :=
  match side with
  | Left => Right
  | _ => Left
  end.

(** The world after the two allocations and the two assignments to
    [self.sides] that end [initialize]. *)
Definition bound_world (w : World) (bl br : BedStatus) : World :=
  {| clock := clock w; ticks := ticks w; server := server w; log := log w;
     heap := <[S (next_loc w) := br]> (<[next_loc w := bl]> (heap w));
     next_loc := S (S (next_loc w));
     Client_sides :=
       <[Right := S (next_loc w)]> (<[Left := next_loc w]> (Client_sides w)) |}.

(** The [BedStatus] objects that [initialize] builds from the two
    snapshots for the account [acct]. *)
Definition left_state (acct : option string) (user : GetUserResponse)
    (device : GetDeviceResponse) : BedStatus :=
  BedStatus_new Left (left_status device) (left_current device)
    (if decide (current_side user = Left) then acct
     else Some (guest_id (current_device user)
                  (if decide (current_side user = Right) then Left else Right)))
    (left_target device).

Definition right_state (acct : option string) (user : GetUserResponse)
    (device : GetDeviceResponse) : BedStatus :=
  BedStatus_new Right (right_status device) (right_current device)
    (if decide (current_side user = Left)
     then Some (guest_id (current_device user)
                  (if decide (current_side user = Right) then Left else Right))
     else acct)
    (right_target device).

(** The two [BedStatus] objects after the six assignments of
    [refresh_state]. *)
Definition refreshed_left (device : GetDeviceResponse) (b : BedStatus)
  : BedStatus :=
  {| _side := _side b; status := left_status device;
     temperature := left_current device; _user_id := _user_id b;
     target := left_target device |}.

Definition refreshed_right (device : GetDeviceResponse) (b : BedStatus)
  : BedStatus :=
  {| _side := _side b; status := right_status device;
     temperature := right_current device; _user_id := _user_id b;
     target := right_target device |}.

(** The token is expired at the next clock reading. *)
Definition expired (o : Obj) : Prop :=
  (_expires_at (self o) < clock (world o) (ticks (world o)))%Z.

(** The next [n] clock readings do not pass [_expires_at]. *)
Definition fresh (n : nat) (o : Obj) : Prop :=
  forall k, ticks (world o) <= k < ticks (world o) + n ->
    (clock (world o) k <= _expires_at (self o))%Z.

(** The operations of the session manager. *)
Inductive Op : Type :=
  | OpInitialize (v : Copy)
  | OpRefreshState (v : Copy)
  | OpSetTemp (v : Copy) (side : BedSide) (temperature : Z)
  | OpSetPower (side : BedSide) (target_state : BedPowerStatus).

Definition run_op (op : Op) : M Obj unit :=
  match op with
  | OpInitialize v => initialize v
  | OpRefreshState v => refresh_state v
  | OpSetTemp v side t => set_temp v side t
  | OpSetPower side st => set_power side st
  end.

(** The side an operation addresses is in the side map. *)
Definition op_ready (op : Op) (w : World) : Prop :=
  match op with
  | OpSetTemp _ side _ | OpSetPower side _ => is_Some (side_state w side)
  | _ => True
  end.

(** *** Instances and the lookup of [sides]

    The class body binds the name [sides] once, to one dictionary
    ([Client_sides]). An instance has a dictionary of its own
    attributes: the record [Client] holds the five that [__init__],
    [_token] and [initialize] assign through [self]; [own_sides] is the
    entry for the name [sides] in the instance dictionary, [None] when
    there is no such entry. *)
Record Instance : Type := mkInstance {
  attrs : Client;
  own_sides : option (gmap BedSide nat)
}.

(** [Client(refresh_token, user_id)]: the new instance has an empty
    dictionary, in which [__init__] makes the four assignments of
    [Client__init__]; none of them is to [sides]. *)
Definition Client_new (v : Copy) (refresh_token user_id : option string)
  : M World Instance :=
  c <- Client__init__ v refresh_token user_id ;;
  ret {| attrs := c; own_sides := None |}.

(** The attribute lookup [i.sides]: the entry of the instance when it
    has one, the class attribute otherwise. *)
Definition sides_of (i : Instance) (w : World) : gmap BedSide nat :=
  match own_sides i with
  | Some d => d
  | None => Client_sides w
  end.

(** [i.sides[side]], dereferenced. *)
Definition read_side (i : Instance) (w : World) (side : BedSide)
  : option BedStatus :=
  match sides_of i w !! side with
  | Some l => heap w !! l
  | None => None
  end.

(** A method called on an instance. Each [self.sides] in the body of a
    method is the lookup above: on an instance without an entry of its
    own the method works on the class attribute; on an instance with an
    entry it works on that dictionary and the class attribute is, when
    the method ends, what it was. No method assigns [self.sides], so the
    instance has an entry afterwards exactly when it had one before. *)
Definition call {A : Type} (m : M Obj A) : M (Instance * World) A :=
  fun s =>
    match own_sides s.1 with
    | None =>
        match m (mkObj (attrs s.1) s.2) with
        | (r, o) => (r, (mkInstance (self o) None, world o))
        end
    | Some d =>
        match m (mkObj (attrs s.1) (with_sides d s.2)) with
        | (r, o) =>
            (r, (mkInstance (self o) (Some (Client_sides (world o))),
                 with_sides (Client_sides s.2) (world o)))
        end
    end.

(** The instances a program obtains from the class: those the
    constructor returns, and what the operations make of them. *)
Inductive constructed : Instance -> Prop :=
  | constructed_new v refresh_token user_id w i w' :
      Client_new v refresh_token user_id w = (Ok i, w') -> constructed i
  | constructed_call op i w :
      constructed i -> constructed (call (run_op op) (i, w)).2.1.









(** A gateway call that leaves the Python heap alone. *)
Definition net_only {A : Type} (m : M World A) : Prop :=
  forall w,
    heap (m w).2 = heap w /\ next_loc (m w).2 = next_loc w /\
    Client_sides (m w).2 = Client_sides w.

(** A computation that keeps the account and the Python heap. *)
Definition keeps {A : Type} (m : M Obj A) : Prop :=
  forall o,
    _account_user_id (self (m o).2) = _account_user_id (self o) /\
    heap (world (m o).2) = heap (world o) /\
    next_loc (world (m o).2) = next_loc (world o) /\
    Client_sides (world (m o).2) = Client_sides (world o).

(** ** Sample environments *)

Definition sample_device : json :=
  JDict [("result",
          JDict [("leftNowHeating", JBool true);
                 ("rightNowHeating", JBool false);
                 ("leftTargetHeatingLevel", JInt 30);
                 ("leftHeatingLevel", JInt 42);
                 ("leftHeatingDuration", JInt 0);
                 ("rightTargetHeatingLevel", JInt (-20));
                 ("rightHeatingLevel", JInt 42);
                 ("rightHeatingDuration", JInt 7)])].

Definition sample_user (dev side : string) : json :=
  JDict [("user",
          JDict [("devices", JList [JStr dev]);
                 ("currentDevice",
                  JDict [("id", JStr dev); ("side", JStr side)])])].

Definition sample_tokens (lifetime : Z) : json :=
  JDict [("access_token", JStr "tok");
         ("token_type", JStr "bearer");
         ("expires_in", JInt lifetime);
         ("refresh_token", JStr "rt2")].

Definition sample_names (dev : string) : json :=
  JDict [("devices",
          JList [JDict [("deviceId", JStr dev);
                        ("friendlyName", JStr "Pod")]])].

(** A service that knows the account [acct], bound to device ["D"] on
    [side], and grants tokens that live [lifetime] seconds. *)
Definition sample_server (acct side : string) (lifetime : Z)
  : list Request -> Request -> Response :=
  fun _ r =>
    if String.eqb (url r) AUTH_URI then
      HttpResponse 200 (Some (sample_tokens lifetime))
    else if String.eqb (url r) (API_BASE_URI +:+ "/users/" +:+ acct) then
      HttpResponse 200 (Some (sample_user "D" side))
    else if String.eqb (url r) (API_BASE_URI +:+ "/devices/D") then
      HttpResponse 200 (Some sample_device)
    else if String.eqb (url r)
              (APP_BASE_URI +:+ "/household/users/" +:+ acct +:+ "/devices")
    then HttpResponse 200 (Some (sample_names "D"))
    else HttpResponse 200 (Some (JDict [])).

(** The clock advances by one microsecond between two readings; the
    first reading has been taken by the constructor. *)
Definition sample_world (acct side : string) (lifetime : Z) : World :=
  {| clock := fun n => Z.of_nat n; ticks := 1;
     server := sample_server acct side lifetime; log := [];
     heap := ∅; next_loc := 0; Client_sides := ∅ |}.

(** The same service under a clock that stands still. *)
Definition stalled_world (acct side : string) (lifetime : Z) : World :=
  {| clock := fun _ => 0%Z; ticks := 1;
     server := sample_server acct side lifetime; log := [];
     heap := ∅; next_loc := 0; Client_sides := ∅ |}.

(** A service that rejects every grant with status 401. *)
Definition rejecting_world : World :=
  {| clock := fun n => Z.of_nat n; ticks := 0;
     server := fun _ _ =>
       HttpResponse 401 (Some (JDict [("error", JStr "invalid_grant")]));
     log := []; heap := ∅; next_loc := 0; Client_sides := ∅ |}.

(** A service that cannot be reached. *)
Definition offline_world : World :=
  {| clock := fun n => Z.of_nat n; ticks := 0;
     server := fun _ _ => ConnectionFailed;
     log := []; heap := ∅; next_loc := 0; Client_sides := ∅ |}.


(** A client as the constructor of [eightslp] leaves it at clock
    reading [0], for the account [acct]. *)
Definition sample_client (acct : option string) : Client :=
  {| _access_token := JStr ""; _refresh_token := Some "rt";
     _account_user_id := acct; _expires_at := -100000000;
     _bed_name := None |}.

Definition sample_obj (acct side : string) (lifetime : Z) : Obj :=
  {| self := sample_client (Some acct);
     world := sample_world acct side lifetime |}.

(** The instance that holds these attributes, and has no entry of its
    own for [sides]. *)
Definition sample_instance (acct : option string) : Instance :=
  {| attrs := sample_client acct; own_sides := None |}.

(** ** Further observations *)

Definition user_request (uid : option string) (t : string) : Request :=
  {| method := "GET"; url := API_BASE_URI +:+ "/users/" +:+ fmt uid;
     headers := [("Content-Type", "application/json");
                 ("Authorization", "Bearer " +:+ t)];
     data := JNull; timeout := 60 |}.

Definition names_request (uid : option string) (t : string) : Request :=
  {| method := "GET";
     url := APP_BASE_URI +:+ "/household/users/" +:+ fmt uid +:+ "/devices";
     headers := [("Content-Type", "application/json");
                 ("Authorization", "Bearer " +:+ t)];
     data := JNull; timeout := 60 |}.

(** A request as every gateway function builds it: JSON content type,
    the 60-second timeout, one of the three methods, and an address
    under one of the three base URLs. *)
Definition well_formed_request (r : Request) : Prop :=
  timeout r = 60%Z
  /\ dict_get "Content-Type" (headers r) = Some "application/json"
  /\ (method r = "GET" \/ method r = "PUT" \/ method r = "POST")
  /\ (String.prefix AUTH_URI (url r) = true
      \/ String.prefix API_BASE_URI (url r) = true
      \/ String.prefix APP_BASE_URI (url r) = true).

(** The requests a computation adds to the log, all satisfying [P]. *)
Definition issues {A : Type} (P : Request -> Prop) (m : M World A) : Prop :=
  forall w, exists rs, log (m w).2 = log w ++ rs /\ Forall P rs.

Definition issues_obj {A : Type} (P : Request -> Prop) (m : M Obj A) : Prop :=
  forall o,
    exists rs, log (world (m o).2) = log (world o) ++ rs /\ Forall P rs.

(** [Client.bed_name]: the attribute exists once [initialize] has
    assigned it. *)
Definition bed_name : M Obj json :=
  c <- get_self ;;
  match _bed_name c with
  | Some n => ret n
  | None => raise (AttributeError "_bed_name")
  end.

(** A computation that keeps the refresh token and the account id of
    the instance. *)
Definition keeps_identity {A : Type} (m : M Obj A) : Prop :=
  forall o,
    _refresh_token (self (m o).2) = _refresh_token (self o) /\
    _account_user_id (self (m o).2) = _account_user_id (self o).

(** [initialize] in two phases: everything up to the assignment of
    [_bed_name], and the two bindings that follow. *)
Definition initialize_fetch (v : Copy)
  : M Obj (GetUserResponse * GetDeviceResponse) :=
  ud <- fetch_user_device v ;;
  name <- fetch_bed_name ud.1 ;;
  set_bed_name name ;;;
  ret ud.

Definition initialize_bind (v : Copy) (user : GetUserResponse)
    (device : GetDeviceResponse) : M Obj unit :=
  let guest_user_id :=
    guest_id (current_device user)
      (if decide (current_side user = Right) then Left else Right) in
  if decide (current_side user = Left)
  then
    a1 <- account_user_id ;;
    l <- liftW (alloc (BedStatus_new Left (left_status device)
                         (left_current device) a1 (left_target device))) ;;
    liftW (sides_setitem Left l) ;;;
    r <- liftW (alloc (BedStatus_new Right (right_status device)
                         (right_current device) (Some guest_user_id)
                         (right_target device))) ;;
    liftW (sides_setitem Right r)
  else
    l <- liftW (alloc (BedStatus_new Left (left_status device)
                         (left_current device) (Some guest_user_id)
                         (left_target device))) ;;
    liftW (sides_setitem Left l) ;;;
    a2 <- account_user_id ;;
    r <- liftW (alloc (BedStatus_new Right (right_status device)
                         (right_current device) a2 (right_target device))) ;;
    match v with
    | Slp8 => raise (AttributeError "right")
    | Eightslp => liftW (sides_setitem Right r)
    end.

(** The six assignments that end [refresh_state]. *)
Definition refresh_state_assign (device : GetDeviceResponse) : M Obj unit :=
  liftW (sides_setattr Right (with_status (right_status device))) ;;;
  liftW (sides_setattr Right (with_temperature (right_current device))) ;;;
  liftW (sides_setattr Right (with_target (right_target device))) ;;;
  liftW (sides_setattr Left (with_status (left_status device))) ;;;
  liftW (sides_setattr Left (with_temperature (left_current device))) ;;;
  liftW (sides_setattr Left (with_target (left_target device))).

(** An entry of the household device list: [dev] has the string id
    [e.1] and the friendly name [e.2]. *)
Definition lists_device (dev : json) (e : string * json) : Prop :=
  subscript dev "friendlyName" = Ok e.2
  /\ subscript dev "deviceId" = Ok (JStr e.1).

(** A computation that adds at most [n] requests to the log. *)
Definition at_most {A : Type} (n : nat) (m : M World A) : Prop :=
  forall w, exists rs, log (m w).2 = log w ++ rs /\ length rs <= n.

Definition at_most_obj {A : Type} (n : nat) (m : M Obj A) : Prop :=
  forall o,
    exists rs, log (world (m o).2) = log (world o) ++ rs /\ length rs <= n.

(** The number of requests an operation can issue: one per gateway call
    and one refresh per token acquisition. *)
Definition request_budget (op : Op) : nat :=
  match op with
  | OpInitialize _ => 6
  | OpRefreshState _ => 4
  | OpSetTemp _ _ _ | OpSetPower _ _ => 2
  end.

(** ** Climate entity ([climate.py]) *)

(** The members of the host platform's [HVACMode], and the members of
    [HVACAction] that the entity assigns. *)
Inductive HVACMode : Type :=
  | HVAC_OFF | HVAC_HEAT | HVAC_COOL | HVAC_HEAT_COOL | HVAC_AUTO
  | HVAC_DRY | HVAC_FAN_ONLY.

Inductive HVACAction : Type :=
  | ACTION_OFF | ACTION_IDLE | ACTION_HEATING | ACTION_COOLING.

Global Instance HVACMode_eq_dec : EqDecision HVACMode.
Proof. solve_decision. Defined.

Record Climate : Type := mkClimate {
  _attr_name : string;
  _attr_unique_id : string;
  _attr_target_temperature : json;
  _attr_current_temperature : json;
  _attr_hvac_mode : HVACMode;
  _attr_hvac_action : HVACAction;
  entity_side : BedSide                  (* [self._side] *)
}.

(** An entity for [side] with the class-level defaults of
    [EightSleepClimate]. *)
Definition Climate_defaults (side : BedSide) : Climate :=
  {| _attr_name := ""; _attr_unique_id := "";
     _attr_target_temperature := JInt 0;
     _attr_current_temperature := JInt 0;
     _attr_hvac_mode := HVAC_OFF; _attr_hvac_action := ACTION_OFF;
     entity_side := side |}.

(** A method of an entity runs on the entity and on the client it
    refers to; the client is shared with the other entities. *)
Record Ent : Type := mkEnt {
  entity : Climate;
  client : Obj
}.

(** A method of the client called from a method of the entity;
    [await hass.async_add_executor_job(f, ...)] runs [f] to its end and
    hands back its result or its exception. *)
Definition liftC {A : Type} (m : M Obj A) : M Ent A :=
  fun s =>
    match m (client s) with
    | (r, o') => (r, {| entity := entity s; client := o' |})
    end.

Definition get_entity : M Ent Climate := fun s => (Ok (entity s), s).

Definition set_entity (e : Climate) : M Ent unit :=
  fun s => (Ok tt, {| entity := e; client := client s |}).

(** The number a JSON value stands for in a comparison; the comparison
    of values that are not numbers is outside the model. *)
Definition py_number (j : json) : option Z :=
  match j with
  | JInt z => Some z
  | JBool b => Some (if b then 1 else 0)%Z
  | _ => None
  end.

Definition py_eq (a b : json) : Result bool :=
  match py_number a, py_number b with
  | Some x, Some y => Ok (x =? y)%Z
  | _, _ => Raise Unmodelled
  end.

Definition py_gt (a b : json) : Result bool :=
  match py_number a, py_number b with
  | Some x, Some y => Ok (y <? x)%Z
  | _, _ => Raise Unmodelled
  end.

Definition with_displayed (tgt cur : json) (mode : HVACMode)
    (action : HVACAction) (e : Climate) : Climate :=
  {| _attr_name := _attr_name e; _attr_unique_id := _attr_unique_id e;
     _attr_target_temperature := tgt; _attr_current_temperature := cur;
     _attr_hvac_mode := mode; _attr_hvac_action := action;
     entity_side := entity_side e |}.

(** [EightSleepClimate._update_status]. The three attributes are
    assigned before the two temperatures are compared. *)
Definition _update_status (st : BedStatus) : M Ent unit :=
  e <- get_entity ;;
  let mode := if decide (status st = On) then HVAC_HEAT_COOL else HVAC_OFF in
  set_entity (with_displayed (target st) (temperature st) mode
                (_attr_hvac_action e) e) ;;;
  e1 <- get_entity ;;
  if decide (mode = HVAC_HEAT_COOL)
  then
    same <- lift_result (py_eq (target st) (temperature st)) ;;
    if (same : bool)
    then set_entity (with_displayed (target st) (temperature st) mode
                       ACTION_IDLE e1)
    else
      above <- lift_result (py_gt (target st) (temperature st)) ;;
      if (above : bool)
      then set_entity (with_displayed (target st) (temperature st) mode
                         ACTION_HEATING e1)
      else set_entity (with_displayed (target st) (temperature st) mode
                         ACTION_COOLING e1)
  else set_entity (with_displayed (target st) (temperature st) mode
                     ACTION_OFF e1).

(** [self._update_status(self._client.sides[self._side])]. *)
Definition update_from_cache : M Ent unit :=
  e <- get_entity ;;
  l <- liftC (liftW (sides_getitem (entity_side e))) ;;
  st <- liftC (liftW (deref l)) ;;
  _update_status st.

Definition async_update (v : Copy) : M Ent unit :=
  liftC (refresh_state v) ;;;
  update_from_cache.

Definition async_set_hvac_mode (hvac_mode : HVACMode) : M Ent unit :=
  let target_state :=
    if decide (hvac_mode = HVAC_HEAT_COOL) then On else Off in
  e <- get_entity ;;
  liftC (set_power (entity_side e) target_state) ;;;
  update_from_cache.

(** [async_set_temperature]: [temperature] is the value of the keyword
    argument [ATTR_TEMPERATURE] when it is among the keyword arguments. *)
Definition async_set_temperature (v : Copy) (temperature : option Z)
  : M Ent unit :=
  match temperature with
  | Some t =>
      e <- get_entity ;;
      liftC (set_temp v (entity_side e) t) ;;;
      update_from_cache
  | None => ret tt
  end.

(** What an entity displays for a cached state with numeric
    temperatures. *)
Definition displayed_mode (st : BedStatus) : HVACMode :=
  match status st with On => HVAC_HEAT_COOL | Off => HVAC_OFF end.

Definition displayed_action (st : BedStatus) (tgt cur : Z) : HVACAction :=
  match status st with
  | Off => ACTION_OFF
  | On =>
      if (tgt =? cur)%Z then ACTION_IDLE
      else if (cur <? tgt)%Z then ACTION_HEATING
      else ACTION_COOLING
  end.

(** The state [refresh_state] writes for a side from a device
    snapshot. *)
Definition refreshed (device : GetDeviceResponse) (side : BedSide)
    (b : BedStatus) : BedStatus :=
  match side with
  | Left => refreshed_left device b
  | _ => refreshed_right device b
  end.

(** The commands and the update of an entity. *)
Inductive EntityCall : Type :=
  | CallUpdate (v : Copy)
  | CallSetHvacMode (hvac_mode : HVACMode)
  | CallSetTemperature (v : Copy) (temperature : Z).

Definition run_entity (c : EntityCall) : M Ent unit :=
  match c with
  | CallUpdate v => async_update v
  | CallSetHvacMode h => async_set_hvac_mode h
  | CallSetTemperature v t => async_set_temperature v (Some t)
  end.

(** An entity on the left side over a client initialised against the
    sample service. *)
Definition sample_entity : Ent :=
  {| entity := Climate_defaults Left;
     client := (initialize Eightslp (sample_obj "u1" "left" 3600)).2 |}.

(** What an entity displays is coherent: the action is [OFF] exactly
    when the mode is, and the mode is one of the two the entity
    declares. *)
Definition coherent (e : Climate) : Prop :=
  (_attr_hvac_mode e = HVAC_OFF <-> _attr_hvac_action e = ACTION_OFF)
  /\ (_attr_hvac_mode e = HVAC_OFF \/ _attr_hvac_mode e = HVAC_HEAT_COOL).

(** ** Config flow and setup ([8slp/config_flow.py], [8slp/__init__.py]) *)

(** The two exceptions the config flow defines, and any other. *)
Inductive flow_exn : Type :=
  | InvalidAuth
  | CannotConnect
  | Uncaught (e : exn).

Inductive FlowResult (A : Type) : Type :=
  | Returned (a : A)
  | Raised (e : flow_exn).
Arguments Returned {A} a.
Arguments Raised {A} e.

(** The dictionary [validate_input] returns, which becomes the data of
    the config entry. *)
Record EntryData : Type := mkEntryData {
  entry_user_id : json;
  entry_access_token : json;
  entry_refresh_token : json;
  entry_expires_at : Z;
  entry_username : string
}.

(** [PlaceholderHub.authenticate]: the result, and [hub.data] after the
    call ([None] is the class attribute). *)
Definition authenticate (username password : string)
  : M World (bool * option LoginResponse) :=
  res <- login username password ;;
  match user_id res with
  | JNull => ret (false, None)
  | _ => ret (true, Some res)
  end.

(** The seconds of [timedelta(0, x)] for a value decoded from JSON; the
    range limit of [timedelta] (a billion days) is not modelled. *)
Definition timedelta_seconds (j : json) : Result Z :=
  match j with
  | JInt n => Ok n
  | JBool b => Ok (if b then 1 else 0)%Z
  | _ => Raise TypeError
  end.

(** [validate_input]: in the dictionary display [datetime.now()] is
    evaluated before [timedelta(0, hub.data.expires_in)]. *)
Definition validate_input (username password : string)
  : World -> FlowResult EntryData * World :=
  fun w =>
    match authenticate username password w with
    | (Raise e, w1) => (Raised (Uncaught e), w1)
    | (Ok (false, _), w1) => (Raised InvalidAuth, w1)
    | (Ok (true, None), w1) => (Raised (Uncaught (AttributeError "user_id")), w1)
    | (Ok (true, Some d), w1) =>
        match datetime_now w1 with
        | (Raise e, w2) => (Raised (Uncaught e), w2)
        | (Ok now, w2) =>
            match timedelta_seconds (expires_in d) with
            | Raise e => (Raised (Uncaught e), w2)
            | Ok n =>
                (Returned {| entry_user_id := user_id d;
                             entry_access_token := access_token d;
                             entry_refresh_token := refresh_token d;
                             entry_expires_at := now + seconds n;
                             entry_username := username |}, w2)
            end
        end
    end.

Inductive StepResult : Type :=
  | ShowForm (base_error : option string)
  | AbortFlow
  | CreateEntry (title : string) (data : EntryData).

(** [ConfigFlow.async_step_user]. [configured] stands for the host
    platform's [_abort_if_unique_id_configured], which aborts the flow
    when an entry with the unique id exists. The assignment to the
    class-level [data] dictionary, which nothing reads, is left out. *)
Definition async_step_user (user_input : option (string * string))
    (configured : json -> bool) : World -> StepResult * World :=
  fun w =>
    match user_input with
    | None => (ShowForm None, w)
    | Some (username, password) =>
        match validate_input username password w with
        | (Raised CannotConnect, w1) => (ShowForm (Some "cannot_connect"), w1)
        | (Raised InvalidAuth, w1) => (ShowForm (Some "invalid_auth"), w1)
        | (Raised (Uncaught _), w1) => (ShowForm (Some "unknown"), w1)
        | (Returned info, w1) =>
            if configured (entry_user_id info) then (AbortFlow, w1)
            else (CreateEntry ("EightSleepAccount: " +:+ entry_username info)
                    info, w1)
        end
    end.

(** A stored identifier as the argument of [Client]: a string or
    [None]. *)
Definition as_identifier (j : json) : Result (option string) :=
  match j with
  | JNull => Ok None
  | JStr s => Ok (Some s)
  | _ => Raise Unmodelled
  end.

(** The statements of [async_setup_entry] that build the client from
    the entry data and initialise it; what follows them hands the client
    to the host platform. *)
Definition setup_client (d : EntryData) : World -> Result unit * Obj + exn * World :=
  fun w =>
    match as_identifier (entry_refresh_token d),
          as_identifier (entry_user_id d) with
    | Ok rt, Ok uid =>
        match Client__init__ Slp8 rt uid w with
        | (Ok c, w1) => inl (initialize Slp8 (mkObj c w1))
        | (Raise e, w1) => inr (e, w1)
        end
    | Raise e, _ | _, Raise e => inr (e, w)
    end.

(** A service that grants every login for the account ["u1"]. *)
Definition granting_world : World :=
  {| clock := fun n => Z.of_nat n; ticks := 0;
     server := fun _ _ =>
       HttpResponse 200
         (Some (JDict [("access_token", JStr "tok");
                       ("token_type", JStr "bearer");
                       ("expires_in", JInt 3600);
                       ("refresh_token", JStr "rt");
                       ("userId", JStr "u1")]));
     log := []; heap := ∅; next_loc := 0; Client_sides := ∅ |}.

(** * Properties *)

(** ** Rounding *)

Lemma divmod_near_10 v :
  let (q, r) := divmod_near v 10 in
  (v = 10 * q + r /\ -5 <= r <= 5 /\ (Z.abs r = 5 -> Z.even q = true))%Z.
Proof.
  unfold divmod_near.
  pose proof (Z.div_mod v 10 ltac:(lia)) as Hdm.
  pose proof (Z.mod_pos_bound v 10 ltac:(lia)) as Hb.
  destruct (10 <? 2 * (v mod 10))%Z eqn:E1; simpl.
  - apply Z.ltb_lt in E1. repeat split; try lia.
  - apply Z.ltb_ge in E1.
    destruct (2 * (v mod 10) =? 10)%Z eqn:E2; simpl.
    + apply Z.eqb_eq in E2.
      destruct (Z.odd (v / 10)) eqn:E3.
      * repeat split; try lia. intros _.
        rewrite Z.even_add, <- Z.negb_odd, E3. reflexivity.
      * repeat split; try lia. intros _.
        rewrite <- Z.negb_odd, E3. reflexivity.
    + apply Z.eqb_neq in E2. repeat split; lia.
Qed.

(** [round(v, -1)] is the multiple of ten nearest to [v]; on a tie it is
    the even multiple. *)
Lemma py_round_tens_spec v :
  exists q : Z,
    (py_round_tens v = 10 * q /\ Z.abs (v - 10 * q) <= 5 /\
     (Z.abs (v - 10 * q) = 5 -> Z.even q = true))%Z.
Proof.
  unfold py_round_tens.
  pose proof (divmod_near_10 v) as H.
  destruct (divmod_near v 10) as [q r]. simpl.
  destruct H as (Hv & Hr & He).
  exists q. replace (v - 10 * q)%Z with r by lia.
  repeat split; try lia. exact He.
Qed.

(** The division by ten is exact. *)
Lemma py_round_tens_exact v :
  (10 * (py_round_tens v / 10) = py_round_tens v)%Z.
Proof.
  destruct (py_round_tens_spec v) as (q & Hq & _).
  rewrite Hq. replace (10 * q)%Z with (q * 10)%Z by lia.
  rewrite Z.div_mul by lia. lia.
Qed.

Lemma py_round_tens_div v q :
  (py_round_tens v = 10 * q)%Z -> (py_round_tens v / 10 = q)%Z.
Proof.
  intros ->. replace (10 * q)%Z with (q * 10)%Z by lia.
  apply Z.div_mul. lia.
Qed.

(** The quotient of [divmod_near] is monotone in the dividend. *)
Lemma divmod_near_monotone a1 a2 b :
  (0 < b -> a1 <= a2 ->
   fst (divmod_near a1 b) <= fst (divmod_near a2 b))%Z.
Proof.
  intros Hb Ha. unfold divmod_near.
  pose proof (Z.div_mod a1 b ltac:(lia)) as D1.
  pose proof (Z.div_mod a2 b ltac:(lia)) as D2.
  pose proof (Z.mod_pos_bound a1 b Hb) as B1.
  pose proof (Z.mod_pos_bound a2 b Hb) as B2.
  pose proof (Z.div_le_mono a1 a2 b Hb Ha) as Hq.
  destruct (Z.eq_dec (a1 / b)%Z (a2 / b)%Z) as [E|E].
  - assert (Hr : (a1 mod b <= a2 mod b)%Z) by (rewrite E in D1; lia).
    rewrite E.
    destruct (b <? 2 * (a1 mod b))%Z eqn:E1; cbn [orb].
    + apply Z.ltb_lt in E1.
      assert (E2 : (b <? 2 * (a2 mod b))%Z = true) by (apply Z.ltb_lt; lia).
      rewrite E2. cbn. lia.
    + destruct ((2 * (a1 mod b) =? b)%Z && Z.odd (a2 / b)) eqn:E3.
      * apply andb_true_iff in E3 as [E3 E4]. apply Z.eqb_eq in E3.
        rewrite E4, andb_true_r.
        destruct (b <? 2 * (a2 mod b))%Z eqn:E5; cbn [orb]; [cbn; lia|].
        apply Z.ltb_ge in E5.
        assert (E6 : (2 * (a2 mod b) =? b)%Z = true) by (apply Z.eqb_eq; lia).
        rewrite E6. cbn. lia.
      * cbn [fst].
        destruct ((b <? 2 * (a2 mod b))%Z
                  || (2 * (a2 mod b) =? b)%Z && Z.odd (a2 / b)); cbn; lia.
  - assert (Hlt : (a1 / b + 1 <= a2 / b)%Z) by lia.
    destruct ((b <? 2 * (a1 mod b))%Z
              || (2 * (a1 mod b) =? b)%Z && Z.odd (a1 / b));
      destruct ((b <? 2 * (a2 mod b))%Z
                || (2 * (a2 mod b) =? b)%Z && Z.odd (a2 / b)); cbn; lia.
Qed.

(** A multiple of the divisor is divided exactly. *)
Lemma divmod_near_multiple c b :
  (0 < b)%Z -> divmod_near (c * b) b = (c, 0%Z).
Proof.
  intros Hb. unfold divmod_near.
  rewrite Z.div_mul, Z.mod_mul by lia.
  replace (b <? 2 * 0)%Z with false by (symmetry; apply Z.ltb_ge; lia).
  replace (2 * 0 =? b)%Z with false by (symmetry; apply Z.eqb_neq; lia).
  reflexivity.
Qed.

Lemma float_of_int_magnitude q :
  float_of_int q =
  if (1024 <=? Z.log2 (float_magnitude (Z.abs q)))%Z then Raise OverflowError
  else Ok (Z.sgn q * float_magnitude (Z.abs q))%Z.
Proof. reflexivity. Qed.

Lemma float_magnitude_small n :
  (0 <= n < 2 ^ 53)%Z -> float_magnitude n = n.
Proof.
  intros [H0 H1]. unfold float_magnitude.
  assert (Hl : (Z.log2 n <= 52)%Z).
  { destruct (Z.eq_dec n 0%Z) as [->|Hn]; [cbn; lia|].
    assert (Z.log2 n < 53)%Z by (apply Z.log2_lt_pow2; lia). lia. }
  rewrite Z.max_l by lia.
  change (2 ^ 0)%Z with 1%Z.
  replace n with (n * 1)%Z at 1 by lia.
  rewrite divmod_near_multiple by lia. cbn [fst]. lia.
Qed.

Lemma float_magnitude_bounds n e :
  (0 < e)%Z -> Z.log2 n = (52 + e)%Z ->
  (2 ^ (52 + e) <= float_magnitude n <= 2 ^ (53 + e))%Z.
Proof.
  intros He Hl. unfold float_magnitude. rewrite Hl.
  replace (52 + e - 52)%Z with e by lia. rewrite Z.max_r by lia.
  assert (Hn : (0 < n)%Z).
  { destruct (Z.log2_null n) as [_ H]. destruct (Z_lt_le_dec 0%Z n); [assumption|].
    destruct (Z.le_gt_cases n 1%Z) as [H1|H1]; [|lia].
    rewrite (proj2 (Z.log2_null n) H1) in Hl. lia. }
  pose proof (Z.log2_spec n Hn) as [Lo Hi]. rewrite Hl in Lo, Hi.
  assert (Hb : (0 < 2 ^ e)%Z) by (apply Z.pow_pos_nonneg; lia).
  replace (Z.succ (52 + e)) with (53 + e)%Z in Hi by lia.
  rewrite (Z.pow_add_r 2%Z 52%Z e) in * by lia.
  rewrite (Z.pow_add_r 2%Z 53%Z e) in * by lia.
  pose proof (divmod_near_monotone (2 ^ 52 * 2 ^ e)%Z n (2 ^ e)%Z Hb Lo) as M1.
  pose proof (divmod_near_monotone n (2 ^ 53 * 2 ^ e)%Z (2 ^ e)%Z Hb ltac:(lia))
    as M2.
  rewrite divmod_near_multiple in M1, M2 by lia. cbn [fst] in M1, M2.
  split; apply Z.mul_le_mono_nonneg_r; lia.
Qed.

Lemma float_magnitude_monotone n1 n2 :
  (0 <= n1 <= n2)%Z -> (float_magnitude n1 <= float_magnitude n2)%Z.
Proof.
  intros [H0 H].
  pose proof (Z.log2_le_mono n1 n2 H) as Hl.
  destruct (Z_lt_le_dec (Z.log2 n2) 53%Z) as [S2|S2].
  - (* both below 2^53 *)
    assert (n2 < 2 ^ 53)%Z.
    { destruct (Z.eq_dec n2 0%Z) as [->|Hn]; [cbn; lia|].
      apply Z.log2_lt_pow2; lia. }
    rewrite !float_magnitude_small by lia. lia.
  - destruct (float_magnitude_bounds n2 (Z.log2 n2 - 52)%Z) as [Lo2 _]; [lia..|].
    replace (52 + (Z.log2 n2 - 52))%Z with (Z.log2 n2) in Lo2 by lia.
    destruct (Z_lt_le_dec (Z.log2 n1) 53%Z) as [S1|S1].
    + assert (n1 < 2 ^ 53)%Z.
      { destruct (Z.eq_dec n1 0%Z) as [->|Hn]; [cbn; lia|].
        apply Z.log2_lt_pow2; lia. }
      rewrite (float_magnitude_small n1) by lia.
      assert (2 ^ 53 <= 2 ^ Z.log2 n2)%Z by (apply Z.pow_le_mono_r; lia).
      lia.
    + destruct (Z.eq_dec (Z.log2 n1) (Z.log2 n2)) as [E|E].
      * unfold float_magnitude. rewrite E.
        apply Z.mul_le_mono_nonneg_r.
        -- apply Z.pow_nonneg. lia.
        -- apply divmod_near_monotone; [apply Z.pow_pos_nonneg; lia|lia].
      * destruct (float_magnitude_bounds n1 (Z.log2 n1 - 52)%Z) as [_ Hi1];
          [lia..|].
        replace (53 + (Z.log2 n1 - 52))%Z with (Z.log2 n1 + 1)%Z in Hi1 by lia.
        assert (2 ^ (Z.log2 n1 + 1) <= 2 ^ Z.log2 n2)%Z
          by (apply Z.pow_le_mono_r; lia).
        lia.
Qed.

Lemma float_magnitude_nonneg n : (0 <= n)%Z -> (0 <= float_magnitude n)%Z.
Proof.
  intros H. pose proof (float_magnitude_monotone 0%Z n ltac:(lia)) as M.
  rewrite (float_magnitude_small 0%Z) in M by (cbn; lia). exact M.
Qed.

(** The conversion to [float] is monotone where it is defined. *)
Lemma float_of_int_monotone p q a b :
  float_of_int p = Ok a -> float_of_int q = Ok b ->
  (p <= q)%Z -> (a <= b)%Z.
Proof.
  rewrite !float_of_int_magnitude.
  destruct (1024 <=? _)%Z; [discriminate|]. intros [= <-].
  destruct (1024 <=? _)%Z; [discriminate|]. intros [= <-] H.
  pose proof (float_magnitude_nonneg (Z.abs p) (Z.abs_nonneg p)) as Np.
  pose proof (float_magnitude_nonneg (Z.abs q) (Z.abs_nonneg q)) as Nq.
  destruct (Z_lt_le_dec p 0%Z) as [Hp|Hp]; destruct (Z_lt_le_dec q 0%Z) as [Hq|Hq].
  - pose proof (float_magnitude_monotone (Z.abs q) (Z.abs p) ltac:(lia)).
    rewrite !Z.sgn_neg by lia. lia.
  - rewrite (Z.sgn_neg p) by lia.
    assert (0 <= Z.sgn q)%Z by (apply Z.sgn_nonneg; lia). nia.
  - lia.
  - pose proof (float_magnitude_monotone (Z.abs p) (Z.abs q) ltac:(lia)).
    destruct (Z.eq_dec p 0%Z) as [->|]; [cbn in *|].
    + assert (0 <= Z.sgn q)%Z by (apply Z.sgn_nonneg; lia). nia.
    + rewrite !Z.sgn_pos by lia. lia.
Qed.

(** An integer of magnitude up to [2^53] is a [float] as it is. *)
Lemma float_of_int_exact q :
  (Z.abs q <= 2 ^ 53)%Z -> float_of_int q = Ok q.
Proof.
  intros H. rewrite float_of_int_magnitude.
  assert (Hm : float_magnitude (Z.abs q) = Z.abs q).
  { destruct (Z.eq_dec (Z.abs q) (2 ^ 53)%Z) as [->|Hn]; [vm_compute; reflexivity|].
    apply float_magnitude_small. lia. }
  rewrite Hm.
  assert (Hl : (Z.log2 (Z.abs q) <= 53)%Z).
  { change 53%Z with (Z.log2 (2 ^ 53)%Z). apply Z.log2_le_mono. exact H. }
  replace (1024 <=? Z.log2 (Z.abs q))%Z with false
    by (symmetry; apply Z.leb_gt; lia).
  f_equal. rewrite Z.mul_comm. apply Z.abs_sgn.
Qed.

(** The conversion to [float] is odd. *)
Lemma float_of_int_opp q :
  float_of_int (- q) =
  match float_of_int q with
  | Ok f => Ok (- f)%Z
  | Raise e => Raise e
  end.
Proof.
  rewrite !float_of_int_magnitude, Z.abs_opp, Z.sgn_opp.
  destruct (1024 <=? _)%Z; [reflexivity|]. f_equal. lia.
Qed.

Lemma level_int_value v :
  level (JInt v) = true_div_10 (py_round_tens v).
Proof. reflexivity. Qed.

Lemma true_div_10_ok n a :
  true_div_10 n = Ok (JInt a) <-> float_of_int (n / 10) = Ok a.
Proof.
  unfold true_div_10. destruct (float_of_int _); split; congruence.
Qed.

(** Up to [10 * 2^53] the level is the exact quotient. *)
Lemma level_exact v :
  (Z.abs v <= 10 * 2 ^ 53)%Z ->
  level (JInt v) = Ok (JInt (py_round_tens v / 10)).
Proof.
  intros H. rewrite level_int_value. unfold true_div_10.
  destruct (py_round_tens_spec v) as (q & Hq & Hn & _).
  rewrite (py_round_tens_div _ _ Hq).
  rewrite float_of_int_exact; [reflexivity|].
  change (2 ^ 53)%Z with 9007199254740992%Z in *. lia.
Qed.

Lemma level_int v :
  (Z.abs v <= 10 * 2 ^ 53)%Z ->
  exists q : Z,
    level (JInt v) = Ok (JInt q) /\ (Z.abs (v - 10 * q) <= 5)%Z.
Proof.
  intros H. destruct (py_round_tens_spec v) as (q & Hq & Hn & _).
  exists q. split; [|exact Hn].
  rewrite (level_exact v H), (py_round_tens_div _ _ Hq). reflexivity.
Qed.

Example level_42 : level (JInt 42) = Ok (JInt 4).
Proof. vm_compute. reflexivity. Qed.

(** The rounded quotient is monotone and odd. *)
Lemma py_round_tens_monotone v w :
  (v <= w -> py_round_tens v / 10 <= py_round_tens w / 10)%Z.
Proof.
  intros Hvw.
  destruct (py_round_tens_spec v) as (p & Hp & Hpn & Hpe).
  destruct (py_round_tens_spec w) as (q & Hq & Hqn & Hqe).
  rewrite (py_round_tens_div _ _ Hp), (py_round_tens_div _ _ Hq).
  destruct (Z_le_gt_dec p q) as [|Hgt]; [assumption|exfalso].
  assert (Hpq : p = (q + 1)%Z) by lia.
  assert (Hv : (v = 10 * q + 5)%Z) by lia.
  assert (Hw : (w = 10 * q + 5)%Z) by lia.
  assert (Ep : Z.even p = true) by (apply Hpe; lia).
  assert (Eq : Z.even q = true) by (apply Hqe; lia).
  subst p. rewrite Z.even_add, Eq in Ep. discriminate.
Qed.

Lemma py_round_tens_opp v :
  (py_round_tens (- v) / 10 = - (py_round_tens v / 10))%Z.
Proof.
  destruct (py_round_tens_spec v) as (p & Hp & Hpn & Hpe).
  destruct (py_round_tens_spec (- v)) as (q & Hq & Hqn & Hqe).
  rewrite (py_round_tens_div _ _ Hp), (py_round_tens_div _ _ Hq).
  destruct (Z.eq_dec q (- p)%Z) as [|Hne]; [assumption|exfalso].
  assert (Hpq : (q = - p + 1 \/ q = - p - 1)%Z) by lia.
  assert (Ep : Z.even p = true) by (apply Hpe; lia).
  assert (Eq : Z.even q = true) by (apply Hqe; lia).
  destruct Hpq; subst q.
  - rewrite Z.even_add, Z.even_opp, Ep in Eq. discriminate.
  - rewrite Z.even_sub, Z.even_opp, Ep in Eq. discriminate.
Qed.

(** ** Requests *)

Ltac unfold_m :=
  unfold bind, ret, raise, lift_result, liftW, get_self, set_self in *.

Lemma send_request_bearer url m p t w :
  send_request url m p (JStr t) w =
  (reply_json (server w (log w) (mkRequest m url (bearer t) p 60)),
   issue (mkRequest m url (bearer t) p 60) w).
Proof.
  unfold send_request, requests_request, bearer. unfold_m. cbn.
  destruct (server w (log w) _) as [|st [j|]]; reflexivity.
Qed.

Lemma send_request_anonymous url m p w :
  send_request url m p JNull w =
  (reply_json (server w (log w)
                 (mkRequest m url [("Content-Type", "application/json")] p 60)),
   issue (mkRequest m url [("Content-Type", "application/json")] p 60) w).
Proof.
  unfold send_request, requests_request. unfold_m. cbn.
  destruct (server w (log w) _) as [|st [j|]]; reflexivity.
Qed.

(** Whatever the token is, a request carries the method and the address
    it was given, and at most one request is issued. *)
Lemma send_request_log url m p auth w :
  log (send_request url m p auth w).2 = log w \/
  exists hs, log (send_request url m p auth w).2
             = log w ++ [mkRequest m url hs p 60].
Proof.
  destruct auth; try (left; reflexivity).
  - right. rewrite send_request_anonymous. eexists. reflexivity.
  - right. rewrite send_request_bearer. eexists. reflexivity.
Qed.

Lemma turn_on_request uid t w :
  log (turn_on uid (JStr t) w).2 =
  log w ++ [mkRequest "PUT"
              (APP_BASE_URI +:+ "/users/" +:+ fmt uid +:+ "/temperature")
              (bearer t)
              (JDict [("currentState", JDict [("type", JStr "smart")])]) 60].
Proof.
  unfold turn_on, bind. rewrite send_request_bearer.
  destruct (reply_json _); reflexivity.
Qed.

Lemma set_temperature_request v uid T t p w :
  log (set_temperature v uid T (JStr t) p w).2 =
  log w ++ [mkRequest "PUT"
              (APP_BASE_URI +:+ "/users/" +:+ fmt uid +:+ "/temperature")
              (bearer t)
              (JDict (if p
                      then [("currentLevel", JInt (T * 10));
                            ("currentState", JDict [("type", JStr "smart")])]
                      else [("currentLevel", JInt (T * 10))])) 60].
Proof.
  unfold set_temperature, bind. rewrite send_request_bearer.
  destruct v, p; cbn; destruct (reply_json _); reflexivity.
Qed.

(** C7. [turn_off] sends its PUT to the client API base
    ([https://client-api.8slp.net/v1]), not to the app API base that
    [turn_on] and [set_temperature] use for the same path. *)
Theorem C7_turn_off_uses_client_api_base uid t w :
  log (turn_off uid (JStr t) w).2 =
    log w ++ [mkRequest "PUT"
                (API_BASE_URI +:+ "/users/" +:+ fmt uid +:+ "/temperature")
                (bearer t)
                (JDict [("currentState", JDict [("type", JStr "off")])]) 60]
  /\ API_BASE_URI +:+ "/users/" +:+ fmt uid +:+ "/temperature"
     <> APP_BASE_URI +:+ "/users/" +:+ fmt uid +:+ "/temperature".
Proof.
  split.
  - unfold turn_off, bind. rewrite send_request_bearer.
    destruct (reply_json _); reflexivity.
  - cbn. discriminate.
Qed.

(** ** Device snapshot *)

(** What [get_device] returns on a response that has the expected fields
    with levels that can be rounded and divided: every field but the
    last two is filled alike in both copies. *)
Lemma get_device_fields v dev t w st top kv lnh rnh lt lc ld rt rc rd
    lt' lc' rt' rc' :
  server w (log w) (device_request dev t) = HttpResponse st (Some (JDict top)) ->
  dict_get "result" top = Some (JDict kv) ->
  dict_get "leftNowHeating" kv = Some lnh ->
  dict_get "rightNowHeating" kv = Some rnh ->
  dict_get "leftTargetHeatingLevel" kv = Some lt ->
  dict_get "leftHeatingLevel" kv = Some lc ->
  dict_get "leftHeatingDuration" kv = Some ld ->
  dict_get "rightTargetHeatingLevel" kv = Some rt ->
  dict_get "rightHeatingLevel" kv = Some rc ->
  dict_get "rightHeatingDuration" kv = Some rd ->
  level lt = Ok lt' -> level lc = Ok lc' ->
  level rt = Ok rt' -> level rc = Ok rc' ->
  (get_device v dev (JStr t) w).1 =
  Ok (GetDeviceResponse_new v (power_of lnh) lt' lc' ld
        (power_of rnh) rt' rc' rd).
Proof.
  intros Hs Hres H1 H2 H3 H4 H5 H6 H7 H8 L1 L2 L3 L4.
  unfold get_device, bind. rewrite send_request_bearer.
  unfold device_request, bearer in *. rewrite Hs. cbn.
  unfold lift_result, ret. cbn.
  rewrite Hres. cbn. rewrite H1, H2, H3. cbn. rewrite L1, H4. cbn.
  rewrite L2, H5, H6. cbn. rewrite L3, H7. cbn. rewrite L4, H8. reflexivity.
Qed.

(** In [eightslp] the right-side current level and duration are the
    rounded level and the reported duration. *)
Lemma get_device_eightslp_right_side a b c d e f g h :
  right_current (GetDeviceResponse_new Eightslp a b c d e f g h) = g /\
  right_duration (GetDeviceResponse_new Eightslp a b c d e f g h) = h.
Proof. split; reflexivity. Qed.

Lemma get_device_left_side v a b c d e f g h :
  left_target (GetDeviceResponse_new v a b c d e f g h) = b /\
  left_current (GetDeviceResponse_new v a b c d e f g h) = c /\
  left_duration (GetDeviceResponse_new v a b c d e f g h) = d /\
  right_target (GetDeviceResponse_new v a b c d e f g h) = f.
Proof. destruct v; repeat split; reflexivity. Qed.

(** C1. On a device response with [rightHeatingLevel = 42] and
    [rightHeatingDuration = 7] the [8slp] copy of [get_device] returns a
    snapshot whose right-side current level is 7 (the duration) and whose
    right-side duration is 4 (the rounded level); the [eightslp] copy
    returns current level 4 and duration 7. *)
Theorem C1_get_device_8slp_swaps_right_current_and_duration :
  (get_device Slp8 "D" (JStr "tok") (sample_world "u1" "left" 3600)).1 =
    Ok {| left_status := On; left_target := JInt 3; left_current := JInt 4;
          left_duration := JInt 0; right_status := Off;
          right_target := JInt (-2);
          right_current := JInt 7; right_duration := JInt 4 |}
  /\ (get_device Eightslp "D" (JStr "tok") (sample_world "u1" "left" 3600)).1 =
    Ok {| left_status := On; left_target := JInt 3; left_current := JInt 4;
          left_duration := JInt 0; right_status := Off;
          right_target := JInt (-2);
          right_current := JInt 4; right_duration := JInt 7 |}.
Proof. split; vm_compute; reflexivity. Qed.

(** C6. With the account on the left side and a device that reports
    [rightHeatingLevel = 42] and [rightHeatingDuration = 7], the public
    current temperature of the right side after [initialize] of the
    [8slp] copy is 7, not the rounded and scaled level 4; the left side
    (level 42) and the [eightslp] copy give 4. *)
Theorem C6_8slp_right_current_temperature_is_duration :
  temperature <$>
    side_state (world (initialize Slp8 (sample_obj "u1" "left" 3600)).2) Right
    = Some (JInt 7)
  /\ temperature <$>
    side_state (world (initialize Slp8 (sample_obj "u1" "left" 3600)).2) Left
    = Some (JInt 4)
  /\ temperature <$>
    side_state (world (initialize Eightslp (sample_obj "u1" "left" 3600)).2)
      Right
    = Some (JInt 4)
  /\ level (JInt 42) = Ok (JInt 4).
Proof. repeat split; vm_compute; reflexivity. Qed.

(** ** Construction *)

Lemma Client__init___checked rt w :
  Client__init__ Slp8 (Some rt) None w =
  (Raise (PyException "user_id is required with refresh_token"), w).
Proof. reflexivity. Qed.

Lemma Client__init___unchecked v rt uid w :
  v = Eightslp \/ rt = None \/ uid <> None ->
  Client__init__ v rt uid w =
  (Ok (new_client v rt uid (clock w (ticks w))), tick w).
Proof.
  intros H. destruct v, rt, uid; try reflexivity.
  destruct H as [H|[H|H]]; congruence.
Qed.

(** C3 (as the code has it). Construction never raises
    [ConfigurationError] and never issues a request. The [8slp] copy
    raises the builtin [Exception] when a refresh token is given without
    an account id, before it reads the clock; with no refresh token
    either, and in the [eightslp] copy always, an absent account id is
    accepted and the client is built with the token already expired. *)
Theorem C3_construction_without_account_id v rt uid w :
  (Client__init__ v rt uid w).1 <> Raise ConfigurationError
  /\ log (Client__init__ v rt uid w).2 = log w
  /\ (forall r, Client__init__ Slp8 (Some r) None w =
        (Raise (PyException "user_id is required with refresh_token"), w))
  /\ Client__init__ Slp8 None None w =
       (Ok (new_client Slp8 None None (clock w (ticks w))), tick w)
  /\ Client__init__ Eightslp rt None w =
       (Ok (new_client Eightslp rt None (clock w (ticks w))), tick w).
Proof.
  repeat split; try reflexivity.
  - destruct v, rt, uid; cbn; discriminate.
  - destruct v, rt, uid; reflexivity.
Qed.

(** C3, as stated, fails: in the [eightslp] copy a construction with a
    refresh token and no account id returns a client. *)
Lemma C3_counterexample_eightslp_accepts_None :
  exists c w',
    Client__init__ Eightslp (Some "rt") None (sample_world "u1" "left" 3600)
      = (Ok c, w')
    /\ _account_user_id c = None.
Proof. eexists. eexists. split; reflexivity. Qed.

(** ** Errors of the token endpoint *)













(** ** Token lifecycle *)

Lemma refresh_world rt w : (refresh rt w).2 = issue (refresh_request rt) w.
Proof.
  unfold refresh, bind. rewrite send_request_anonymous.
  fold (refresh_request rt).
  destruct (reply_json _) as [res|e]; cbn; [|reflexivity].
  unfold lift_result, ret.
  repeat match goal with
  | |- context [subscript ?j ?k] => destruct (subscript j k); cbn; try reflexivity
  end.
Qed.


(** [_token], case by case. *)
Lemma token_unfold o :
  _token o =
  if (_expires_at (self o) <? clock (world o) (ticks (world o)))%Z
  then
    match (refresh (_refresh_token (self o)) (tick (world o))).1 with
    | Raise e =>
        (Raise e,
         mkObj (self o)
           (issue (refresh_request (_refresh_token (self o))) (tick (world o))))
    | Ok res =>
        match lifetime_minus_margin (expires_in res) with
        | Raise e =>
            (Raise e,
             mkObj (with_access_token (access_token res) (self o))
               (tick (issue (refresh_request (_refresh_token (self o)))
                        (tick (world o)))))
        | Ok secs =>
            (Ok (access_token res),
             mkObj (with_expires_at
                      (clock (world o) (S (ticks (world o))) + seconds secs)
                      (with_access_token (access_token res) (self o)))
               (tick (issue (refresh_request (_refresh_token (self o)))
                        (tick (world o)))))
        end
    end
  else (Ok (_access_token (self o)), mkObj (self o) (tick (world o))).
Proof.
  unfold _token, set_access_token, set_expires_at, datetime_now.
  unfold_m. cbn.
  destruct (_ <? _)%Z; [|reflexivity].
  pose proof (refresh_world (_refresh_token (self o)) (tick (world o))) as Hw.
  destruct (refresh _ _) as [[res|e] w2]; cbn in *; subst w2; [|reflexivity].
  destruct (lifetime_minus_margin _); reflexivity.
Qed.


Lemma writes_app l r :
  writes (l ++ [r]) = writes l ++ (if is_write r then [r] else []).
Proof.
  unfold writes. rewrite filter_app. f_equal.
  rewrite filter_cons, filter_nil.
  destruct (is_write r); case_decide; try reflexivity; congruence.
Qed.


(** No refresh call is issued while the next clock reading is at or
    before [_expires_at]. *)
Lemma token_valid o :
  fresh 1 o ->
  _token o = (Ok (_access_token (self o)), mkObj (self o) (tick (world o))).
Proof.
  intros H. rewrite token_unfold.
  specialize (H (ticks (world o)) ltac:(lia)).
  destruct (_ <? _)%Z eqn:E; [|reflexivity].
  apply Z.ltb_lt in E. lia.
Qed.

(** An expired token costs exactly one refresh call, whether or not the
    refresh succeeds. *)
Lemma token_expired_log o :
  expired o ->
  log (world (_token o).2) =
  log (world o) ++ [refresh_request (_refresh_token (self o))].
Proof.
  unfold expired. intros H. rewrite token_unfold.
  apply Z.ltb_lt in H. rewrite H.
  destruct (refresh _ _).1 as [res|e]; [|reflexivity].
  destruct (lifetime_minus_margin _); reflexivity.
Qed.

Lemma token_log o :
  log (world (_token o).2) = log (world o) \/
  log (world (_token o).2) =
  log (world o) ++ [refresh_request (_refresh_token (self o))].
Proof.
  destruct (Z.ltb_spec (_expires_at (self o))
              (clock (world o) (ticks (world o)))) as [H|H].
  - right. apply token_expired_log. exact H.
  - left. rewrite token_valid; [reflexivity|].
    intros k Hk. replace k with (ticks (world o)) by lia. exact H.
Qed.


(** What [_token] keeps. *)
Lemma token_keeps o :
  _account_user_id (self (_token o).2) = _account_user_id (self o) /\
  _refresh_token (self (_token o).2) = _refresh_token (self o) /\
  _bed_name (self (_token o).2) = _bed_name (self o) /\
  heap (world (_token o).2) = heap (world o) /\
  next_loc (world (_token o).2) = next_loc (world o) /\
  Client_sides (world (_token o).2) = Client_sides (world o).
Proof.
  rewrite token_unfold.
  destruct (_ <? _)%Z; [|repeat split].
  destruct (refresh _ _).1 as [res|e]; [|repeat split].
  destruct (lifetime_minus_margin _); repeat split.
Qed.

(** *** Computations that issue no refresh call *)



















(** *** Operations under a fresh token *)














Lemma bind_account {A} (k : option string -> M Obj A) o :
  bind account_user_id k o = k (_account_user_id (self o)) o.
Proof. reflexivity. Qed.



Lemma side_state_inv w side b :
  side_state w side = Some b ->
  exists l, Client_sides w !! side = Some l /\ heap w !! l = Some b.
Proof.
  unfold side_state. destruct (Client_sides w !! side) as [l|]; [|discriminate].
  intros H. exists l. split; [reflexivity|exact H].
Qed.

Lemma set_temp_unfold v side T o b :
  side_state (world o) side = Some b ->
  set_temp v side T o =
  bind _token
    (fun tok => liftW (set_temperature v (_user_id b) T tok
                         (bool_decide (status b = Off)))) o.
Proof.
  intros H. apply side_state_inv in H as (l & Hl & Hb). destruct o as [c w].
  cbn [world] in Hl, Hb.
  unfold set_temp, bind, liftW, sides_getitem, deref. cbn [world self].
  rewrite Hl. cbn [world self]. rewrite Hb. cbn [world self].
  rewrite Hb. reflexivity.
Qed.

Lemma set_power_unfold side st o b :
  side_state (world o) side = Some b ->
  set_power side st o =
  bind _token
    (fun tok => liftW (match st with
                       | Off => turn_off (_user_id b) tok
                       | On => turn_on (_user_id b) tok
                       end)) o.
Proof.
  intros H. apply side_state_inv in H as (l & Hl & Hb). destruct o as [c w].
  cbn [world] in Hl, Hb.
  unfold set_power, bind, liftW, sides_getitem, deref. cbn [world self].
  rewrite Hl.
  destruct st; destruct (decide _) as [E|E]; try congruence;
    cbn [world self]; rewrite Hb; reflexivity.
Qed.


(** *** Operations under short lifetimes *)









































(** At the margin the clock decides: with a reported lifetime of 100
    seconds the new [_expires_at] is the reading taken after the refresh,
    and under a clock that stands still the later token acquisitions of
    [initialize] do not refresh again. *)
Example lifetime_at_margin_stalled_clock :
  refresh_calls
    (log (world (initialize Eightslp
                   (mkObj (sample_client (Some "u1"))
                      (stalled_world "u1" "left" 100))).2)) = 1.
Proof. vm_compute. reflexivity. Qed.

(** ** Writes *)

Lemma token_writes o : writes (log (world (_token o).2)) = writes (log (world o)).
Proof.
  destruct (token_log o) as [H|H]; rewrite H; [reflexivity|].
  rewrite writes_app. cbn. apply app_nil_r.
Qed.

(** C8. [set_temp] on a side of the side map, once the token acquisition
    has produced a string token, issues exactly one write: a PUT for the
    side's owner whose payload is the target scaled by ten and, when the
    cached status of the side is [Off], the smart-mode instruction as
    well; when the cached status is [On] the payload is the scaled
    target alone. *)
Theorem C8_set_temp_issues_one_write v side T o b t :
  side_state (world o) side = Some b ->
  (_token o).1 = Ok (JStr t) ->
  let req :=
    mkRequest "PUT"
      (APP_BASE_URI +:+ "/users/" +:+ fmt (_user_id b) +:+ "/temperature")
      (bearer t)
      (JDict (match status b with
              | Off => [("currentLevel", JInt (T * 10));
                        ("currentState", JDict [("type", JStr "smart")])]
              | On => [("currentLevel", JInt (T * 10))]
              end)) 60 in
  log (world (set_temp v side T o).2) = log (world (_token o).2) ++ [req]
  /\ writes (log (world (set_temp v side T o).2))
     = writes (log (world o)) ++ [req].
Proof.
  intros Hb Ht req.
  assert (Hlog : log (world (set_temp v side T o).2)
                 = log (world (_token o).2) ++ [req]).
  { rewrite (set_temp_unfold _ _ _ _ _ Hb). unfold bind.
    destruct (_token o) as [[a|e] o1]; cbn in Ht; [|discriminate].
    injection Ht as ->. unfold liftW.
    pose proof (set_temperature_request v (_user_id b) T t
                  (bool_decide (status b = Off)) (world o1)) as Hs.
    destruct (set_temperature _ _ _ _ _ _) as [r w']. cbn in *.
    rewrite Hs. subst req. destruct (status b); reflexivity. }
  split; [exact Hlog|].
  rewrite Hlog, writes_app, token_writes. reflexivity.
Qed.

Lemma C8_witness :
  let o := (initialize Eightslp (sample_obj "u1" "left" 3600)).2 in
  writes (log (world (set_temp Eightslp Right 3 o).2)) =
  [mkRequest "PUT" "https://app-api.8slp.net/v1/users/guest-D-right/temperature"
     (bearer "tok")
     (JDict [("currentLevel", JInt 30);
             ("currentState", JDict [("type", JStr "smart")])]) 60]
  /\ writes (log (world (set_temp Eightslp Left 3 o).2)) =
  [mkRequest "PUT" "https://app-api.8slp.net/v1/users/u1/temperature"
     (bearer "tok") (JDict [("currentLevel", JInt 30)]) 60].
Proof.
  intros o. split.
  - apply (C8_set_temp_issues_one_write Eightslp Right 3 o
             (BedStatus_new Right Off (JInt 4) (Some "guest-D-right")
                (JInt (-2))) "tok");
      vm_compute; reflexivity.
  - apply (C8_set_temp_issues_one_write Eightslp Left 3 o
             (BedStatus_new Left On (JInt 4) (Some "u1") (JInt 3)) "tok");
      vm_compute; reflexivity.
Defined.

(** ** Side binding *)

Lemma net_only_ret {A} (a : A) : net_only (ret a).
Proof. intros w. repeat split. Qed.

Lemma net_only_raise {A} e : net_only (@raise World A e).
Proof. intros w. repeat split. Qed.

Lemma net_only_lift_result {A} (r : Result A) : net_only (lift_result r).
Proof. intros w. repeat split. Qed.

Lemma net_only_bind {A B} (m : M World A) (k : A -> M World B) :
  net_only m -> (forall a, net_only (k a)) -> net_only (bind m k).
Proof.
  intros Hm Hk w. unfold bind.
  destruct (Hm w) as (H1 & H2 & H3).
  destruct (m w) as [[a|e] w1]; cbn in *.
  - destruct (Hk a w1) as (K1 & K2 & K3). repeat split; congruence.
  - repeat split; assumption.
Qed.

Lemma net_only_send_request url m p auth : net_only (send_request url m p auth).
Proof.
  intros w. destruct auth; try (repeat split; fail).
  - rewrite send_request_anonymous. repeat split.
  - rewrite send_request_bearer. repeat split.
Qed.

Ltac net_only_tac :=
  repeat first
    [ apply net_only_ret | apply net_only_raise | apply net_only_lift_result
    | apply net_only_send_request
    | apply net_only_bind; [|intros ?]
    | match goal with
      | |- net_only (match ?x with _ => _ end) => destruct x
      | |- net_only (if ?x then _ else _) => destruct x
      end ].

Lemma net_only_get_user uid t : net_only (get_user uid t).
Proof. unfold get_user. net_only_tac. Qed.

Lemma net_only_get_device v dev t : net_only (get_device v dev t).
Proof. unfold get_device. net_only_tac. Qed.

Lemma net_only_get_device_names uid t : net_only (get_device_names uid t).
Proof. unfold get_device_names. net_only_tac. Qed.

Lemma keeps_ret {A} (a : A) : keeps (ret a).
Proof. intros o. repeat split. Qed.

Lemma keeps_lift_result {A} (r : Result A) : keeps (lift_result r).
Proof. intros o. repeat split. Qed.

Lemma keeps_account : keeps account_user_id.
Proof. intros o. repeat split. Qed.

Lemma keeps_token : keeps _token.
Proof.
  intros o. destruct (token_keeps o) as (H1 & _ & _ & H2 & H3 & H4).
  repeat split; assumption.
Qed.

Lemma keeps_liftW {A} (g : M World A) : net_only g -> keeps (liftW g).
Proof.
  intros Hg o. unfold liftW.
  destruct (Hg (world o)) as (H1 & H2 & H3).
  destruct (g (world o)) as [r w1]. cbn in *. repeat split; assumption.
Qed.

Lemma keeps_bind {A B} (m : M Obj A) (k : A -> M Obj B) :
  keeps m -> (forall a, keeps (k a)) -> keeps (bind m k).
Proof.
  intros Hm Hk o. unfold bind.
  destruct (Hm o) as (H1 & H2 & H3 & H4).
  destruct (m o) as [[a|e] o1]; cbn in *.
  - destruct (Hk a o1) as (K1 & K2 & K3 & K4). repeat split; congruence.
  - repeat split; assumption.
Qed.

Ltac keeps_tac :=
  repeat first
    [ apply keeps_ret | apply keeps_lift_result | apply keeps_account
    | apply keeps_token
    | apply keeps_liftW;
      first [ apply net_only_get_user | apply net_only_get_device
            | apply net_only_get_device_names ]
    | apply keeps_bind; [|intros ?] ].

Lemma fetch_user_device_keeps v : keeps (fetch_user_device v).
Proof. unfold fetch_user_device. keeps_tac. Qed.

Lemma fetch_bed_name_keeps user : keeps (fetch_bed_name user).
Proof. unfold fetch_bed_name. keeps_tac. Qed.

(** [initialize] once the two snapshots and the bed name are there: in
    [eightslp], and in [8slp] when the account is on the left, two objects
    are allocated and bound to the two sides. *)
Lemma initialize_run v o user device o1 name o2 :
  fetch_user_device v o = (Ok (user, device), o1) ->
  fetch_bed_name user o1 = (Ok name, o2) ->
  v = Eightslp \/ current_side user = Left ->
  initialize v o =
  (Ok tt,
   mkObj (with_bed_name name (self o2))
     (bound_world (world o2)
        (left_state (_account_user_id (self o2)) user device)
        (right_state (_account_user_id (self o2)) user device))).
Proof.
  intros H1 H2 Hv.
  unfold initialize, fetch_user_device, fetch_bed_name in *.
  rewrite bind_account in H1. rewrite bind_account in H2.
  rewrite bind_account. cbv beta in *.
  revert H1. unfold bind.
  destruct (_token o) as [[tok|e] oa]; [|discriminate].
  destruct (liftW (get_user _ tok) oa) as [[u|e] ob]; [|discriminate].
  destruct (_token ob) as [[tok2|e] oc]; [|discriminate].
  destruct (liftW (get_device v _ tok2) oc) as [[d|e] od]; [|discriminate].
  unfold ret. intros H1. injection H1 as -> -> ->.
  change (account_user_id o1) with (Ok (_account_user_id (self o1)), o1).
  cbv beta iota.
  revert H2. unfold bind, lift_result.
  destruct (_token o1) as [[tok3|e] oe]; [|discriminate].
  destruct (liftW (get_device_names _ tok3) oe) as [[names|e] og];
    [|discriminate].
  destruct (names_getitem names (current_device user)) as [n|e];
    [|discriminate].
  intros H2. injection H2 as -> ->.
  unfold left_state, right_state, guest_id, bound_world.
  destruct (decide (current_side user = Left)) as [E|E]; cbn.
  - reflexivity.
  - destruct Hv as [->|Hv]; [reflexivity|congruence].
Qed.

Lemma bound_world_sides w bl br :
  Client_sides (bound_world w bl br) !! Left = Some (next_loc w)
  /\ Client_sides (bound_world w bl br) !! Right = Some (S (next_loc w))
  /\ side_state (bound_world w bl br) Left = Some bl
  /\ side_state (bound_world w bl br) Right = Some br.
Proof.
  unfold side_state, bound_world. cbn.
  rewrite lookup_insert_eq.
  rewrite lookup_insert_ne by discriminate. rewrite lookup_insert_eq.
  rewrite lookup_insert_eq.
  rewrite lookup_insert_ne by lia. rewrite lookup_insert_eq.
  repeat split.
Qed.

(** In [8slp], when the account is not on the left, [initialize] binds
    the left side and then fails on [BedSide.right]: the right side keeps
    whatever entry it had. *)
Lemma initialize_8slp_account_not_left o user device o1 name o2 :
  fetch_user_device Slp8 o = (Ok (user, device), o1) ->
  fetch_bed_name user o1 = (Ok name, o2) ->
  current_side user <> Left ->
  (initialize Slp8 o).1 = Raise (AttributeError "right")
  /\ Client_sides (world (initialize Slp8 o).2)
     = <[Left := next_loc (world o2)]> (Client_sides (world o2)).
Proof.
  intros H1 H2 Hv.
  unfold initialize, fetch_user_device, fetch_bed_name in *.
  rewrite bind_account in H1. rewrite bind_account in H2.
  rewrite bind_account. cbv beta in *.
  revert H1. unfold bind.
  destruct (_token o) as [[tok|e] oa]; [|discriminate].
  destruct (liftW (get_user _ tok) oa) as [[u|e] ob]; [|discriminate].
  destruct (_token ob) as [[tok2|e] oc]; [|discriminate].
  destruct (liftW (get_device Slp8 _ tok2) oc) as [[d|e] od]; [|discriminate].
  unfold ret. intros H1. injection H1 as -> -> ->.
  change (account_user_id o1) with (Ok (_account_user_id (self o1)), o1).
  cbv beta iota.
  revert H2. unfold bind, lift_result.
  destruct (_token o1) as [[tok3|e] oe]; [|discriminate].
  destruct (liftW (get_device_names _ tok3) oe) as [[names|e] og];
    [|discriminate].
  destruct (names_getitem names (current_device user)) as [n|e];
    [|discriminate].
  intros H2. injection H2 as -> ->.
  destruct (decide (current_side user = Left)) as [E|E]; [congruence|].
  cbn. split; reflexivity.
Qed.

Example initialize_8slp_account_on_right :
  (initialize Slp8 (sample_obj "u1" "right" 3600)).1
    = Raise (AttributeError "right")
  /\ side_state (world (initialize Slp8 (sample_obj "u1" "right" 3600)).2)
       Right = None.
Proof. split; vm_compute; reflexivity. Qed.

(** C2 (as the code has it). When [initialize] has obtained the two
    snapshots and the bed name, and the user snapshot reports side Left
    or Right, then in the [eightslp] copy, and in the [8slp] copy when the
    reported side is Left, it returns with one state bound to Left and
    one to Right, two different objects; the state of the reported side
    carries the account id, the state of the opposite side carries
    [guest-{device_id}-{opposite side}], the side written as the value of
    the enumeration member ([left], [right]). The two owners differ
    provided the account id is not itself that guest id. *)
Theorem C2_initialize_binds_both_sides v o user device name :
  (fetch_user_device v o).1 = Ok (user, device) ->
  (fetch_bed_name user (fetch_user_device v o).2).1 = Ok name ->
  current_side user = Left \/ current_side user = Right ->
  v = Eightslp \/ current_side user = Left ->
  exists o' bl br,
    initialize v o = (Ok tt, o')
    /\ side_state (world o') Left = Some bl
    /\ side_state (world o') Right = Some br
    /\ Client_sides (world o') !! Left <> Client_sides (world o') !! Right
    /\ _side bl = Left /\ _side br = Right
    /\ (forall b, side_state (world o') (current_side user) = Some b ->
          _user_id b = _account_user_id (self o))
    /\ (forall b,
          side_state (world o') (opposite (current_side user)) = Some b ->
          _user_id b =
          Some (guest_id (current_device user) (opposite (current_side user))))
    /\ (_account_user_id (self o) <>
          Some (guest_id (current_device user) (opposite (current_side user)))
        -> _user_id bl <> _user_id br).
Proof.
  intros H1 H2 Hs Hv.
  pose proof (fetch_user_device_keeps v o) as (Ka & _).
  destruct (fetch_user_device v o) as [r1 o1] eqn:E1. cbn [fst snd] in H1, H2, Ka.
  subst r1.
  pose proof (fetch_bed_name_keeps user o1) as (Kb & _).
  destruct (fetch_bed_name user o1) as [r2 o2] eqn:E2. cbn [fst snd] in H2, Kb.
  subst r2.
  rewrite (initialize_run v o user device o1 name o2 E1 E2 Hv).
  rewrite Kb, Ka.
  set (acct := _account_user_id (self o)).
  destruct (bound_world_sides (world o2) (left_state acct user device)
              (right_state acct user device)) as (SL & SR & BL & BR).
  eexists. exists (left_state acct user device), (right_state acct user device).
  split; [reflexivity|]. cbn [world].
  split; [exact BL|]. split; [exact BR|].
  split; [rewrite SL, SR; intros H; injection H; lia|].
  split; [reflexivity|]. split; [reflexivity|].
  assert (UL : current_side user = Left ->
               _user_id (left_state acct user device) = acct /\
               _user_id (right_state acct user device)
               = Some (guest_id (current_device user) Right)).
  { intros E. unfold left_state, right_state. cbn. rewrite E. cbn. split; reflexivity. }
  assert (UR : current_side user = Right ->
               _user_id (right_state acct user device) = acct /\
               _user_id (left_state acct user device)
               = Some (guest_id (current_device user) Left)).
  { intros E. unfold left_state, right_state. cbn. rewrite E. cbn. split; reflexivity. }
  destruct Hs as [Hs|Hs].
  - destruct (UL Hs) as (U1 & U2). rewrite Hs. cbn [opposite].
    rewrite BL, BR, U1, U2. repeat split.
    + intros b [= <-]. exact U1.
    + intros b [= <-]. exact U2.
    + intros Hne. exact Hne.
  - destruct (UR Hs) as (U1 & U2). rewrite Hs. cbn [opposite].
    rewrite BL, BR, U1, U2. repeat split.
    + intros b [= <-]. exact U1.
    + intros b [= <-]. exact U2.
    + intros Hne Heq. apply Hne. symmetry. exact Heq.
Qed.

Lemma C2_witness :
  exists o' bl br,
    initialize Eightslp (sample_obj "u1" "left" 3600) = (Ok tt, o')
    /\ side_state (world o') Left = Some bl
    /\ side_state (world o') Right = Some br
    /\ _user_id bl <> _user_id br.
Proof.
  destruct (C2_initialize_binds_both_sides Eightslp
              (sample_obj "u1" "left" 3600)
              (mkGetUserResponse (JList [JStr "D"]) "D" Left)
              (mkGetDeviceResponse On (JInt 3) (JInt 4) (JInt 0)
                 Off (JInt (-2)) (JInt 4) (JInt 7))
              (JStr "Pod"))
    as (o' & bl & br & Hi & HL & HR & _ & _ & _ & _ & _ & Hd).
  - vm_compute. reflexivity.
  - vm_compute. reflexivity.
  - left. reflexivity.
  - left. reflexivity.
  - exists o', bl, br. repeat split; try assumption.
    apply Hd. cbn. discriminate.
Defined.

(** C2, as stated, fails: for an account whose id is the guest id of the
    opposite side, both sides carry the same owner. *)
Lemma C2_counterexample_account_id_equals_guest_id :
  (initialize Eightslp (sample_obj "guest-D-right" "left" 3600)).1 = Ok tt
  /\ _user_id <$>
       side_state
         (world (initialize Eightslp (sample_obj "guest-D-right" "left" 3600)).2)
         Left = Some (Some "guest-D-right")
  /\ _user_id <$>
       side_state
         (world (initialize Eightslp (sample_obj "guest-D-right" "left" 3600)).2)
         Right = Some (Some "guest-D-right").
Proof. repeat split; vm_compute; reflexivity. Qed.

(** ** Refreshing the side states *)

Lemma sides_setattr_run side f w l b :
  Client_sides w !! side = Some l ->
  heap w !! l = Some b ->
  sides_setattr side f w =
  (Ok tt, with_heap (<[l := f b]> (heap w)) (next_loc w) w).
Proof.
  intros Hl Hb. unfold sides_setattr, bind, sides_getitem, deref, store.
  rewrite Hl, Hb. reflexivity.
Qed.

Lemma liftW_sides_setattr side f o l b :
  Client_sides (world o) !! side = Some l ->
  heap (world o) !! l = Some b ->
  liftW (sides_setattr side f) o =
  (Ok tt,
   mkObj (self o)
     (with_heap (<[l := f b]> (heap (world o))) (next_loc (world o))
        (world o))).
Proof.
  intros Hl Hb. unfold liftW.
  rewrite (sides_setattr_run side f (world o) l b Hl Hb). reflexivity.
Qed.

(** The six assignments of [refresh_state], on two different objects. *)
Lemma refresh_state_run v o user device o1 lL lR bL bR :
  fetch_user_device v o = (Ok (user, device), o1) ->
  Client_sides (world o1) !! Left = Some lL ->
  Client_sides (world o1) !! Right = Some lR ->
  lL <> lR ->
  heap (world o1) !! lL = Some bL ->
  heap (world o1) !! lR = Some bR ->
  refresh_state v o =
  (Ok tt,
   mkObj (self o1)
     (with_heap
        (<[lL := refreshed_left device bL]>
           (<[lR := refreshed_right device bR]> (heap (world o1))))
        (next_loc (world o1)) (world o1))).
Proof.
  intros H1 HL HR Hne HbL HbR.
  unfold refresh_state, fetch_user_device in *.
  rewrite bind_account in H1. rewrite bind_account. cbv beta in *.
  revert H1. unfold bind.
  destruct (_token o) as [[tok|e] oa]; [|discriminate].
  destruct (liftW (get_user _ tok) oa) as [[u|e] ob]; [|discriminate].
  destruct (_token ob) as [[tok2|e] oc]; [|discriminate].
  destruct (liftW (get_device v _ tok2) oc) as [[d|e] od]; [|discriminate].
  cbn [ret]. intros H1. injection H1 as -> -> ->.
  erewrite liftW_sides_setattr; [|exact HR|exact HbR].
  erewrite liftW_sides_setattr;
    [|exact HR|cbn; apply lookup_insert_eq].
  erewrite liftW_sides_setattr;
    [|exact HR|cbn; apply lookup_insert_eq].
  erewrite liftW_sides_setattr;
    [|exact HL|cbn; rewrite !lookup_insert_ne by congruence; exact HbL].
  erewrite liftW_sides_setattr;
    [|exact HL|cbn; apply lookup_insert_eq].
  erewrite liftW_sides_setattr;
    [|exact HL|cbn; apply lookup_insert_eq].
  cbn. unfold with_heap. cbn.
  rewrite !insert_insert_eq. reflexivity.
Qed.

(** After [initialize] the two entries exist and are two objects. *)
Lemma initialize_establishes w bl br :
  exists lL lR,
    Client_sides (bound_world w bl br) !! Left = Some lL
    /\ Client_sides (bound_world w bl br) !! Right = Some lR
    /\ lL <> lR
    /\ heap (bound_world w bl br) !! lL = Some bl
    /\ heap (bound_world w bl br) !! lR = Some br.
Proof.
  destruct (bound_world_sides w bl br) as (SL & SR & BL & BR).
  exists (next_loc w), (S (next_loc w)).
  unfold side_state in BL, BR. rewrite SL in BL. rewrite SR in BR.
  repeat split; try assumption. lia.
Qed.

(** What [refresh_state] leaves behind. *)
Lemma refresh_state_post v o user device lL lR bL bR :
  (fetch_user_device v o).1 = Ok (user, device) ->
  Client_sides (world o) !! Left = Some lL ->
  Client_sides (world o) !! Right = Some lR ->
  lL <> lR ->
  heap (world o) !! lL = Some bL ->
  heap (world o) !! lR = Some bR ->
  (refresh_state v o).1 = Ok tt
  /\ Client_sides (world (refresh_state v o).2) = Client_sides (world o)
  /\ heap (world (refresh_state v o).2) !! lL =
     Some {| _side := _side bL; status := left_status device;
             temperature := left_current device; _user_id := _user_id bL;
             target := left_target device |}
  /\ heap (world (refresh_state v o).2) !! lR =
     Some {| _side := _side bR; status := right_status device;
             temperature := right_current device; _user_id := _user_id bR;
             target := right_target device |}
  /\ (forall l, l <> lL -> l <> lR ->
        heap (world (refresh_state v o).2) !! l = heap (world o) !! l).
Proof.
  intros H1 HL HR Hne HbL HbR.
  pose proof (fetch_user_device_keeps v o) as (_ & Kh & _ & Ks).
  destruct (fetch_user_device v o) as [r1 o1] eqn:E1. cbn [fst snd] in H1, Kh, Ks.
  subst r1.
  rewrite <- Ks in HL, HR. rewrite <- Kh in HbL, HbR.
  rewrite (refresh_state_run v o user device o1 lL lR bL bR
             E1 HL HR Hne HbL HbR).
  cbn. rewrite Ks, Kh. repeat split.
  - apply lookup_insert_eq.
  - rewrite lookup_insert_ne by congruence. apply lookup_insert_eq.
  - intros l Hl1 Hl2. rewrite !lookup_insert_ne by congruence. reflexivity.
Qed.

(** C9. A call of [refresh_state] on a side map that holds two objects
    for Left and Right, once it has obtained the device snapshot,
    returns; the side map refers to the same two objects, whose power
    status, current temperature and target temperature are those of the
    snapshot and whose owner and side tag are unchanged; no other object
    is touched. *)
Theorem C9_refresh_state_overwrites_in_place v o user device lL lR bL bR :
  (fetch_user_device v o).1 = Ok (user, device) ->
  Client_sides (world o) !! Left = Some lL ->
  Client_sides (world o) !! Right = Some lR ->
  lL <> lR ->
  heap (world o) !! lL = Some bL ->
  heap (world o) !! lR = Some bR ->
  (refresh_state v o).1 = Ok tt
  /\ Client_sides (world (refresh_state v o).2) = Client_sides (world o)
  /\ heap (world (refresh_state v o).2) !! lL =
     Some {| _side := _side bL; status := left_status device;
             temperature := left_current device; _user_id := _user_id bL;
             target := left_target device |}
  /\ heap (world (refresh_state v o).2) !! lR =
     Some {| _side := _side bR; status := right_status device;
             temperature := right_current device; _user_id := _user_id bR;
             target := right_target device |}
  /\ (forall l, l <> lL -> l <> lR ->
        heap (world (refresh_state v o).2) !! l = heap (world o) !! l).
Proof. apply refresh_state_post. Qed.

Lemma C9_witness :
  let o := (initialize Eightslp (sample_obj "u1" "left" 3600)).2 in
  (refresh_state Eightslp o).1 = Ok tt
  /\ _user_id <$> heap (world (refresh_state Eightslp o).2) !! 0
     = Some (Some "u1")
  /\ _user_id <$> heap (world (refresh_state Eightslp o).2) !! 1
     = Some (Some "guest-D-right").
Proof.
  intros o.
  destruct (C9_refresh_state_overwrites_in_place Eightslp o
              (mkGetUserResponse (JList [JStr "D"]) "D" Left)
              (mkGetDeviceResponse On (JInt 3) (JInt 4) (JInt 0)
                 Off (JInt (-2)) (JInt 4) (JInt 7))
              0 1
              (BedStatus_new Left On (JInt 4) (Some "u1") (JInt 3))
              (BedStatus_new Right Off (JInt 4) (Some "guest-D-right")
                 (JInt (-2))))
    as (Hr & _ & HL & HR & _).
  - vm_compute. reflexivity.
  - vm_compute. reflexivity.
  - vm_compute. reflexivity.
  - discriminate.
  - vm_compute. reflexivity.
  - vm_compute. reflexivity.
  - split; [exact Hr|]. rewrite HL, HR. split; reflexivity.
Defined.

(** ** The shared side map *)

Lemma Client_new_own_sides v rt uid w i w' :
  Client_new v rt uid w = (Ok i, w') -> own_sides i = None.
Proof.
  unfold Client_new, bind.
  destruct (Client__init__ v rt uid w) as [[c|e] w1]; [|discriminate].
  unfold ret. intros [= <- _]. reflexivity.
Qed.

Lemma call_own_sides {A} (m : M Obj A) i w :
  own_sides (call m (i, w)).2.1 = None <-> own_sides i = None.
Proof.
  unfold call. cbn [fst snd].
  destruct (own_sides i) as [d|].
  - destruct (m _) as [r o]. cbn. split; discriminate.
  - destruct (m _) as [r o]. cbn. split; reflexivity.
Qed.

(** No instance that comes from the class has an entry of its own. *)
Lemma constructed_own_sides i : constructed i -> own_sides i = None.
Proof.
  induction 1 as [v rt uid w i w' H|op i w _ IH].
  - exact (Client_new_own_sides _ _ _ _ _ _ H).
  - apply call_own_sides. exact IH.
Qed.

(** A call on an instance without an entry of its own is the method run
    on the class attribute. *)
Lemma call_on_class_attribute {A} (m : M Obj A) i w :
  own_sides i = None ->
  call m (i, w) =
  ((m (mkObj (attrs i) w)).1,
   (mkInstance (self (m (mkObj (attrs i) w)).2) None,
    world (m (mkObj (attrs i) w)).2)).
Proof.
  intros H. unfold call. cbn [fst snd]. rewrite H.
  destruct (m _) as [r o]. reflexivity.
Qed.

(** An instance with an entry of its own would not share: a call on it
    leaves the class attribute alone, and what the call binds is seen
    through that instance only. *)
Lemma call_on_own_entry {A} (m : M Obj A) c d w :
  Client_sides (call m (mkInstance c (Some d), w)).2.2 = Client_sides w
  /\ own_sides (call m (mkInstance c (Some d), w)).2.1
     = Some (Client_sides (m (mkObj c (with_sides d w))).2.(world)).
Proof.
  unfold call. cbn [fst snd own_sides attrs].
  destruct (m _) as [r o]. split; reflexivity.
Qed.

Example own_entry_is_not_shared :
  let j := mkInstance (sample_client (Some "u1")) (Some ∅) in
  let after := (call (initialize Eightslp)
                  (j, sample_world "u1" "left" 3600)).2 in
  _user_id <$> read_side after.1 after.2 Left = Some (Some "u1")
  /\ read_side (sample_instance (Some "other")) after.2 Left = None.
Proof. split; vm_compute; reflexivity. Qed.

(** C5. [sides] is one dictionary for all instances: for any two
    instances [i1] and [i2] that come from the class (built by the
    constructor, with any operations called on them since), [i1.sides]
    and [i2.sides] are the class attribute, and remain so after any
    operation on [i2], so that what is read through [i1] after an
    operation on [i2] is what that operation left behind; after
    [initialize] on [i2] the states read through [i1] are those built
    for the account of [i2], and after [refresh_state] on [i2] the
    states read through [i1] carry the snapshot obtained by [i2]. *)
Theorem C5_sides_shared_by_all_instances i1 i2 :
  constructed i1 -> constructed i2 ->
  (forall w, sides_of i1 w = Client_sides w /\ sides_of i2 w = Client_sides w)
  /\ (forall op w side,
        sides_of i1 (call (run_op op) (i2, w)).2.2
        = sides_of (call (run_op op) (i2, w)).2.1
            (call (run_op op) (i2, w)).2.2
        /\ read_side i1 (call (run_op op) (i2, w)).2.2 side
           = side_state (world (run_op op (mkObj (attrs i2) w)).2) side)
  /\ (forall v w user device name,
        (fetch_user_device v (mkObj (attrs i2) w)).1 = Ok (user, device) ->
        (fetch_bed_name user (fetch_user_device v (mkObj (attrs i2) w)).2).1
          = Ok name ->
        v = Eightslp \/ current_side user = Left ->
        read_side i1 (call (initialize v) (i2, w)).2.2 Left
          = Some (left_state (_account_user_id (attrs i2)) user device)
        /\ read_side i1 (call (initialize v) (i2, w)).2.2 Right
          = Some (right_state (_account_user_id (attrs i2)) user device))
  /\ (forall v w user device bL bR,
        (fetch_user_device v (mkObj (attrs i2) w)).1 = Ok (user, device) ->
        read_side i1 w Left = Some bL ->
        read_side i1 w Right = Some bR ->
        sides_of i1 w !! Left <> sides_of i1 w !! Right ->
        read_side i1 (call (refresh_state v) (i2, w)).2.2 Left
          = Some (refreshed_left device bL)
        /\ read_side i1 (call (refresh_state v) (i2, w)).2.2 Right
          = Some (refreshed_right device bR)).
Proof.
  intros C1 C2.
  pose proof (constructed_own_sides i1 C1) as N1.
  pose proof (constructed_own_sides i2 C2) as N2.
  assert (S1 : forall w, sides_of i1 w = Client_sides w)
    by (intros w; unfold sides_of; rewrite N1; reflexivity).
  assert (R1 : forall w s, read_side i1 w s = side_state w s)
    by (intros w s; unfold read_side, side_state; rewrite S1; reflexivity).
  split; [|split; [|split]].
  - intros w. split; [apply S1|]. unfold sides_of. rewrite N2. reflexivity.
  - intros op w side. rewrite (call_on_class_attribute _ i2 w N2).
    cbn [fst snd]. split; [|apply R1].
    rewrite S1. reflexivity.
  - intros v w user device name H1 H2 Hv.
    rewrite (call_on_class_attribute _ i2 w N2). cbn [fst snd].
    rewrite !R1.
    pose proof (fetch_user_device_keeps v (mkObj (attrs i2) w)) as (Ka & _).
    destruct (fetch_user_device v (mkObj (attrs i2) w)) as [r1 o1] eqn:E1.
    cbn [fst snd] in H1, H2, Ka. subst r1.
    pose proof (fetch_bed_name_keeps user o1) as (Kb & _).
    destruct (fetch_bed_name user o1) as [r2 o2] eqn:E2. cbn [fst snd] in H2, Kb.
    subst r2.
    rewrite (initialize_run v _ user device o1 name o2 E1 E2 Hv).
    rewrite Kb, Ka. cbn [snd world self].
    destruct (bound_world_sides (world o2)
                (left_state (_account_user_id (attrs i2)) user device)
                (right_state (_account_user_id (attrs i2)) user device))
      as (_ & _ & BL & BR).
    split; [exact BL|exact BR].
  - intros v w user device bL bR H1 HL HR Hne.
    rewrite (call_on_class_attribute _ i2 w N2). cbn [fst snd].
    rewrite !R1. rewrite R1 in HL, HR. rewrite S1 in Hne.
    apply side_state_inv in HL as (lL & HL & HbL).
    apply side_state_inv in HR as (lR & HR & HbR).
    rewrite HL, HR in Hne.
    assert (Hd : lL <> lR) by congruence.
    destruct (refresh_state_post v (mkObj (attrs i2) w) user device lL lR bL bR
                H1 HL HR Hd HbL HbR) as (_ & Ks & RL & RR & _).
    unfold side_state. cbn [world] in Ks. rewrite Ks, HL, HR.
    split; [exact RL|exact RR].
Qed.

Lemma C5_witness :
  read_side (sample_instance (Some "other")) (sample_world "u1" "left" 3600)
    Left = None
  /\ _user_id <$>
       read_side (sample_instance (Some "other"))
         (call (initialize Eightslp)
            (sample_instance (Some "u1"),
             sample_world "u1" "left" 3600)).2.2 Left
     = Some (Some "u1").
Proof.
  split; [reflexivity|].
  assert (C : forall acct, constructed (sample_instance acct)).
  { intros acct.
    apply (constructed_new Eightslp (Some "rt") acct rejecting_world
             (sample_instance acct) (tick rejecting_world)).
    reflexivity. }
  destruct (C5_sides_shared_by_all_instances
              (sample_instance (Some "other")) (sample_instance (Some "u1"))
              (C (Some "other")) (C (Some "u1"))) as (_ & _ & Hi & _).
  destruct (Hi Eightslp (sample_world "u1" "left" 3600)
              (mkGetUserResponse (JList [JStr "D"]) "D" Left)
              (mkGetDeviceResponse On (JInt 3) (JInt 4) (JInt 0)
                 Off (JInt (-2)) (JInt 4) (JInt 7))
              (JStr "Pod")) as (HL & _).
  - vm_compute. reflexivity.
  - vm_compute. reflexivity.
  - left. reflexivity.
  - rewrite HL. reflexivity.
Defined.

(** * Further properties *)

(** ** Levels *)

(** X1. A device-reported integer level [v] of magnitude up to
    [10 * 2^53] is published as the integer [q] with [10 q] a multiple of
    ten nearest to [v]; when [v] lies half way between two multiples of
    ten, [q] is even. *)
Theorem level_is_nearest_ten_ties_to_even v :
  (Z.abs v <= 10 * 2 ^ 53)%Z ->
  exists q : Z,
    level (JInt v) = Ok (JInt q)
    /\ (Z.abs (v - 10 * q) <= 5)%Z
    /\ (Z.abs (v - 10 * q) = 5 -> Z.even q = true)%Z.
Proof.
  intros H. destruct (py_round_tens_spec v) as (q & Hq & Hn & He).
  exists q. split; [|split; assumption].
  rewrite (level_exact v H), (py_round_tens_div _ _ Hq). reflexivity.
Qed.

Lemma level_is_nearest_ten_ties_to_even_witness :
  exists q : Z,
    level (JInt 45) = Ok (JInt q)
    /\ (Z.abs (45 - 10 * q) <= 5)%Z
    /\ (Z.abs (45 - 10 * q) = 5 -> Z.even q = true)%Z.
Proof.
  apply (level_is_nearest_ten_ties_to_even 45). vm_compute. discriminate.
Defined.

(** Above, the level is the nearest [float] and no longer the quotient;
    far above, the division overflows. *)
Example level_above_2_53 :
  level (JInt 12345678901234567890) = Ok (JInt 1234567890123456768).
Proof. vm_compute. reflexivity. Qed.

Example level_overflow :
  level (JInt (10 * 2 ^ 1024)) = Raise OverflowError.
Proof. vm_compute. reflexivity. Qed.

(** X2. The scaling of [get_device] undoes the scaling of
    [set_temperature] for a temperature of magnitude up to [2^53]: a
    level written as [T * 10] is read back as [T]. *)
Theorem level_of_scaled_temperature T :
  (Z.abs T <= 2 ^ 53)%Z -> level (JInt (T * 10)) = Ok (JInt T).
Proof.
  intros H.
  destruct (py_round_tens_spec (T * 10)) as (q & Hq & Hn & _).
  assert (q = T) by lia. subst q.
  rewrite level_exact, (py_round_tens_div _ _ Hq); [reflexivity|].
  change (2 ^ 53)%Z with 9007199254740992%Z in *. lia.
Qed.

Lemma level_of_scaled_temperature_witness :
  level (JInt (7 * 10)) = Ok (JInt 7).
Proof. apply (level_of_scaled_temperature 7). vm_compute. discriminate. Defined.

(** The bound is sharp. *)
Example level_of_scaled_temperature_above_2_53 :
  level (JInt ((2 ^ 53 + 1) * 10)) = Ok (JInt (2 ^ 53)).
Proof. vm_compute. reflexivity. Qed.

(** X3. The published level is monotone in the reported level. *)
Theorem level_monotone v w a b :
  level (JInt v) = Ok (JInt a) ->
  level (JInt w) = Ok (JInt b) ->
  (v <= w)%Z -> (a <= b)%Z.
Proof.
  rewrite !level_int_value, !true_div_10_ok. intros Ha Hb Hvw.
  apply (float_of_int_monotone _ _ _ _ Ha Hb).
  apply py_round_tens_monotone. exact Hvw.
Qed.

Lemma level_monotone_witness : (4 <= 5)%Z.
Proof.
  apply (level_monotone 42 46 4 5); [reflexivity|reflexivity|lia].
Defined.

(** X4. Rounding is symmetric about zero: the level [-v] is published
    as the opposite of what [v] is published as, and the one overflows
    when the other does. *)
Theorem level_opposite v :
  level (JInt (- v)) =
  match level (JInt v) with
  | Ok (JInt a) => Ok (JInt (- a)%Z)
  | r => r
  end.
Proof.
  rewrite !level_int_value. unfold true_div_10.
  rewrite py_round_tens_opp, float_of_int_opp.
  destruct (float_of_int _); reflexivity.
Qed.

(** ** Sides *)

Lemma BedSide_of_value_ok j s :
  BedSide_of_value j = Ok s -> j = JStr (BedSide_value s).
Proof.
  destruct j; cbn; try discriminate.
  destruct (String.eqb_spec s0 "left") as [->|]; [intros [= <-]; reflexivity|].
  destruct (String.eqb_spec s0 "right") as [->|]; [intros [= <-]; reflexivity|].
  destruct (String.eqb_spec s0 "both") as [->|]; [intros [= <-]; reflexivity|].
  discriminate.
Qed.

Lemma BedSide_of_value_other j :
  (forall s, j <> JStr (BedSide_value s)) ->
  BedSide_of_value j = Raise ValueError.
Proof.
  intros Hn. destruct (BedSide_of_value j) as [s|e] eqn:E.
  - exfalso. apply (Hn s). apply BedSide_of_value_ok. exact E.
  - destruct j; cbn in E; try congruence.
    repeat match type of E with
    | context [String.eqb ?a ?b] => destruct (String.eqb a b)
    end; congruence.
Qed.

(** X5. The member lookup [BedSide(x)] inverts [.value]: it returns a
    side exactly for that side's value string, and raises [ValueError]
    for everything else. *)
Theorem BedSide_of_value_inverts_value j :
  (forall s, BedSide_of_value (JStr (BedSide_value s)) = Ok s)
  /\ (forall s, BedSide_of_value j = Ok s -> j = JStr (BedSide_value s))
  /\ ((forall s, j <> JStr (BedSide_value s)) ->
      BedSide_of_value j = Raise ValueError).
Proof.
  split; [intros []; reflexivity|].
  split; [intros s; apply BedSide_of_value_ok|apply BedSide_of_value_other].
Qed.

Lemma BedSide_of_value_inverts_value_witness :
  JStr "right" = JStr (BedSide_value Right)
  /\ BedSide_of_value (JStr "solo") = Raise ValueError.
Proof.
  destruct (BedSide_of_value_inverts_value (JStr "right")) as (_ & H & _).
  destruct (BedSide_of_value_inverts_value (JStr "solo")) as (_ & _ & H').
  split.
  - apply H. reflexivity.
  - apply H'. intros []; discriminate.
Defined.

(** ** The request log *)

Lemma prefix_append a b : String.prefix a (a +:+ b) = true.
Proof.
  induction a as [|c a IH].
  - destruct b; reflexivity.
  - change (String c a +:+ b) with (String c (a +:+ b)).
    change (String.prefix (String c a) (String c (a +:+ b)))
      with (if Ascii.ascii_dec c c then String.prefix a (a +:+ b) else false).
    destruct (Ascii.ascii_dec c c) as [_|H]; [exact IH|congruence].
Qed.

Lemma issues_ret {A} P (a : A) : issues P (ret a).
Proof. intros w. exists []. split; [symmetry; apply app_nil_r|constructor]. Qed.

Lemma issues_raise {A} P e : issues P (@raise World A e).
Proof. intros w. exists []. split; [symmetry; apply app_nil_r|constructor]. Qed.

Lemma issues_lift_result {A} P (r : Result A) : issues P (lift_result r).
Proof. intros w. exists []. split; [symmetry; apply app_nil_r|constructor]. Qed.

Lemma issues_bind {A B} P (m : M World A) (k : A -> M World B) :
  issues P m -> (forall a, issues P (k a)) -> issues P (bind m k).
Proof.
  intros Hm Hk w. unfold bind.
  destruct (Hm w) as (rs & Hl & HP).
  destruct (m w) as [[a|e] w1]; cbn in *.
  - destruct (Hk a w1) as (rs' & Hl' & HP').
    exists (rs ++ rs'). split.
    + rewrite Hl', Hl. symmetry. apply app_assoc.
    + apply Forall_app. split; assumption.
  - exists rs. split; assumption.
Qed.

Lemma issues_send_request (P : Request -> Prop) url m p auth :
  (forall hs, P (mkRequest m url hs p 60)) ->
  issues P (send_request url m p auth).
Proof.
  intros HP w.
  destruct auth;
    try (exists []; split; [symmetry; apply app_nil_r|constructor]; fail).
  - rewrite send_request_anonymous. eexists. split; [reflexivity|].
    constructor; [apply HP|constructor].
  - rewrite send_request_bearer. eexists. split; [reflexivity|].
    constructor; [apply HP|constructor].
Qed.

Lemma issues_quiet_world {A} P (m : M World A) :
  (forall w, log (m w).2 = log w) -> issues P m.
Proof.
  intros H w. exists []. split; [rewrite H; symmetry; apply app_nil_r|constructor].
Qed.

Ltac issues_tac :=
  repeat first
    [ apply issues_ret | apply issues_raise | apply issues_lift_result
    | apply issues_bind; [|intros ?]
    | match goal with
      | |- issues _ (match ?x with _ => _ end) => destruct x
      | |- issues _ (if ?x then _ else _) => destruct x
      end ].

Lemma issues_obj_ret {A} P (a : A) : issues_obj P (ret a).
Proof. intros o. exists []. split; [symmetry; apply app_nil_r|constructor]. Qed.

Lemma issues_obj_raise {A} P e : issues_obj P (@raise Obj A e).
Proof. intros o. exists []. split; [symmetry; apply app_nil_r|constructor]. Qed.

Lemma issues_obj_lift_result {A} P (r : Result A) :
  issues_obj P (lift_result r).
Proof. intros o. exists []. split; [symmetry; apply app_nil_r|constructor]. Qed.

Lemma issues_obj_account P : issues_obj P account_user_id.
Proof. intros o. exists []. split; [symmetry; apply app_nil_r|constructor]. Qed.

Lemma issues_obj_set_bed_name P n : issues_obj P (set_bed_name n).
Proof. intros o. exists []. split; [symmetry; apply app_nil_r|constructor]. Qed.

Lemma issues_obj_liftW {A} P (g : M World A) :
  issues P g -> issues_obj P (liftW g).
Proof.
  intros Hg o. unfold liftW. destruct (Hg (world o)) as (rs & Hl & HP).
  destruct (g (world o)) as [r w1]. cbn in *. exists rs. split; assumption.
Qed.

Lemma issues_obj_bind {A B} P (m : M Obj A) (k : A -> M Obj B) :
  issues_obj P m -> (forall a, issues_obj P (k a)) -> issues_obj P (bind m k).
Proof.
  intros Hm Hk o. unfold bind.
  destruct (Hm o) as (rs & Hl & HP).
  destruct (m o) as [[a|e] o1]; cbn in *.
  - destruct (Hk a o1) as (rs' & Hl' & HP').
    exists (rs ++ rs'). split.
    + rewrite Hl', Hl. symmetry. apply app_assoc.
    + apply Forall_app. split; assumption.
  - exists rs. split; assumption.
Qed.

Lemma issues_obj_token (P : Request -> Prop) :
  (forall rt, P (refresh_request rt)) -> issues_obj P _token.
Proof.
  intros HP o. destruct (token_log o) as [H|H].
  - exists []. split; [rewrite H; symmetry; apply app_nil_r|constructor].
  - eexists. split; [exact H|]. repeat constructor. apply HP.
Qed.

Lemma issues_alloc P b : issues P (alloc b).
Proof. apply issues_quiet_world. reflexivity. Qed.

Lemma issues_store P l b : issues P (store l b).
Proof. apply issues_quiet_world. reflexivity. Qed.

Lemma issues_deref P l : issues P (deref l).
Proof.
  apply issues_quiet_world. intros w. unfold deref.
  destruct (heap w !! l); reflexivity.
Qed.

Lemma issues_sides_getitem P s : issues P (sides_getitem s).
Proof.
  apply issues_quiet_world. intros w. unfold sides_getitem.
  destruct (Client_sides w !! s); reflexivity.
Qed.

Lemma issues_sides_setitem P s l : issues P (sides_setitem s l).
Proof. apply issues_quiet_world. reflexivity. Qed.

Lemma issues_sides_setattr P s f : issues P (sides_setattr s f).
Proof.
  unfold sides_setattr.
  apply issues_bind; [apply issues_sides_getitem|intros l].
  apply issues_bind; [apply issues_deref|intros b]. apply issues_store.
Qed.

Lemma well_formed_refresh_request rt : well_formed_request (refresh_request rt).
Proof.
  repeat split; cbn; auto.
Qed.

Lemma well_formed_headers url m p auth :
  (m = "GET" \/ m = "PUT" \/ m = "POST") ->
  (String.prefix AUTH_URI url = true
   \/ String.prefix API_BASE_URI url = true
   \/ String.prefix APP_BASE_URI url = true) ->
  issues well_formed_request (send_request url m p auth).
Proof.
  intros Hm Hu w.
  destruct auth;
    try (exists []; split; [symmetry; apply app_nil_r|constructor]; fail).
  - rewrite send_request_anonymous. eexists. split; [reflexivity|].
    constructor; [|constructor].
    unfold well_formed_request. cbn. repeat split; assumption.
  - rewrite send_request_bearer. eexists. split; [reflexivity|].
    constructor; [|constructor].
    unfold well_formed_request. cbn. repeat split; assumption.
Qed.

Ltac wf_send :=
  apply well_formed_headers;
  [ auto
  | first [ left; apply prefix_append
          | right; left; apply prefix_append
          | right; right; apply prefix_append
          | left; reflexivity ] ].

Ltac wf_gateway :=
  repeat first
    [ wf_send
    | apply issues_ret | apply issues_raise | apply issues_lift_result
    | apply issues_bind; [|intros ?]
    | match goal with
      | |- issues _ (match ?x with _ => _ end) => destruct x
      | |- issues _ (if ?x then _ else _) => destruct x
      end ].

Lemma wf_get_user uid t : issues well_formed_request (get_user uid t).
Proof. unfold get_user. wf_gateway. Qed.

Lemma wf_get_device v dev t : issues well_formed_request (get_device v dev t).
Proof. unfold get_device. wf_gateway. Qed.

Lemma wf_get_device_names uid t :
  issues well_formed_request (get_device_names uid t).
Proof. unfold get_device_names. wf_gateway. Qed.

Lemma wf_set_temperature v uid T t p :
  issues well_formed_request (set_temperature v uid T t p).
Proof. unfold set_temperature. wf_gateway. Qed.

Lemma wf_turn_on uid t : issues well_formed_request (turn_on uid t).
Proof. unfold turn_on. wf_gateway. Qed.

Lemma wf_turn_off uid t : issues well_formed_request (turn_off uid t).
Proof. unfold turn_off. wf_gateway. Qed.

Ltac wf_obj :=
  repeat first
    [ apply issues_obj_token; apply well_formed_refresh_request
    | apply issues_obj_account | apply issues_obj_set_bed_name
    | apply issues_obj_ret | apply issues_obj_raise
    | apply issues_obj_lift_result
    | apply issues_obj_liftW;
      first [ apply wf_get_user | apply wf_get_device
            | apply wf_get_device_names | apply wf_set_temperature
            | apply wf_turn_on | apply wf_turn_off
            | apply issues_alloc | apply issues_store | apply issues_deref
            | apply issues_sides_getitem | apply issues_sides_setitem
            | apply issues_sides_setattr ]
    | apply issues_obj_bind; [|intros ?]
    | match goal with
      | |- issues_obj _ (match ?x with _ => _ end) => destruct x
      | |- issues_obj _ (if ?x then _ else _) => destruct x
      end ].

(** X6. Whatever a session operation does, the request log only grows,
    and every request it adds carries the JSON content type and the
    60-second timeout, uses GET, PUT or POST, and is addressed under one
    of the three fixed base URLs. *)
Theorem operations_issue_well_formed_requests op o :
  exists rs,
    log (world (run_op op o).2) = log (world o) ++ rs
    /\ Forall well_formed_request rs.
Proof.
  revert o. change (issues_obj well_formed_request (run_op op)).
  destruct op as [v|v|v side T|side st]; cbn [run_op].
  - unfold initialize. wf_obj.
  - unfold refresh_state. wf_obj.
  - unfold set_temp. wf_obj.
  - unfold set_power. wf_obj.
Qed.

(** ** Phases of [initialize] and [refresh_state] *)

Lemma initialize_phases v o :
  initialize v o =
  bind (initialize_fetch v) (fun ud => initialize_bind v ud.1 ud.2) o.
Proof.
  unfold initialize, initialize_fetch, fetch_user_device, fetch_bed_name,
    initialize_bind, guest_id, account_user_id, get_self, bind, ret,
    lift_result.
  cbv beta iota.
  destruct (_token o) as [[tok|e] oa]; [|reflexivity].
  destruct (liftW (get_user _ tok) oa) as [[u|e] ob]; [|reflexivity].
  destruct (_token ob) as [[tok2|e] oc]; [|reflexivity].
  destruct (liftW (get_device v _ tok2) oc) as [[d|e] od]; [|reflexivity].
  cbn [fst snd].
  destruct (_token od) as [[tok3|e] oe]; [|reflexivity].
  destruct (liftW (get_device_names _ tok3) oe) as [[names|e] og];
    [|reflexivity].
  destruct (names_getitem names (current_device u)) as [n|e]; [|reflexivity].
  reflexivity.
Qed.

Lemma refresh_state_phases v o :
  refresh_state v o =
  bind (fetch_user_device v) (fun ud => refresh_state_assign ud.2) o.
Proof.
  unfold refresh_state, fetch_user_device.
  unfold account_user_id, get_self, bind at 1 2 3 4 5 6, ret.
  unfold bind at 6 7 8 9 10 11 12. cbv beta iota.
  destruct (_token o) as [[tok|e] oa]; [|reflexivity].
  destruct (liftW (get_user _ tok) oa) as [[u|e] ob]; [|reflexivity].
  destruct (_token ob) as [[tok2|e] oc]; [|reflexivity].
  destruct (liftW (get_device v _ tok2) oc) as [[d|e] od]; reflexivity.
Qed.

(** ** Reads and writes *)

Lemma writes_of_reads l rs :
  Forall (fun r => is_write r = false) rs -> writes (l ++ rs) = writes l.
Proof.
  intros H. unfold writes. rewrite filter_app.
  replace (filter (fun r => is_write r = true) rs) with (@nil Request).
  - apply app_nil_r.
  - induction H as [|r rs Hr _ IH]; [reflexivity|].
    rewrite filter_cons. case_decide; [congruence|exact IH].
Qed.

Ltac reads_gateway :=
  repeat first
    [ apply issues_send_request; intros; reflexivity
    | apply issues_ret | apply issues_raise | apply issues_lift_result
    | apply issues_bind; [|intros ?]
    | match goal with
      | |- issues _ (match ?x with _ => _ end) => destruct x
      | |- issues _ (if ?x then _ else _) => destruct x
      end ].

Lemma reads_get_user uid t :
  issues (fun r => is_write r = false) (get_user uid t).
Proof. unfold get_user. reads_gateway. Qed.

Lemma reads_get_device v dev t :
  issues (fun r => is_write r = false) (get_device v dev t).
Proof. unfold get_device. reads_gateway. Qed.

Lemma reads_get_device_names uid t :
  issues (fun r => is_write r = false) (get_device_names uid t).
Proof. unfold get_device_names. reads_gateway. Qed.

Ltac reads_obj :=
  repeat first
    [ apply issues_obj_token; intros; reflexivity
    | apply issues_obj_account | apply issues_obj_set_bed_name
    | apply issues_obj_ret | apply issues_obj_raise
    | apply issues_obj_lift_result
    | apply issues_obj_liftW;
      first [ apply reads_get_user | apply reads_get_device
            | apply reads_get_device_names
            | apply issues_alloc | apply issues_store | apply issues_deref
            | apply issues_sides_getitem | apply issues_sides_setitem
            | apply issues_sides_setattr ]
    | apply issues_obj_bind; [|intros ?]
    | match goal with
      | |- issues_obj _ (match ?x with _ => _ end) => destruct x
      | |- issues_obj _ (if ?x then _ else _) => destruct x
      end ].

(** X7. [initialize] and [refresh_state] only read from the service:
    whatever the responses, neither issues a PUT. *)
Theorem initialize_and_refresh_state_issue_no_write v o :
  writes (log (world (initialize v o).2)) = writes (log (world o))
  /\ writes (log (world (refresh_state v o).2)) = writes (log (world o)).
Proof.
  split.
  - assert (H : issues_obj (fun r => is_write r = false) (initialize v))
      by (unfold initialize; reads_obj).
    destruct (H o) as (rs & -> & Hrs). apply writes_of_reads. exact Hrs.
  - assert (H : issues_obj (fun r => is_write r = false) (refresh_state v))
      by (unfold refresh_state; reads_obj).
    destruct (H o) as (rs & -> & Hrs). apply writes_of_reads. exact Hrs.
Qed.

Lemma turn_off_request uid t w :
  log (turn_off uid (JStr t) w).2 =
  log w ++ [mkRequest "PUT"
              (API_BASE_URI +:+ "/users/" +:+ fmt uid +:+ "/temperature")
              (bearer t)
              (JDict [("currentState", JDict [("type", JStr "off")])]) 60].
Proof.
  unfold turn_off, bind. rewrite send_request_bearer.
  destruct (reply_json _); reflexivity.
Qed.

(** X8. [set_power] on a side of the side map, once the token
    acquisition has produced a string token, issues exactly one write
    for the side's owner: for [Off] a PUT of [{"currentState": {"type":
    "off"}}] under the client API base, for [On] a PUT of
    [{"currentState": {"type": "smart"}}] under the app API base. *)
Theorem set_power_issues_one_write side st o b t :
  side_state (world o) side = Some b ->
  (_token o).1 = Ok (JStr t) ->
  let req :=
    mkRequest "PUT"
      (match st with Off => API_BASE_URI | On => APP_BASE_URI end
       +:+ "/users/" +:+ fmt (_user_id b) +:+ "/temperature")
      (bearer t)
      (JDict [("currentState",
               JDict [("type",
                       JStr (match st with Off => "off" | On => "smart" end))])])
      60 in
  log (world (set_power side st o).2) = log (world (_token o).2) ++ [req]
  /\ writes (log (world (set_power side st o).2))
     = writes (log (world o)) ++ [req].
Proof.
  intros Hb Ht req.
  assert (Hlog : log (world (set_power side st o).2)
                 = log (world (_token o).2) ++ [req]).
  { rewrite (set_power_unfold _ _ _ _ Hb). unfold bind.
    destruct (_token o) as [[a|e] o1]; cbn [fst snd] in Ht |- *;
      [|discriminate].
    injection Ht as ->. unfold liftW. subst req.
    destruct st.
    - pose proof (turn_on_request (_user_id b) t (world o1)) as Hs.
      destruct (turn_on _ _ _) as [r w']. cbn [fst snd world] in *.
      exact Hs.
    - pose proof (turn_off_request (_user_id b) t (world o1)) as Hs.
      destruct (turn_off _ _ _) as [r w']. cbn [fst snd world] in *.
      exact Hs. }
  split; [exact Hlog|].
  rewrite Hlog, writes_app, token_writes. reflexivity.
Qed.

Lemma set_power_issues_one_write_witness :
  let o := (initialize Eightslp (sample_obj "u1" "left" 3600)).2 in
  writes (log (world (set_power Right Off o).2)) =
  [mkRequest "PUT"
     "https://client-api.8slp.net/v1/users/guest-D-right/temperature"
     (bearer "tok")
     (JDict [("currentState", JDict [("type", JStr "off")])]) 60].
Proof.
  intros o.
  apply (set_power_issues_one_write Right Off o
           (BedStatus_new Right Off (JInt 4) (Some "guest-D-right")
              (JInt (-2))) "tok");
    vm_compute; reflexivity.
Defined.

(** ** What the write operations leave alone *)

Lemma net_only_set_temperature v uid T t p : net_only (set_temperature v uid T t p).
Proof. unfold set_temperature. net_only_tac. Qed.

Lemma net_only_turn_on uid t : net_only (turn_on uid t).
Proof. unfold turn_on. net_only_tac. Qed.

Lemma net_only_turn_off uid t : net_only (turn_off uid t).
Proof. unfold turn_off. net_only_tac. Qed.

Lemma net_only_sides_getitem s : net_only (sides_getitem s).
Proof.
  intros w. unfold sides_getitem. destruct (Client_sides w !! s); repeat split.
Qed.

Lemma net_only_deref l : net_only (deref l).
Proof. intros w. unfold deref. destruct (heap w !! l); repeat split. Qed.

Lemma keeps_raise {A} e : keeps (@raise Obj A e).
Proof. intros o. repeat split. Qed.

Lemma keeps_set_bed_name n : keeps (set_bed_name n).
Proof. intros o. repeat split. Qed.

Ltac keeps_all :=
  repeat first
    [ apply keeps_ret | apply keeps_raise | apply keeps_lift_result
    | apply keeps_account | apply keeps_token | apply keeps_set_bed_name
    | apply keeps_liftW;
      first [ apply net_only_get_user | apply net_only_get_device
            | apply net_only_get_device_names
            | apply net_only_set_temperature | apply net_only_turn_on
            | apply net_only_turn_off | apply net_only_sides_getitem
            | apply net_only_deref ]
    | apply keeps_bind; [|intros ?]
    | match goal with
      | |- keeps (match ?x with _ => _ end) => destruct x
      | |- keeps (if ?x then _ else _) => destruct x
      end ].

Lemma keeps_set_temp v side T : keeps (set_temp v side T).
Proof. unfold set_temp. keeps_all. Qed.

Lemma keeps_set_power side st : keeps (set_power side st).
Proof. unfold set_power. keeps_all. Qed.

(** X9. The write operations do not touch the cached state: after
    [set_temp] or [set_power], successful or not, every side still reads
    exactly as before (power status, current and target temperature,
    owner), until the next [refresh_state]. *)
Theorem writes_leave_cached_state_unchanged v side T st o s :
  side_state (world (set_temp v side T o).2) s = side_state (world o) s
  /\ side_state (world (set_power side st o).2) s = side_state (world o) s.
Proof.
  destruct (keeps_set_temp v side T o) as (_ & H1 & _ & H2).
  destruct (keeps_set_power side st o) as (_ & H3 & _ & H4).
  unfold side_state. rewrite H1, H2, H3, H4. split; reflexivity.
Qed.

(** X10. On a side that is not in the side map (before [initialize],
    or [Both]) [set_temp] and [set_power] raise [KeyError] at once: no
    clock reading, no refresh, no request, nothing changed. *)
Theorem write_to_unbound_side_raises_KeyError v side T st o :
  Client_sides (world o) !! side = None ->
  (set_temp v side T o).1 = Raise (KeyError (BedSide_str side))
  /\ (set_temp v side T o).2 = mkObj (self o) (world o)
  /\ (set_power side st o).1 = Raise (KeyError (BedSide_str side))
  /\ (set_power side st o).2 = mkObj (self o) (world o).
Proof.
  intros H.
  unfold set_temp, set_power, bind, liftW, sides_getitem.
  rewrite H. repeat split.
Qed.

Lemma write_to_unbound_side_raises_KeyError_witness :
  (set_temp Eightslp Left 3 (sample_obj "u1" "left" 3600)).1
  = Raise (KeyError "BedSide.Left").
Proof.
  apply (write_to_unbound_side_raises_KeyError Eightslp Left 3 Off
           (sample_obj "u1" "left" 3600)).
  reflexivity.
Defined.

(** ** Credentials *)

(** X11. A client is built with its token expired: provided the clock
    does not go back by 100 seconds or more between the constructor and
    the first token acquisition, that acquisition issues the refresh
    call for the refresh token given at construction. *)
Theorem first_token_after_construction_refreshes v rt uid w c w' :
  Client__init__ v rt uid w = (Ok c, w') ->
  (clock w (ticks w) - seconds 100 < clock w (S (ticks w)))%Z ->
  expired (mkObj c w')
  /\ log (world (_token (mkObj c w')).2) = log w ++ [refresh_request rt].
Proof.
  intros Hc Hclk.
  assert (Hn : Client__init__ v rt uid w =
               (Ok (new_client v rt uid (clock w (ticks w))), tick w)).
  { destruct v, rt, uid; try reflexivity. cbn in Hc. discriminate. }
  rewrite Hn in Hc. injection Hc as <- <-.
  assert (He : expired (mkObj (new_client v rt uid (clock w (ticks w)))
                          (tick w))).
  { unfold expired. cbn. exact Hclk. }
  split; [exact He|]. rewrite (token_expired_log _ He). reflexivity.
Qed.

Lemma first_token_after_construction_refreshes_witness :
  expired (mkObj (new_client Eightslp (Some "rt") (Some "u1") 0)
             (tick rejecting_world)).
Proof.
  apply (first_token_after_construction_refreshes Eightslp (Some "rt")
           (Some "u1") rejecting_world).
  - reflexivity.
  - cbn. unfold seconds. lia.
Defined.

Lemma keeps_identity_ret {A} (a : A) : keeps_identity (ret a).
Proof. intros o. split; reflexivity. Qed.

Lemma keeps_identity_raise {A} e : keeps_identity (@raise Obj A e).
Proof. intros o. split; reflexivity. Qed.

Lemma keeps_identity_lift_result {A} (r : Result A) :
  keeps_identity (lift_result r).
Proof. intros o. split; reflexivity. Qed.

Lemma keeps_identity_account : keeps_identity account_user_id.
Proof. intros o. split; reflexivity. Qed.

Lemma keeps_identity_set_bed_name n : keeps_identity (set_bed_name n).
Proof. intros o. split; reflexivity. Qed.

Lemma keeps_identity_liftW {A} (g : M World A) : keeps_identity (liftW g).
Proof.
  intros o. unfold liftW. destruct (g (world o)). split; reflexivity.
Qed.

Lemma keeps_identity_token : keeps_identity _token.
Proof.
  intros o. destruct (token_keeps o) as (H1 & H2 & _). split; assumption.
Qed.

Lemma keeps_identity_bind {A B} (m : M Obj A) (k : A -> M Obj B) :
  keeps_identity m -> (forall a, keeps_identity (k a)) ->
  keeps_identity (bind m k).
Proof.
  intros Hm Hk o. unfold bind.
  destruct (Hm o) as (H1 & H2).
  destruct (m o) as [[a|e] o1]; cbn in *.
  - destruct (Hk a o1) as (K1 & K2). split; congruence.
  - split; assumption.
Qed.

Ltac keeps_identity_tac :=
  repeat first
    [ apply keeps_identity_ret | apply keeps_identity_raise
    | apply keeps_identity_lift_result | apply keeps_identity_account
    | apply keeps_identity_set_bed_name | apply keeps_identity_liftW
    | apply keeps_identity_token
    | apply keeps_identity_bind; [|intros ?]
    | match goal with
      | |- keeps_identity (match ?x with _ => _ end) => destruct x
      | |- keeps_identity (if ?x then _ else _) => destruct x
      end ].

(** X12. No operation ever replaces the refresh token or the account
    id: the [refresh_token] that a refresh response carries is dropped,
    and every later refresh sends the token given at construction. *)
Theorem operations_never_rotate_refresh_token op o :
  _refresh_token (self (run_op op o).2) = _refresh_token (self o)
  /\ _account_user_id (self (run_op op o).2) = _account_user_id (self o).
Proof.
  revert o. change (keeps_identity (run_op op)).
  destruct op as [v|v|v side T|side st]; cbn [run_op].
  - unfold initialize. keeps_identity_tac.
  - unfold refresh_state. keeps_identity_tac.
  - unfold set_temp. keeps_identity_tac.
  - unfold set_power. keeps_identity_tac.
Qed.

(** ** Failures *)

(** X13. When the refresh is refused or fails, an operation that
    starts with an expired token raises the error of the refresh as it
    is, having issued the refresh call and nothing else; the client and
    the cached state are as before. *)
Theorem failed_refresh_aborts_operation op o e :
  op_ready op (world o) ->
  expired o ->
  (refresh (_refresh_token (self o)) (tick (world o))).1 = Raise e ->
  run_op op o =
  (Raise e,
   mkObj (self o)
     (issue (refresh_request (_refresh_token (self o))) (tick (world o)))).
Proof.
  intros Hr He Hf.
  assert (Ht : _token o =
               (Raise e,
                mkObj (self o)
                  (issue (refresh_request (_refresh_token (self o)))
                     (tick (world o))))).
  { rewrite token_unfold. unfold expired in He. apply Z.ltb_lt in He.
    rewrite He, Hf. reflexivity. }
  destruct op as [v|v|v side T|side st]; cbn [run_op op_ready] in *.
  - unfold initialize. rewrite bind_account. cbv beta.
    unfold bind at 1. rewrite Ht. reflexivity.
  - unfold refresh_state. rewrite bind_account. cbv beta.
    unfold bind at 1. rewrite Ht. reflexivity.
  - destruct Hr as [b Hb]. rewrite (set_temp_unfold _ _ _ _ _ Hb).
    unfold bind. rewrite Ht. reflexivity.
  - destruct Hr as [b Hb]. rewrite (set_power_unfold _ _ _ _ Hb).
    unfold bind. rewrite Ht. reflexivity.
Qed.

Lemma failed_refresh_aborts_operation_witness :
  (run_op (OpRefreshState Slp8)
     (mkObj (sample_client (Some "u1")) rejecting_world)).1
  = Raise (KeyError "access_token").
Proof.
  rewrite (failed_refresh_aborts_operation (OpRefreshState Slp8)
             (mkObj (sample_client (Some "u1")) rejecting_world)
             (KeyError "access_token")).
  - reflexivity.
  - exact I.
  - unfold expired. cbn. lia.
  - vm_compute. reflexivity.
Defined.

Lemma keeps_initialize_fetch v : keeps (initialize_fetch v).
Proof.
  unfold initialize_fetch.
  apply keeps_bind; [apply fetch_user_device_keeps|intros ud].
  apply keeps_bind; [apply fetch_bed_name_keeps|intros n].
  keeps_all.
Qed.

Lemma initialize_bind_result v user device o :
  (initialize_bind v user device o).1 = Ok tt
  \/ (initialize_bind v user device o).1 = Raise (AttributeError "right").
Proof.
  unfold initialize_bind. destruct (decide (current_side user = Left)).
  - left. reflexivity.
  - destruct v; [right|left]; reflexivity.
Qed.

(** X14. [initialize] binds nothing unless it gets as far as the
    bindings: when it raises anything but the [AttributeError] of the
    [8slp] assignment, the side map and every cached state are as they
    were before the call. *)
Theorem failed_initialize_binds_nothing v o e :
  (initialize v o).1 = Raise e ->
  e <> AttributeError "right" ->
  Client_sides (world (initialize v o).2) = Client_sides (world o)
  /\ heap (world (initialize v o).2) = heap (world o).
Proof.
  rewrite initialize_phases. unfold bind.
  destruct (keeps_initialize_fetch v o) as (_ & Kh & _ & Ks).
  destruct (initialize_fetch v o) as [[ud|e'] o1]; cbn [fst snd] in *.
  - intros H Hne. exfalso.
    destruct (initialize_bind_result v ud.1 ud.2 o1) as [R|R];
      rewrite R in H; congruence.
  - intros _ _. split; assumption.
Qed.

Lemma failed_initialize_binds_nothing_witness :
  Client_sides
    (world (initialize Eightslp
              (mkObj (sample_client (Some "u1")) rejecting_world)).2)
  = ∅.
Proof.
  apply (failed_initialize_binds_nothing Eightslp
           (mkObj (sample_client (Some "u1")) rejecting_world)
           (KeyError "access_token")).
  - vm_compute. reflexivity.
  - discriminate.
Defined.

(** X15. [refresh_state] assigns the right side first: when the side
    map has no entry for Right (as after the failed [initialize] of
    [8slp]) it raises [KeyError] once the snapshots are fetched, and the
    state of the left side keeps its old values. *)
Theorem refresh_state_without_right_side v o user device :
  (fetch_user_device v o).1 = Ok (user, device) ->
  Client_sides (world o) !! Right = None ->
  (refresh_state v o).1 = Raise (KeyError "BedSide.Right")
  /\ heap (world (refresh_state v o).2) = heap (world o)
  /\ Client_sides (world (refresh_state v o).2) = Client_sides (world o).
Proof.
  intros H1 HR. rewrite refresh_state_phases. unfold bind.
  destruct (fetch_user_device_keeps v o) as (_ & Kh & _ & Ks).
  destruct (fetch_user_device v o) as [[ud|e'] o1]; cbn [fst snd] in *;
    [|discriminate].
  injection H1 as ->. cbn [snd].
  unfold refresh_state_assign, bind, liftW, sides_setattr, sides_getitem.
  unfold bind. rewrite Ks, HR. cbn. repeat split; assumption.
Qed.

Lemma refresh_state_without_right_side_witness :
  (refresh_state Slp8 (initialize Slp8 (sample_obj "u1" "right" 3600)).2).1
  = Raise (KeyError "BedSide.Right").
Proof.
  apply (refresh_state_without_right_side Slp8
           (initialize Slp8 (sample_obj "u1" "right" 3600)).2
           (mkGetUserResponse (JList [JStr "D"]) "D" Right)
           (mkGetDeviceResponse On (JInt 3) (JInt 4) (JInt 0)
              Off (JInt (-2)) (JInt 7) (JInt 4))).
  - vm_compute. reflexivity.
  - vm_compute. reflexivity.
Defined.

Lemma refresh_state_assign_succeeds device o lL lR bL bR :
  Client_sides (world o) !! Left = Some lL ->
  Client_sides (world o) !! Right = Some lR ->
  heap (world o) !! lL = Some bL ->
  heap (world o) !! lR = Some bR ->
  (refresh_state_assign device o).1 = Ok tt.
Proof.
  intros HL HR HbL HbR. unfold refresh_state_assign, bind.
  erewrite liftW_sides_setattr; [|exact HR|exact HbR].
  erewrite liftW_sides_setattr; [|exact HR|cbn; apply lookup_insert_eq].
  erewrite liftW_sides_setattr; [|exact HR|cbn; apply lookup_insert_eq].
  destruct (decide (lL = lR)) as [->|Hne].
  - erewrite liftW_sides_setattr; [|exact HL|cbn; apply lookup_insert_eq].
    erewrite liftW_sides_setattr; [|exact HL|cbn; apply lookup_insert_eq].
    erewrite liftW_sides_setattr; [|exact HL|cbn; apply lookup_insert_eq].
    reflexivity.
  - erewrite liftW_sides_setattr;
      [|exact HL|cbn; rewrite !lookup_insert_ne by congruence; exact HbL].
    erewrite liftW_sides_setattr; [|exact HL|cbn; apply lookup_insert_eq].
    erewrite liftW_sides_setattr; [|exact HL|cbn; apply lookup_insert_eq].
    reflexivity.
Qed.

(** X16. When the left side is bound, a [refresh_state] that raises
    has changed no cached state: the six assignments either all take
    place or none does. *)
Theorem failed_refresh_state_changes_nothing v o e :
  is_Some (side_state (world o) Left) ->
  (refresh_state v o).1 = Raise e ->
  heap (world (refresh_state v o).2) = heap (world o)
  /\ Client_sides (world (refresh_state v o).2) = Client_sides (world o).
Proof.
  intros [bL HbL]. apply side_state_inv in HbL as (lL & HL & HbL).
  rewrite refresh_state_phases. unfold bind.
  destruct (fetch_user_device_keeps v o) as (_ & Kh & _ & Ks).
  destruct (fetch_user_device v o) as [[ud|e'] o1]; cbn [fst snd] in *;
    [|intros _; split; assumption].
  rewrite <- Ks in HL. rewrite <- Kh in HbL.
  destruct (Client_sides (world o1) !! Right) as [lR|] eqn:HR.
  - destruct (heap (world o1) !! lR) as [bR|] eqn:HbR.
    + rewrite (refresh_state_assign_succeeds ud.2 o1 lL lR bL bR HL HR HbL HbR).
      discriminate.
    + intros _. unfold refresh_state_assign, bind, liftW, sides_setattr,
        sides_getitem, deref. unfold bind. rewrite HR. cbn. rewrite HbR.
      cbn. split; assumption.
  - intros _. unfold refresh_state_assign, bind, liftW, sides_setattr,
      sides_getitem. unfold bind. rewrite HR. cbn. split; assumption.
Qed.

Lemma failed_refresh_state_changes_nothing_witness :
  let o := (initialize Slp8 (sample_obj "u1" "right" 3600)).2 in
  heap (world (refresh_state Slp8 o).2) = heap (world o).
Proof.
  intros o.
  apply (failed_refresh_state_changes_nothing Slp8 o
           (KeyError "BedSide.Right")).
  - eexists. vm_compute. reflexivity.
  - vm_compute. reflexivity.
Defined.

(** ** Side binding at the edges *)

(** X17. When the service reports the side [both] for the account,
    [initialize] of [eightslp] binds the account to the right side and
    gives the left side the guest id named after the right side,
    [guest-{device_id}-right]. *)
Theorem initialize_with_side_both o user device name :
  (fetch_user_device Eightslp o).1 = Ok (user, device) ->
  (fetch_bed_name user (fetch_user_device Eightslp o).2).1 = Ok name ->
  current_side user = Both ->
  (initialize Eightslp o).1 = Ok tt
  /\ _user_id <$> side_state (world (initialize Eightslp o).2) Right
     = Some (_account_user_id (self o))
  /\ _user_id <$> side_state (world (initialize Eightslp o).2) Left
     = Some (Some (guest_id (current_device user) Right)).
Proof.
  intros H1 H2 Hs.
  pose proof (fetch_user_device_keeps Eightslp o) as (Ka & _).
  destruct (fetch_user_device Eightslp o) as [r1 o1] eqn:E1.
  cbn [fst snd] in H1, H2, Ka. subst r1.
  pose proof (fetch_bed_name_keeps user o1) as (Kb & _).
  destruct (fetch_bed_name user o1) as [r2 o2] eqn:E2.
  cbn [fst snd] in H2, Kb. subst r2.
  rewrite (initialize_run Eightslp o user device o1 name o2 E1 E2
             (or_introl eq_refl)).
  cbn [fst snd world].
  destruct (bound_world_sides (world o2)
              (left_state (_account_user_id (self o2)) user device)
              (right_state (_account_user_id (self o2)) user device))
    as (_ & _ & BL & BR).
  rewrite BL, BR, Kb, Ka. unfold left_state, right_state. cbn.
  rewrite Hs. cbn. repeat split.
Qed.

Lemma initialize_with_side_both_witness :
  _user_id <$>
    side_state (world (initialize Eightslp (sample_obj "u1" "both" 3600)).2)
      Left
  = Some (Some "guest-D-right").
Proof.
  apply (initialize_with_side_both (sample_obj "u1" "both" 3600)
           (mkGetUserResponse (JList [JStr "D"]) "D" Both)
           (mkGetDeviceResponse On (JInt 3) (JInt 4) (JInt 0)
              Off (JInt (-2)) (JInt 4) (JInt 7))
           (JStr "Pod")).
  - vm_compute. reflexivity.
  - vm_compute. reflexivity.
  - reflexivity.
Defined.

Lemma initialize_bind_keeps_self v user device o :
  self (initialize_bind v user device o).2 = self o.
Proof.
  unfold initialize_bind. destruct (decide (current_side user = Left)).
  - reflexivity.
  - destruct v; reflexivity.
Qed.

(** X18. [bed_name] raises [AttributeError] on a client that has just
    been built, and returns the friendly name of the current device
    once [initialize] has looked it up, also when the [8slp]
    [initialize] fails afterwards in its bindings. *)
Theorem bed_name_set_by_initialize v :
  (forall rt uid w c w',
     Client__init__ v rt uid w = (Ok c, w') ->
     (bed_name (mkObj c w')).1 = Raise (AttributeError "_bed_name"))
  /\ (forall o user device name,
        (fetch_user_device v o).1 = Ok (user, device) ->
        (fetch_bed_name user (fetch_user_device v o).2).1 = Ok name ->
        (bed_name (initialize v o).2).1 = Ok name).
Proof.
  split.
  - intros rt uid w c w' Hc.
    assert (Hn : Client__init__ v rt uid w =
                 (Ok (new_client v rt uid (clock w (ticks w))), tick w)).
    { destruct v, rt, uid; try reflexivity. cbn in Hc. discriminate. }
    rewrite Hn in Hc. injection Hc as <- <-. reflexivity.
  - intros o user device name H1 H2.
    rewrite initialize_phases. unfold bind at 1.
    unfold initialize_fetch, bind.
    destruct (fetch_user_device v o) as [r1 o1].
    cbn [fst snd] in H1, H2. subst r1. cbn [fst snd].
    destruct (fetch_bed_name user o1) as [r2 o2].
    cbn [fst snd] in H2. subst r2.
    cbn [set_bed_name bind get_self set_self ret fst snd].
    unfold set_bed_name, bind, get_self, set_self, ret. cbn [fst snd].
    unfold bed_name, bind, get_self.
    rewrite initialize_bind_keeps_self. reflexivity.
Qed.

Lemma bed_name_set_by_initialize_witness :
  (bed_name (initialize Slp8 (sample_obj "u1" "right" 3600)).2).1
  = Ok (JStr "Pod")
  /\ (bed_name (mkObj (new_client Slp8 None None 0) (tick rejecting_world))).1
     = Raise (AttributeError "_bed_name").
Proof.
  destruct (bed_name_set_by_initialize Slp8) as (Ha & Hb).
  split.
  - apply (Hb (sample_obj "u1" "right" 3600)
             (mkGetUserResponse (JList [JStr "D"]) "D" Right)
             (mkGetDeviceResponse On (JInt 3) (JInt 4) (JInt 0)
                Off (JInt (-2)) (JInt 7) (JInt 4))).
    + vm_compute. reflexivity.
    + vm_compute. reflexivity.
  - apply (Ha None None rejecting_world). reflexivity.
Defined.

(** ** Device names *)

Lemma device_names_loop_foldl devs entries out :
  Forall2 lists_device devs entries ->
  device_names_loop devs out
  = Ok (foldl (fun m e => <[e.1 := e.2]> m) out entries).
Proof.
  intros H. revert out.
  induction H as [|dev e devs entries [Hn Hi] _ IH]; intros out.
  - reflexivity.
  - cbn. rewrite Hn, Hi. apply IH.
Qed.

Lemma foldl_insert_unlisted (entries : list (string * json))
    (out : gmap string json) id :
  id ∉ entries.*1 ->
  foldl (fun m e => <[e.1 := e.2]> m) out entries !! id = out !! id.
Proof.
  revert out. induction entries as [|e entries IH]; intros out Hn.
  - reflexivity.
  - cbn in *. apply not_elem_of_cons in Hn as [Hne Hn].
    rewrite IH by exact Hn. apply lookup_insert_ne. congruence.
Qed.

Lemma foldl_insert_last (pre post : list (string * json))
    (out : gmap string json) id name :
  id ∉ post.*1 ->
  foldl (fun m e => <[e.1 := e.2]> m) out (pre ++ (id, name) :: post) !! id
  = Some name.
Proof.
  intros Hn. rewrite foldl_app. cbn.
  rewrite foldl_insert_unlisted by exact Hn. apply lookup_insert_eq.
Qed.

Lemma get_device_names_list uid t w st top devs :
  server w (log w) (names_request uid t)
    = HttpResponse st (Some (JDict top)) ->
  dict_get "devices" top = Some (JList devs) ->
  (get_device_names uid (JStr t) w).1 = device_names_loop devs ∅.
Proof.
  intros Hs Hd. unfold get_device_names, bind.
  rewrite send_request_bearer. unfold names_request, bearer in *.
  rewrite Hs. cbn. unfold lift_result. cbn. rewrite Hd. reflexivity.
Qed.

(** X19. [get_device_names] on a household list whose entries have
    string ids returns a mapping in which a device that is listed has
    the friendly name of its last listing and a device that is not
    listed has no entry. *)
Theorem get_device_names_last_listing_wins uid t w st top devs entries :
  server w (log w) (names_request uid t)
    = HttpResponse st (Some (JDict top)) ->
  dict_get "devices" top = Some (JList devs) ->
  Forall2 lists_device devs entries ->
  exists names,
    (get_device_names uid (JStr t) w).1 = Ok names
    /\ (forall id, id ∉ entries.*1 -> names !! id = None)
    /\ (forall pre id name post,
          entries = pre ++ (id, name) :: post -> id ∉ post.*1 ->
          names !! id = Some name).
Proof.
  intros Hs Hd Hl. eexists. split; [|split].
  - rewrite (get_device_names_list uid t w st top devs Hs Hd).
    apply device_names_loop_foldl. exact Hl.
  - intros id Hn. rewrite foldl_insert_unlisted by exact Hn.
    apply lookup_empty.
  - intros pre id name post -> Hn. apply foldl_insert_last. exact Hn.
Qed.

Lemma get_device_names_last_listing_wins_witness :
  exists names,
    (get_device_names (Some "u1") (JStr "tok")
       (sample_world "u1" "left" 3600)).1 = Ok names
    /\ names !! "D" = Some (JStr "Pod")
    /\ names !! "E" = None.
Proof.
  destruct (get_device_names_last_listing_wins (Some "u1") "tok"
              (sample_world "u1" "left" 3600) 200%Z
              [("devices",
                JList [JDict [("deviceId", JStr "D");
                              ("friendlyName", JStr "Pod")]])]
              [JDict [("deviceId", JStr "D"); ("friendlyName", JStr "Pod")]]
              [("D", JStr "Pod")])
    as (names & Hn & Hu & Hl).
  - reflexivity.
  - reflexivity.
  - repeat constructor.
  - exists names. split; [exact Hn|]. split.
    + apply (Hl [] "D" (JStr "Pod") []); [reflexivity|]. cbn. apply not_elem_of_nil.
    + apply Hu. cbn. apply not_elem_of_cons.
      split; [discriminate|apply not_elem_of_nil].
Defined.

(** ** The user snapshot *)

Lemma get_user_unknown_side uid t w st top u cd sv :
  server w (log w) (user_request uid t)
    = HttpResponse st (Some (JDict top)) ->
  dict_get "user" top = Some (JDict u) ->
  dict_get "currentDevice" u = Some (JDict cd) ->
  dict_get "side" cd = Some sv ->
  (forall s, sv <> JStr (BedSide_value s)) ->
  (get_user uid (JStr t) w).1 = Raise ValueError.
Proof.
  intros Hs Hu Hc Hv Hn. unfold get_user, bind.
  rewrite send_request_bearer. unfold user_request, bearer in *.
  rewrite Hs. cbn. unfold lift_result. cbn. rewrite Hu. cbn. rewrite Hc. cbn.
  rewrite Hv. rewrite (BedSide_of_value_other sv Hn). reflexivity.
Qed.

Lemma get_user_log uid t w :
  log (get_user uid (JStr t) w).2 = log w ++ [user_request uid t].
Proof.
  unfold get_user, bind. rewrite send_request_bearer.
  fold (user_request uid t).
  destruct (reply_json _) as [res|e]; [|reflexivity].
  unfold lift_result, ret, raise. cbn [fst snd].
  repeat match goal with
  | |- context [match ?x with _ => _ end] =>
      lazymatch x with
      | context [match _ with _ => _ end] => fail
      | _ => destruct x; try reflexivity
      end
  end.
Qed.

(** X20. When the user snapshot names a side other than [left],
    [right] or [both], [initialize] raises [ValueError] right after the
    user request: the device is not queried and no side is bound. *)
Theorem initialize_rejects_unknown_side v o t st top u cd sv :
  (_token o).1 = Ok (JStr t) ->
  server (world (_token o).2) (log (world (_token o).2))
    (user_request (_account_user_id (self o)) t)
    = HttpResponse st (Some (JDict top)) ->
  dict_get "user" top = Some (JDict u) ->
  dict_get "currentDevice" u = Some (JDict cd) ->
  dict_get "side" cd = Some sv ->
  (forall s, sv <> JStr (BedSide_value s)) ->
  (initialize v o).1 = Raise ValueError
  /\ log (world (initialize v o).2)
     = log (world (_token o).2)
       ++ [user_request (_account_user_id (self o)) t]
  /\ Client_sides (world (initialize v o).2) = Client_sides (world o).
Proof.
  intros Ht Hs Hu Hc Hv Hn.
  pose proof (keeps_token o) as (_ & _ & _ & Ks).
  pose proof (get_user_unknown_side _ t (world (_token o).2) st top u cd sv
                Hs Hu Hc Hv Hn) as Hg.
  assert (Hi : initialize v o =
               (Raise ValueError,
                mkObj (self (_token o).2)
                  (get_user (_account_user_id (self o)) (JStr t)
                     (world (_token o).2)).2)).
  { unfold initialize. rewrite bind_account. cbv beta. unfold bind at 1.
    destruct (_token o) as [[tok|e] o1]; cbn [fst snd] in *; [|discriminate].
    injection Ht as ->. unfold bind at 1. unfold liftW at 1.
    destruct (get_user _ _ _) as [r w2]. cbn [fst snd] in *. subst r.
    reflexivity. }
  rewrite Hi. cbn [fst snd world].
  split; [reflexivity|]. split.
  - apply get_user_log.
  - destruct (net_only_get_user (_account_user_id (self o)) (JStr t)
                (world (_token o).2)) as (_ & _ & Kg).
    congruence.
Qed.

Lemma initialize_rejects_unknown_side_witness :
  (initialize Eightslp (sample_obj "u1" "solo" 3600)).1 = Raise ValueError.
Proof.
  apply (initialize_rejects_unknown_side Eightslp
           (sample_obj "u1" "solo" 3600) "tok" 200%Z
           [("user",
             JDict [("devices", JList [JStr "D"]);
                    ("currentDevice",
                     JDict [("id", JStr "D"); ("side", JStr "solo")])])]
           [("devices", JList [JStr "D"]);
            ("currentDevice", JDict [("id", JStr "D"); ("side", JStr "solo")])]
           [("id", JStr "D"); ("side", JStr "solo")] (JStr "solo")).
  - vm_compute. reflexivity.
  - vm_compute. reflexivity.
  - reflexivity.
  - reflexivity.
  - reflexivity.
  - intros []; discriminate.
Defined.

(** ** No retry *)

Lemma at_most_weaken {A} n n' (m : M World A) :
  at_most n m -> n <= n' -> at_most n' m.
Proof.
  intros H Hn w. destruct (H w) as (rs & Hl & Hr).
  exists rs. split; [exact Hl|lia].
Qed.

Lemma at_most_ret {A} (a : A) : at_most 0 (ret a).
Proof. intros w. exists []. split; [symmetry; apply app_nil_r|reflexivity]. Qed.

Lemma at_most_raise {A} e : at_most 0 (@raise World A e).
Proof. intros w. exists []. split; [symmetry; apply app_nil_r|reflexivity]. Qed.

Lemma at_most_lift_result {A} (r : Result A) : at_most 0 (lift_result r).
Proof. intros w. exists []. split; [symmetry; apply app_nil_r|reflexivity]. Qed.

Lemma at_most_bind {A B} n1 n2 (m : M World A) (k : A -> M World B) :
  at_most n1 m -> (forall a, at_most n2 (k a)) -> at_most (n1 + n2) (bind m k).
Proof.
  intros Hm Hk w. unfold bind.
  destruct (Hm w) as (rs & Hl & Hr).
  destruct (m w) as [[a|e] w1]; cbn in *.
  - destruct (Hk a w1) as (rs' & Hl' & Hr').
    exists (rs ++ rs'). split.
    + rewrite Hl', Hl. symmetry. apply app_assoc.
    + rewrite length_app. lia.
  - exists rs. split; [exact Hl|lia].
Qed.

Lemma at_most_send_request url m p auth : at_most 1 (send_request url m p auth).
Proof.
  intros w. destruct (send_request_log url m p auth w) as [H|[hs H]].
  - exists []. split; [rewrite H; symmetry; apply app_nil_r|cbn; lia].
  - eexists. split; [exact H|reflexivity].
Qed.

(** After its single call to [send_request] a gateway function only
    takes the response apart. *)
Ltac pure_tail :=
  repeat first
    [ apply at_most_ret | apply at_most_raise | apply at_most_lift_result
    | apply (at_most_bind 0 0); [|intros ?]
    | match goal with
      | |- at_most _ (match ?x with _ => _ end) => destruct x
      | |- at_most _ (if ?x then _ else _) => destruct x
      end ].

Ltac one_call :=
  apply (at_most_bind 1 0); [apply at_most_send_request|intros ?; pure_tail].

Lemma at_most_login u p : at_most 1 (login u p).
Proof. unfold login. one_call. Qed.

Lemma at_most_refresh rt : at_most 1 (refresh rt).
Proof. unfold refresh. one_call. Qed.

Lemma at_most_get_user uid t : at_most 1 (get_user uid t).
Proof. unfold get_user. one_call. Qed.

Lemma at_most_get_device v dev t : at_most 1 (get_device v dev t).
Proof. unfold get_device. one_call. Qed.

Lemma at_most_get_device_names uid t : at_most 1 (get_device_names uid t).
Proof. unfold get_device_names. one_call. Qed.

Lemma at_most_set_temperature v uid T t p :
  at_most 1 (set_temperature v uid T t p).
Proof. unfold set_temperature. one_call. Qed.

Lemma at_most_turn_on uid t : at_most 1 (turn_on uid t).
Proof. unfold turn_on. one_call. Qed.

Lemma at_most_turn_off uid t : at_most 1 (turn_off uid t).
Proof. unfold turn_off. one_call. Qed.

Lemma at_most_quiet_world {A} (m : M World A) :
  (forall w, log (m w).2 = log w) -> at_most 0 m.
Proof.
  intros H w. exists []. split; [rewrite H; symmetry; apply app_nil_r|reflexivity].
Qed.

Lemma at_most_sides_setattr s f : at_most 0 (sides_setattr s f).
Proof.
  apply at_most_quiet_world. intros w.
  unfold sides_setattr, bind, sides_getitem, deref, store.
  destruct (Client_sides w !! s); [|reflexivity].
  destruct (heap w !! n); reflexivity.
Qed.

Lemma at_most_sides_getitem s : at_most 0 (sides_getitem s).
Proof.
  apply at_most_quiet_world. intros w. unfold sides_getitem.
  destruct (Client_sides w !! s); reflexivity.
Qed.

Lemma at_most_deref l : at_most 0 (deref l).
Proof.
  apply at_most_quiet_world. intros w. unfold deref.
  destruct (heap w !! l); reflexivity.
Qed.

Lemma at_most_alloc b : at_most 0 (alloc b).
Proof. apply at_most_quiet_world. reflexivity. Qed.

Lemma at_most_sides_setitem s l : at_most 0 (sides_setitem s l).
Proof. apply at_most_quiet_world. reflexivity. Qed.

Lemma at_most_obj_weaken {A} n n' (m : M Obj A) :
  at_most_obj n m -> n <= n' -> at_most_obj n' m.
Proof.
  intros H Hn o. destruct (H o) as (rs & Hl & Hr).
  exists rs. split; [exact Hl|lia].
Qed.

Lemma at_most_obj_pure {A} (m : M Obj A) :
  (forall o, log (world (m o).2) = log (world o)) -> at_most_obj 0 m.
Proof.
  intros H o. exists []. split; [rewrite H; symmetry; apply app_nil_r|reflexivity].
Qed.

Lemma at_most_obj_liftW {A} n (g : M World A) :
  at_most n g -> at_most_obj n (liftW g).
Proof.
  intros Hg o. unfold liftW. destruct (Hg (world o)) as (rs & Hl & Hr).
  destruct (g (world o)) as [r w1]. cbn in *. exists rs. split; assumption.
Qed.

Lemma at_most_obj_token : at_most_obj 1 _token.
Proof.
  intros o. destruct (token_log o) as [H|H].
  - exists []. split; [rewrite H; symmetry; apply app_nil_r|cbn; lia].
  - eexists. split; [exact H|reflexivity].
Qed.

Lemma at_most_obj_bind {A B} n1 n2 (m : M Obj A) (k : A -> M Obj B) :
  at_most_obj n1 m -> (forall a, at_most_obj n2 (k a)) ->
  at_most_obj (n1 + n2) (bind m k).
Proof.
  intros Hm Hk o. unfold bind.
  destruct (Hm o) as (rs & Hl & Hr).
  destruct (m o) as [[a|e] o1]; cbn in *.
  - destruct (Hk a o1) as (rs' & Hl' & Hr').
    exists (rs ++ rs'). split.
    + rewrite Hl', Hl. symmetry. apply app_assoc.
    + rewrite length_app. lia.
  - exists rs. split; [exact Hl|lia].
Qed.

Lemma at_most_obj_if_dec {A} {P Q : Prop} (d : {P} + {Q}) n1 n2
    (m1 m2 : M Obj A) :
  at_most_obj n1 m1 -> at_most_obj n2 m2 ->
  at_most_obj (Nat.max n1 n2) (if d then m1 else m2).
Proof.
  intros H1 H2. destruct d.
  - eapply at_most_obj_weaken; [exact H1|lia].
  - eapply at_most_obj_weaken; [exact H2|lia].
Qed.

Lemma at_most_obj_copy {A} (v : Copy) n1 n2 (m1 m2 : M Obj A) :
  at_most_obj n1 m1 -> at_most_obj n2 m2 ->
  at_most_obj (Nat.max n1 n2) (match v with Slp8 => m1 | Eightslp => m2 end).
Proof.
  intros H1 H2. destruct v.
  - eapply at_most_obj_weaken; [exact H1|lia].
  - eapply at_most_obj_weaken; [exact H2|lia].
Qed.

Ltac budget_tac :=
  repeat first
    [ apply at_most_obj_token
    | apply at_most_obj_pure; intros ?; reflexivity
    | apply at_most_obj_liftW;
      first [ apply at_most_get_user | apply at_most_get_device
            | apply at_most_get_device_names | apply at_most_set_temperature
            | apply at_most_turn_on | apply at_most_turn_off
            | apply at_most_sides_setattr | apply at_most_sides_getitem
            | apply at_most_deref | apply at_most_alloc
            | apply at_most_sides_setitem ]
    | apply at_most_obj_if_dec | apply at_most_obj_copy
    | eapply at_most_obj_bind; [|intros ?] ].

(** X21. Nothing is retried. Each gateway function issues at most one
    request, and an operation issues at most one request per gateway call
    and one refresh per token acquisition: at most six requests for
    [initialize], four for [refresh_state], two for [set_temp] and
    [set_power], whatever the responses and failures. *)
Theorem operations_never_retry op o :
  exists rs,
    log (world (run_op op o).2) = log (world o) ++ rs
    /\ length rs <= request_budget op.
Proof.
  revert o. change (at_most_obj (request_budget op) (run_op op)).
  destruct op as [v|v|v side T|side st]; cbn [run_op request_budget].
  - unfold initialize.
    eapply at_most_obj_weaken; [budget_tac|cbn; lia].
  - unfold refresh_state.
    eapply at_most_obj_weaken; [budget_tac|cbn; lia].
  - unfold set_temp.
    eapply at_most_obj_weaken; [budget_tac|cbn; lia].
  - unfold set_power.
    eapply at_most_obj_weaken; [budget_tac|cbn; lia].
Qed.

(** X22. When the service cannot be reached, every gateway function
    raises the exception of [requests.request] as it is, after the one
    attempt. *)
Theorem unreachable_service_raises_request_exception w :
  (forall r, server w (log w) r = ConnectionFailed) ->
  forall u p rt uid dev t v T pw,
    (login u p w).1 = Raise RequestException
    /\ (refresh rt w).1 = Raise RequestException
    /\ (get_user uid (JStr t) w).1 = Raise RequestException
    /\ (get_device v dev (JStr t) w).1 = Raise RequestException
    /\ (get_device_names uid (JStr t) w).1 = Raise RequestException
    /\ (set_temperature v uid T (JStr t) pw w).1 = Raise RequestException
    /\ (turn_on uid (JStr t) w).1 = Raise RequestException
    /\ (turn_off uid (JStr t) w).1 = Raise RequestException.
Proof.
  intros H u p rt uid dev t v T pw.
  unfold login, refresh, get_user, get_device, get_device_names,
    set_temperature, turn_on, turn_off, bind.
  rewrite !send_request_anonymous, !send_request_bearer, !H.
  repeat split.
Qed.

Lemma unreachable_service_raises_request_exception_witness :
  (get_device Slp8 "D" (JStr "tok") offline_world).1 = Raise RequestException.
Proof.
  apply (unreachable_service_raises_request_exception offline_world
           (fun _ => eq_refl) "u" "p" None None "D" "tok" Slp8 0%Z false).
Defined.

(** ** The climate entity *)

Lemma update_status_numeric st s x y :
  py_number (target st) = Some x ->
  py_number (temperature st) = Some y ->
  _update_status st s =
  (Ok tt,
   mkEnt (with_displayed (target st) (temperature st) (displayed_mode st)
            (displayed_action st x y) (entity s))
     (client s)).
Proof.
  intros Hx Hy.
  unfold _update_status, bind, get_entity, set_entity, lift_result,
    py_eq, py_gt, displayed_mode, displayed_action.
  rewrite Hx, Hy. cbn.
  destruct (status st); cbn; [|reflexivity].
  destruct (x =? y)%Z; cbn; [reflexivity|].
  destruct (y <? x)%Z; reflexivity.
Qed.

Lemma update_from_cache_numeric s st x y :
  side_state (world (client s)) (entity_side (entity s)) = Some st ->
  py_number (target st) = Some x ->
  py_number (temperature st) = Some y ->
  update_from_cache s =
  (Ok tt,
   mkEnt (with_displayed (target st) (temperature st) (displayed_mode st)
            (displayed_action st x y) (entity s))
     (client s)).
Proof.
  intros Hs Hx Hy. apply side_state_inv in Hs as (l & Hl & Hb).
  destruct s as [e [c w]]. cbn [client entity world] in *.
  unfold update_from_cache, bind, get_entity, liftC, liftW, sides_getitem,
    deref. cbn [client entity world self].
  rewrite Hl. cbn [client entity world self]. rewrite Hb.
  apply (update_status_numeric st (mkEnt e (mkObj c w)) x y Hx Hy).
Qed.

Lemma command_then_cache (cmd : M Obj unit) s st x y :
  keeps cmd ->
  side_state (world (client s)) (entity_side (entity s)) = Some st ->
  py_number (target st) = Some x ->
  py_number (temperature st) = Some y ->
  (cmd (client s)).1 = Ok tt ->
  bind (liftC cmd) (fun _ => update_from_cache) s =
  (Ok tt,
   mkEnt (with_displayed (target st) (temperature st) (displayed_mode st)
            (displayed_action st x y) (entity s))
     (cmd (client s)).2).
Proof.
  intros Hk Hs Hx Hy Hok. unfold bind, liftC.
  destruct (Hk (client s)) as (_ & Kh & _ & Ks).
  destruct (cmd (client s)) as [r o1]. cbn [fst snd] in *. subst r.
  apply (update_from_cache_numeric (mkEnt (entity s) o1) st x y);
    [|assumption|assumption].
  cbn [client entity]. unfold side_state in *. rewrite Ks, Kh. exact Hs.
Qed.

(** X23. A command shows the state cached before it. When
    [async_set_hvac_mode] or [async_set_temperature] succeeds on an
    entity whose side has a cached state with numeric temperatures, the
    entity afterwards displays exactly that cached state: the target
    temperature is the old target, not the commanded one, and the mode
    is the one that follows from the old power status. *)
Theorem commands_display_the_cached_state v hvac_mode T s st x y :
  side_state (world (client s)) (entity_side (entity s)) = Some st ->
  py_number (target st) = Some x ->
  py_number (temperature st) = Some y ->
  ((set_power (entity_side (entity s))
      (if decide (hvac_mode = HVAC_HEAT_COOL) then On else Off)
      (client s)).1 = Ok tt ->
   (async_set_hvac_mode hvac_mode s).1 = Ok tt
   /\ entity (async_set_hvac_mode hvac_mode s).2
      = with_displayed (target st) (temperature st) (displayed_mode st)
          (displayed_action st x y) (entity s))
  /\ ((set_temp v (entity_side (entity s)) T (client s)).1 = Ok tt ->
      (async_set_temperature v (Some T) s).1 = Ok tt
      /\ entity (async_set_temperature v (Some T) s).2
         = with_displayed (target st) (temperature st) (displayed_mode st)
             (displayed_action st x y) (entity s)).
Proof.
  intros Hs Hx Hy. split; intros Hok.
  - assert (E : async_set_hvac_mode hvac_mode s =
                bind (liftC (set_power (entity_side (entity s))
                               (if decide (hvac_mode = HVAC_HEAT_COOL)
                                then On else Off)))
                  (fun _ => update_from_cache) s) by reflexivity.
    rewrite E, (command_then_cache _ s st x y
                  (keeps_set_power _ _) Hs Hx Hy Hok).
    split; reflexivity.
  - assert (E : async_set_temperature v (Some T) s =
                bind (liftC (set_temp v (entity_side (entity s)) T))
                  (fun _ => update_from_cache) s) by reflexivity.
    rewrite E, (command_then_cache _ s st x y
                  (keeps_set_temp _ _ _) Hs Hx Hy Hok).
    split; reflexivity.
Qed.

Lemma commands_display_the_cached_state_witness :
  _attr_hvac_mode (entity (async_set_hvac_mode HVAC_OFF sample_entity).2)
  = HVAC_HEAT_COOL
  /\ _attr_target_temperature
       (entity (async_set_temperature Eightslp (Some 7%Z) sample_entity).2)
     = JInt 3.
Proof.
  destruct (commands_display_the_cached_state Eightslp HVAC_OFF 7%Z
              sample_entity
              (BedStatus_new Left On (JInt 4) (Some "u1") (JInt 3)) 3%Z 4%Z)
    as (H1 & H2).
  - vm_compute. reflexivity.
  - reflexivity.
  - reflexivity.
  - destruct H1 as (_ & ->); [vm_compute; reflexivity|].
    destruct H2 as (_ & ->); [vm_compute; reflexivity|].
    split; reflexivity.
Defined.

(** X24. After a successful [async_update] the entity displays the
    device snapshot that [refresh_state] has just fetched: for the side
    of the entity, the target and current temperature of the snapshot,
    the mode that follows from its power status, and the action that
    follows from comparing the two temperatures. *)
Theorem async_update_displays_snapshot v s user device lL lR bL bR x y :
  (fetch_user_device v (client s)).1 = Ok (user, device) ->
  Client_sides (world (client s)) !! Left = Some lL ->
  Client_sides (world (client s)) !! Right = Some lR ->
  lL <> lR ->
  heap (world (client s)) !! lL = Some bL ->
  heap (world (client s)) !! lR = Some bR ->
  entity_side (entity s) = Left \/ entity_side (entity s) = Right ->
  let st := refreshed device (entity_side (entity s))
              (match entity_side (entity s) with Left => bL | _ => bR end) in
  py_number (target st) = Some x ->
  py_number (temperature st) = Some y ->
  (async_update v s).1 = Ok tt
  /\ entity (async_update v s).2
     = with_displayed (target st) (temperature st) (displayed_mode st)
         (displayed_action st x y) (entity s).
Proof.
  intros H1 HL HR Hne HbL HbR Hside st Hx Hy.
  destruct (refresh_state_post v (client s) user device lL lR bL bR
              H1 HL HR Hne HbL HbR) as (Hok & Ks & RL & RR & _).
  assert (E : async_update v s =
              (Ok tt,
               mkEnt (with_displayed (target st) (temperature st)
                        (displayed_mode st) (displayed_action st x y)
                        (entity s))
                 (refresh_state v (client s)).2)).
  { unfold async_update, bind, liftC.
    destruct (refresh_state v (client s)) as [r o1]. cbn [fst snd] in *.
    subst r.
    apply (update_from_cache_numeric (mkEnt (entity s) o1) st x y);
      [|assumption|assumption].
    cbn [client entity]. unfold side_state. rewrite Ks. subst st.
    destruct Hside as [-> | ->]; cbn [refreshed].
    - rewrite HL. exact RL.
    - rewrite HR. exact RR. }
  rewrite E. split; reflexivity.
Qed.

Lemma async_update_displays_snapshot_witness :
  _attr_current_temperature (entity (async_update Eightslp sample_entity).2)
  = JInt 4
  /\ _attr_hvac_action (entity (async_update Eightslp sample_entity).2)
     = ACTION_COOLING.
Proof.
  destruct (async_update_displays_snapshot Eightslp sample_entity
              (mkGetUserResponse (JList [JStr "D"]) "D" Left)
              (mkGetDeviceResponse On (JInt 3) (JInt 4) (JInt 0)
                 Off (JInt (-2)) (JInt 4) (JInt 7))
              0 1
              (BedStatus_new Left On (JInt 4) (Some "u1") (JInt 3))
              (BedStatus_new Right Off (JInt 4) (Some "guest-D-right")
                 (JInt (-2)))
              3%Z 4%Z) as (_ & ->).
  - vm_compute. reflexivity.
  - vm_compute. reflexivity.
  - vm_compute. reflexivity.
  - discriminate.
  - vm_compute. reflexivity.
  - vm_compute. reflexivity.
  - left. reflexivity.
  - reflexivity.
  - reflexivity.
  - split; reflexivity.
Defined.

Lemma update_status_coherent st s :
  (_update_status st s).1 = Ok tt -> coherent (entity (_update_status st s).2).
Proof.
  unfold _update_status, bind, get_entity, set_entity, lift_result, coherent.
  destruct (status st); cbv -[py_eq py_gt target temperature].
  - destruct (py_eq (target st) (temperature st)) as [[|]|e].
    + intros _. split; [split; discriminate|right; reflexivity].
    + destruct (py_gt (target st) (temperature st)) as [[|]|e].
      * intros _. split; [split; discriminate|right; reflexivity].
      * intros _. split; [split; discriminate|right; reflexivity].
      * discriminate.
    + discriminate.
  - intros _. split; [split; reflexivity|left; reflexivity].
Qed.

Lemma update_from_cache_coherent s :
  (update_from_cache s).1 = Ok tt ->
  coherent (entity (update_from_cache s).2).
Proof.
  destruct s as [e [c w]].
  unfold update_from_cache, bind, get_entity, liftC, liftW, sides_getitem,
    deref. cbn [client entity world self].
  destruct (Client_sides w !! entity_side e) as [l|];
    cbn [client entity world self fst snd]; [|discriminate].
  destruct (heap w !! l) as [st|]; cbn [fst snd]; [|discriminate].
  apply update_status_coherent.
Qed.

Lemma command_then_cache_coherent {A} (cmd : M Obj A) s :
  (bind (liftC cmd) (fun _ => update_from_cache) s).1 = Ok tt ->
  coherent (entity (bind (liftC cmd) (fun _ => update_from_cache) s).2).
Proof.
  unfold bind, liftC. destruct (cmd (client s)) as [[a|e] o1];
    cbn [fst snd]; [|discriminate].
  apply update_from_cache_coherent.
Qed.

(** X25. Whenever [async_update], [async_set_hvac_mode] or
    [async_set_temperature] returns, the entity displays a coherent
    state: the mode is [OFF] or [HEAT_COOL], and the action is [OFF]
    exactly when the mode is [OFF]. *)
Theorem entity_calls_leave_a_coherent_display c s :
  (run_entity c s).1 = Ok tt -> coherent (entity (run_entity c s).2).
Proof.
  destruct c as [v|h|v T]; cbn [run_entity].
  - apply (command_then_cache_coherent (refresh_state v)).
  - apply (command_then_cache_coherent
             (set_power (entity_side (entity s))
                (if decide (h = HVAC_HEAT_COOL) then On else Off))).
  - apply (command_then_cache_coherent
             (set_temp v (entity_side (entity s)) T)).
Qed.

Lemma entity_calls_leave_a_coherent_display_witness :
  coherent (entity (run_entity (CallSetHvacMode HVAC_HEAT) sample_entity).2).
Proof.
  apply (entity_calls_leave_a_coherent_display (CallSetHvacMode HVAC_HEAT)
           sample_entity).
  vm_compute. reflexivity.
Defined.

(** ** Config flow and setup *)

Lemma login_world u p w : (login u p w).2 = issue (login_request u p) w.
Proof.
  unfold login, bind. rewrite send_request_anonymous.
  fold (login_request u p).
  destruct (reply_json _) as [res|e]; cbn; [|reflexivity].
  unfold lift_result, ret.
  repeat match goal with
  | |- context [subscript ?j ?k] => destruct (subscript j k); cbn; try reflexivity
  end.
Qed.

(** X26. The config flow never reports [cannot_connect]. It reports
    [invalid_auth] exactly when the login returns a response whose
    [userId] is null; every failure of the login itself (connection
    failure, a body that is not JSON, a rejection whose body lacks a
    field) is reported as [unknown]. *)
Theorem config_flow_error_shown u p cfg w :
  (async_step_user (Some (u, p)) cfg w).1 <> ShowForm (Some "cannot_connect")
  /\ ((async_step_user (Some (u, p)) cfg w).1 = ShowForm (Some "invalid_auth")
      <-> exists res, (login u p w).1 = Ok res /\ user_id res = JNull)
  /\ (forall e, (login u p w).1 = Raise e ->
        (async_step_user (Some (u, p)) cfg w).1 = ShowForm (Some "unknown")).
Proof.
  unfold async_step_user, validate_input, authenticate, bind, datetime_now.
  destruct (login u p w) as [[res|e] w1]; cbn [fst snd].
  - destruct (user_id res) eqn:Eu; cbn.
    1: { split; [discriminate|]. split; [|discriminate].
         split; [intros _; exists res; split; [reflexivity|exact Eu]
                |reflexivity]. }
    all: destruct (timedelta_seconds (expires_in res)); cbn;
      try destruct (cfg _); cbn;
      (split; [discriminate|]); (split; [|discriminate]);
      (split; [discriminate|intros (r & [= <-] & Hr); congruence]).
  - split; [discriminate|]. split; [|reflexivity].
    split; [discriminate|intros (r & Hr & _); discriminate].
Qed.

Lemma config_flow_error_shown_witness :
  (async_step_user (Some ("user", "wrong")) (fun _ => false)
     rejecting_world).1 = ShowForm (Some "unknown").
Proof.
  destruct (config_flow_error_shown "user" "wrong" (fun _ => false)
              rejecting_world) as (_ & _ & H).
  apply (H (KeyError "access_token")). vm_compute. reflexivity.
Defined.

(** X27. An entry the config flow creates carries the user id, the
    access token and the refresh token of the login response, the user
    id is not null, the title is [EightSleepAccount: ] followed by the
    user name, and [expires_at] is the clock reading taken after the
    login plus the reported lifetime, with no safety margin. *)
Theorem config_flow_entry_data u p cfg w title d :
  (async_step_user (Some (u, p)) cfg w).1 = CreateEntry title d ->
  exists res n,
    (login u p w).1 = Ok res
    /\ user_id res <> JNull
    /\ entry_user_id d = user_id res
    /\ entry_access_token d = access_token res
    /\ entry_refresh_token d = refresh_token res
    /\ timedelta_seconds (expires_in res) = Ok n
    /\ entry_expires_at d = (clock w (ticks w) + seconds n)%Z
    /\ entry_username d = u
    /\ title = "EightSleepAccount: " +:+ u.
Proof.
  unfold async_step_user, validate_input, authenticate, bind, datetime_now.
  pose proof (login_world u p w) as Hw.
  destruct (login u p w) as [[res|e] w1]; cbn [fst snd] in *;
    [|discriminate].
  subst w1.
  destruct (user_id res) eqn:Eu; cbn; try discriminate.
  all: destruct (timedelta_seconds (expires_in res)) as [n|e] eqn:En; cbn;
    try discriminate.
  all: destruct (cfg _); cbn; try discriminate.
  all: intros [= <- <-]; exists res, n; cbn; rewrite Eu;
    repeat split; try discriminate; exact En.
Qed.

Lemma config_flow_entry_data_witness :
  exists res n,
    (login "user" "pw" granting_world).1 = Ok res
    /\ user_id res = JStr "u1"
    /\ timedelta_seconds (expires_in res) = Ok n
    /\ (0 + seconds n = 3600000000)%Z.
Proof.
  destruct (config_flow_entry_data "user" "pw" (fun _ => false)
              granting_world "EightSleepAccount: user"
              (mkEntryData (JStr "u1") (JStr "tok") (JStr "rt")
                 3600000000 "user"))
    as (res & n & Hl & _ & Hu & _ & _ & Hn & He & _).
  - vm_compute. reflexivity.
  - exists res, n. cbn in Hu, He.
    split; [exact Hl|]. split; [symmetry; exact Hu|].
    split; [exact Hn|]. symmetry. exact He.
Defined.

Lemma bind_log_extends {A B} P (m : M Obj A) (k : A -> M Obj B) o :
  (forall a, issues_obj P (k a)) ->
  exists rs, log (world (bind m k o).2) = log (world (m o).2) ++ rs.
Proof.
  intros Hk. unfold bind. destruct (m o) as [[a|e] o1]; cbn.
  - destruct (Hk a o1) as (rs & Hl & _). exists rs. exact Hl.
  - exists []. symmetry. apply app_nil_r.
Qed.

(** X28. Setting up an entry whose stored refresh token and user id
    are strings builds the client and starts [initialize] with the
    refresh call for the stored refresh token: the access token and
    [expires_at] stored in the entry are not used. (The clock must not
    go back by 100 seconds or more after the constructor.) *)
Theorem setup_refreshes_first d rt uid w :
  entry_refresh_token d = JStr rt ->
  entry_user_id d = JStr uid ->
  (clock w (ticks w) - seconds 100 < clock w (S (ticks w)))%Z ->
  exists r o rest,
    setup_client d w = inl (r, o)
    /\ log (world o) = log w ++ refresh_request (Some rt) :: rest.
Proof.
  intros Hr Hu Hclk. unfold setup_client. rewrite Hr, Hu. cbn [as_identifier].
  change (Client__init__ Slp8 (Some rt) (Some uid) w)
    with (Ok (new_client Slp8 (Some rt) (Some uid) (clock w (ticks w))), tick w).
  set (o0 := mkObj (new_client Slp8 (Some rt) (Some uid) (clock w (ticks w)))
               (tick w)).
  assert (He : expired o0) by (unfold expired; cbn; exact Hclk).
  assert (Hl : exists rs, log (world (initialize Slp8 o0).2)
                          = log (world (_token o0).2) ++ rs).
  { unfold initialize. rewrite bind_account. cbv beta.
    apply (bind_log_extends well_formed_request). intros tok. wf_obj. }
  destruct Hl as (rs & Hl).
  rewrite (token_expired_log o0 He) in Hl.
  exists (initialize Slp8 o0).1, (initialize Slp8 o0).2, rs. split.
  - subst o0. destruct (initialize Slp8 _). reflexivity.
  - rewrite Hl. cbn. rewrite <- app_assoc. reflexivity.
Qed.

Lemma setup_refreshes_first_witness :
  exists r o rest,
    setup_client
      (mkEntryData (JStr "u1") (JStr "tok") (JStr "rt") 3600000000 "user")
      rejecting_world = inl (r, o)
    /\ log (world o)
       = log rejecting_world ++ refresh_request (Some "rt") :: rest.
Proof.
  apply (setup_refreshes_first
           (mkEntryData (JStr "u1") (JStr "tok") (JStr "rt") 3600000000 "user")
           "rt" "u1" rejecting_world).
  - reflexivity.
  - reflexivity.
  - cbn. unfold seconds. lia.
Defined.
